(** * Serve-strategy analysis of tennis-analyzer: model and properties

  A shallow embedding of the probability model, the best-of classifier and
  the Monte Carlo simulator of [tennis_serve_analyzer.py] and
  [update_data.py], of the report of the former, of the export filter of
  the latter, and of the sample data of [tennis_demo.py].

  Modelling conventions.
  - The serve counts of a match row ([w_svpt], [w_1stIn], ...) hold whole
    numbers; they are integers ([Z]).
  - Python floats are idealised as exact rationals ([Q]): a percentage is
    the quotient of two counts, [0.58] is [58/100].  Equality of
    percentages is [Qeq] ([==]).  Where the rounding of the floats decides
    the answer (the only-first-better flag, the sign of the benefit) the
    formulas are taken in binary64 arithmetic instead ([B64],
    [FloatServe]).
  - [np.random.random()] reads the process-wide generator.  The generator,
    once seeded, is a fixed infinite sequence of draws [rnd : nat -> Q];
    the mutable part is the position in that sequence, threaded through a
    state monad.
  - Tournament names are ASCII strings. *)

From Stdlib Require Import ZArith QArith Qabs Qround Bool List String Ascii.
From Stdlib Require Import DecimalString Lia Lqa.
From ExtLib Require Import Structures.Monad Structures.MonadState.
From ExtLib Require Import Data.Monads.StateMonad.
Import ListNotations.
Import MonadNotation.

(* ===================================================================== *)
(** ** Python primitives *)
(* ===================================================================== *)

Module Py.

Local Open Scope string_scope.

(** [str.lower()] on ASCII text: [A]..[Z] move to [a]..[z]. *)
Definition lower_ascii (c : ascii) : ascii :=
  let n := nat_of_ascii c in
  if (65 <=? n)%nat && (n <=? 90)%nat then ascii_of_nat (n + 32) else c.

Fixpoint lower (s : string) : string :=
  match s with
  | EmptyString => EmptyString
  | String c s' => String (lower_ascii c) (lower s')
  end.

(** [needle in hay] for two strings: [needle] occurs as a substring. *)
Fixpoint contains (needle hay : string) : bool :=
  if prefix needle hay then true
  else match hay with
       | EmptyString => false
       | String _ hay' => contains needle hay'
       end.

(** [d.get(key, default)] for a key that may be absent. *)
Definition get_default {A : Type} (field : option A) (default : A) : A :=
  match field with
  | Some v => v
  | None => default
  end.

(** The exceptions the modelled code can raise. *)
Inductive exn : Type :=
| ZeroDivisionError.

(** [a / b] on two [int]s: true division, raising on a zero divisor. *)
Definition int_truediv (a b : Z) : exn + Q :=
  if (b =? 0)%Z then inl ZeroDivisionError else inr (inject_Z a / inject_Z b)%Q.

(** [a > b] and [a < b] on floats. *)
Definition Qltb (a b : Q) : bool := negb (Qle_bool b a).
Definition Qgtb (a b : Q) : bool := Qltb b a.

(** [round(x, 2)]: the nearest multiple of 1/100, ties to the even one. *)
Definition round_half_even (x : Q) : Z :=
  let f := Qfloor x in
  let d := (x - inject_Z f)%Q in
  if Qltb d (1 # 2) then f
  else if Qltb (1 # 2) d then (f + 1)%Z
  else if Z.even f then f else (f + 1)%Z.

Definition round2 (x : Q) : Q :=
  (inject_Z (round_half_even (x * 100)) / 100)%Q.

(** [str(n)] on an [int]. *)
Definition str_int (n : Z) : string :=
  NilZero.string_of_int (Z.to_int n).

End Py.


(* ===================================================================== *)
(** ** The serve outcome model *)
(* ===================================================================== *)

(** The four values both scripts derive from the three serve percentages
    of one performance:
<<
    only_first = first_in_pct * first_win_pct
                 + (1 - first_in_pct) * first_in_pct * first_win_pct
    traditional = first_in_pct * first_win_pct
                 + (1 - first_in_pct) * second_win_pct
    only_first_better = (first_in_pct * first_win_pct) > second_win_pct
>>
    [benefit] is the difference [only_first - traditional] that the scripts
    store (times 100) as the benefit of the performance. *)
Module Serve.

Record StrategyOutcome : Type := {
  only_first : Q;
  traditional : Q;
  benefit : Q;
  only_first_better : bool
}.

Definition serve_outcome (first_in_pct first_win_pct second_win_pct : Q)
  : StrategyOutcome :=
  let only_first :=
    (first_in_pct * first_win_pct
     + (1 - first_in_pct) * first_in_pct * first_win_pct)%Q in
  let traditional :=
    (first_in_pct * first_win_pct + (1 - first_in_pct) * second_win_pct)%Q in
  {| only_first := only_first;
     traditional := traditional;
     benefit := (only_first - traditional)%Q;
     only_first_better :=
       Py.Qgtb (first_in_pct * first_win_pct)%Q second_win_pct |}.

(** The formulas in the words of the specification. *)
Definition spec_onlyFirstExpected (firstIn firstWin : Q) : Q :=
  (firstIn * firstWin + (1 - firstIn) * firstIn * firstWin)%Q.

Definition spec_traditionalExpected (firstIn firstWin secondWin : Q) : Q :=
  (firstIn * firstWin + (1 - firstIn) * secondWin)%Q.

(** The three serve percentages of one performance, from its counts; the
    scripts compute them only under [svpt > 0], [1stIn > 0] and
    [svpt - 1stIn > 0]. *)
Definition first_in_pct (svpt fstIn : Z) : Q := (inject_Z fstIn / inject_Z svpt)%Q.
Definition first_win_pct (fstIn fstWon : Z) : Q := (inject_Z fstWon / inject_Z fstIn)%Q.
Definition second_win_pct (svpt fstIn sndWon : Z) : Q :=
  (inject_Z sndWon / inject_Z (svpt - fstIn))%Q.

End Serve.

(* ===================================================================== *)
(** ** Match rows *)
(* ===================================================================== *)

Module Csv.

(** One row of the match table after [dropna] on the eight serve columns,
    which therefore hold numbers.  The other columns may be absent from
    the table ([None]); the columns that the scripts only copy into their
    output ([match_id], [tourney_date], [round]) are left out. *)
Record Row : Type := {
  w_svpt : Z; w_1stIn : Z; w_1stWon : Z; w_2ndWon : Z;
  l_svpt : Z; l_1stIn : Z; l_1stWon : Z; l_2ndWon : Z;
  tourney_name : option string;
  tour : option string;
  surface : option string;
  score : option string;
  winner_name : option string;
  loser_name : option string
}.

(** The scripts run the same block twice per row, on the [w_] columns and
    on the [l_] columns. *)
Inductive Side : Type := Winner | Loser.

Definition svpt (side : Side) (row : Row) : Z :=
  match side with Winner => w_svpt row | Loser => l_svpt row end.
Definition fstIn (side : Side) (row : Row) : Z :=
  match side with Winner => w_1stIn row | Loser => l_1stIn row end.
Definition fstWon (side : Side) (row : Row) : Z :=
  match side with Winner => w_1stWon row | Loser => l_1stWon row end.
Definition sndWon (side : Side) (row : Row) : Z :=
  match side with Winner => w_2ndWon row | Loser => l_2ndWon row end.
Definition player_name (side : Side) (row : Row) : option string :=
  match side with Winner => winner_name row | Loser => loser_name row end.
Definition opponent_name (side : Side) (row : Row) : option string :=
  match side with Winner => loser_name row | Loser => winner_name row end.
Definition won (side : Side) : bool :=
  match side with Winner => true | Loser => false end.

End Csv.

(* ===================================================================== *)
(** ** The point loops of the simulator *)
(* ===================================================================== *)

Local Open Scope monad_scope.

Section PointLoops.

(** The sequence of draws of the seeded generator. *)
Variable rnd : nat -> Q.

(** [np.random.random()]: the next draw; the position advances by one. *)
Definition random : state nat Q :=
  i <- get ;;
  put (S i) ;;
  ret (rnd i).

(** [for _ in range(n): acc = body(acc)], on a natural bound. *)
Fixpoint repeatM {A : Type} (n : nat) (body : A -> state nat A) (acc : A)
  : state nat A :=
  match n with
  | O => ret acc
  | S n' => acc' <- body acc ;; repeatM n' body acc'
  end.

(** [range(n)] is empty for [n <= 0]. *)
Definition for_range {A : Type} (n : Z) (body : A -> state nat A) (acc : A)
  : state nat A :=
  repeatM (Z.to_nat n) body acc.

(** One service point of the traditional strategy: the body of the first
    inner loop, on the counter [trad_points_won]. *)
Definition trad_point (first_in_pct first_win_pct second_win_pct : Q)
  (trad_points_won : Z) : state nat Z :=
  u <- random ;;
  if Py.Qltb u first_in_pct then
    v <- random ;;
    if Py.Qltb v first_win_pct then ret (trad_points_won + 1)%Z
    else ret trad_points_won
  else
    v <- random ;;
    if Py.Qltb v second_win_pct then ret (trad_points_won + 1)%Z
    else ret trad_points_won.

(** One service point of the only-first strategy: the body of the second
    inner loop, on the counter [only_first_points_won]. *)
Definition only_first_point (first_in_pct first_win_pct : Q)
  (only_first_points_won : Z) : state nat Z :=
  u <- random ;;
  if Py.Qltb u first_in_pct then
    v <- random ;;
    if Py.Qltb v first_win_pct then ret (only_first_points_won + 1)%Z
    else ret only_first_points_won
  else
    v <- random ;;
    if Py.Qltb v first_in_pct then
      w <- random ;;
      if Py.Qltb w first_win_pct then ret (only_first_points_won + 1)%Z
      else ret only_first_points_won
    else ret only_first_points_won.

(** [win_threshold = 0.58 if best_of == 3 else 0.56] *)
Definition win_threshold (best_of : Z) : Q :=
  if (best_of =? 3)%Z then 58 # 100 else 56 # 100.

(** *** The per-point step in the words of the specification *)

Inductive Strategy : Type := Traditional | OnlyFirst.

(** One Bernoulli sample of probability [p]: success when the next draw is
    below [p]. *)
Definition bernoulli (p : Q) : state nat bool :=
  u <- random ;; ret (Py.Qltb u p).

(** Whether the server wins one service point. *)
Definition spec_point (strategy : Strategy) (firstIn firstWin secondWin : Q)
  : state nat bool :=
  first_serve_in <- bernoulli firstIn ;;
  if (first_serve_in : bool) then bernoulli firstWin
  else match strategy with
       | Traditional => bernoulli secondWin
       | OnlyFirst =>
           again_in <- bernoulli firstIn ;;
           if (again_in : bool) then bernoulli firstWin else ret false
       end.

(** The outcomes of [n] successive service points. *)
Fixpoint spec_points (n : nat) (strategy : Strategy)
  (firstIn firstWin secondWin : Q) : state nat (list bool) :=
  match n with
  | O => ret []
  | S n' =>
      won <- spec_point strategy firstIn firstWin secondWin ;;
      rest <- spec_points n' strategy firstIn firstWin secondWin ;;
      ret (won :: rest)
  end.

End PointLoops.

(** The number of points won among the outcomes of a match. *)
Definition points_won (outcomes : list bool) : Z :=
  Z.of_nat (List.length (filter (fun won => won) outcomes)).

(* ===================================================================== *)
(** ** tennis_serve_analyzer.py *)
(* ===================================================================== *)

Module Analyzer.

Local Open Scope string_scope.

(** [NUM_SIMULATIONS = 1000], the default of the parameter [num_sims]. *)
Definition NUM_SIMULATIONS : Z := 1000.

(** The marker list of the script, which reads the men's tour only and
    never looks at a tour column. *)
Definition grand_slams : list string :=
  ["australian open"; "roland garros"; "wimbledon"; "us open";
   "australian"; "french"; "us open"; "championships"].

Definition is_grand_slam (tourney_name : string) : bool :=
  existsb (fun slam => Py.contains slam tourney_name) grand_slams.

(** [tourney_name = row.get('tourney_name', '').lower()],
    [best_of = 5 if is_grand_slam else 3]. *)
Definition resolve_best_of (tourney_name : option string) : Z :=
  let tourney_name := Py.lower (Py.get_default tourney_name "") in
  if is_grand_slam tourney_name then 5%Z else 3%Z.

(** The dictionary [simulate_match_outcome] returns. *)
Module Sim.
Record Result : Type := {
  traditional_wins : Z;
  only_first_wins : Z;
  traditional_prob : Q;
  only_first_prob : Q;
  num_simulations : Z
}.
End Sim.

(** One simulated match: the body of the outer loop, on the pair
    [(traditional_wins, only_first_wins)].  The two quotients are taken
    under [service_points > 0], where the division cannot raise. *)
Definition trial (rnd : nat -> Q)
  (first_in_pct first_win_pct second_win_pct : Q)
  (service_points best_of : Z) (wins : Z * Z) : state nat (Z * Z) :=
  trad_points_won <-
    for_range service_points
      (trad_point rnd first_in_pct first_win_pct second_win_pct) 0%Z ;;
  only_first_points_won <-
    for_range service_points
      (only_first_point rnd first_in_pct first_win_pct) 0%Z ;;
  let win_threshold := win_threshold best_of in
  let trad_service_pct :=
    if (service_points >? 0)%Z
    then (inject_Z trad_points_won / inject_Z service_points)%Q else 0%Q in
  let only_first_service_pct :=
    if (service_points >? 0)%Z
    then (inject_Z only_first_points_won / inject_Z service_points)%Q
    else 0%Q in
  let traditional_wins :=
    if Py.Qgtb trad_service_pct win_threshold
    then (fst wins + 1)%Z else fst wins in
  let only_first_wins :=
    if Py.Qgtb only_first_service_pct win_threshold
    then (snd wins + 1)%Z else snd wins in
  ret (traditional_wins, only_first_wins).

(** [simulate_match_outcome]: [num_sims] trials, then the two quotients
    [wins / num_sims], the first of which raises when [num_sims] is 0. *)
Definition simulate_match_outcome (rnd : nat -> Q)
  (first_in_pct first_win_pct second_win_pct : Q)
  (service_points best_of num_sims : Z) : state nat (Py.exn + Sim.Result) :=
  wins <-
    for_range num_sims
      (trial rnd first_in_pct first_win_pct second_win_pct
         service_points best_of) (0%Z, 0%Z) ;;
  ret (match Py.int_truediv (fst wins) num_sims with
       | inl e => inl e
       | inr traditional_prob =>
           match Py.int_truediv (snd wins) num_sims with
           | inl e => inl e
           | inr only_first_prob =>
               inr {| Sim.traditional_wins := fst wins;
                      Sim.only_first_wins := snd wins;
                      Sim.traditional_prob := traditional_prob;
                      Sim.only_first_prob := only_first_prob;
                      Sim.num_simulations := num_sims |}
           end
       end).

(** One entry of [results]. *)
Record PerformanceRecord : Type := {
  tourney_name : string;
  surface : string;
  score : string;
  best_of : Z;
  player : string;
  opponent : string;
  won_match : bool;
  first_in_pct : Q;
  first_win_pct : Q;
  second_win_pct : Q;
  only_first_expected : Q;
  traditional_expected : Q;
  benefit_pct : Q;
  only_first_better : bool;
  service_points_played : Z;
  estimated_point_swing : Q;
  could_flip_result : bool;
  sim_traditional_prob : Q;
  sim_only_first_prob : Q;
  sim_prob_diff : Q;
  num_simulations : Z
}.

(** The block run on the winner's columns and again on the loser's. *)
Definition analyze_side (rnd : nat -> Q) (side : Csv.Side) (row : Csv.Row)
  : state nat (Py.exn + option PerformanceRecord) :=
  let svpt := Csv.svpt side row in
  let fstIn := Csv.fstIn side row in
  if ((svpt >? 0) && (fstIn >? 0))%Z then
    let first_in_pct := Serve.first_in_pct svpt fstIn in
    let first_win_pct := Serve.first_win_pct fstIn (Csv.fstWon side row) in
    let second_serve_points := (svpt - fstIn)%Z in
    if (second_serve_points >? 0)%Z then
      let second_win_pct :=
        Serve.second_win_pct svpt fstIn (Csv.sndWon side row) in
      let outcome :=
        Serve.serve_outcome first_in_pct first_win_pct second_win_pct in
      let service_point_diff :=
        ((Serve.only_first outcome - Serve.traditional outcome)
         * inject_Z svpt)%Q in
      let could_flip_result := Py.Qgtb (Qabs service_point_diff) 10 in
      let best_of := resolve_best_of (Csv.tourney_name row) in
      sim <-
        simulate_match_outcome rnd first_in_pct first_win_pct second_win_pct
          svpt best_of NUM_SIMULATIONS ;;
      match sim with
      | inl e => ret (inl e)
      | inr sim_results =>
          let prob_diff :=
            (Sim.only_first_prob sim_results
             - Sim.traditional_prob sim_results)%Q in
          let could_flip_result := Py.Qgtb (Qabs prob_diff) (15 # 100) in
          ret (inr (Some
            {| tourney_name := Py.get_default (Csv.tourney_name row) "Unknown";
               surface := Py.get_default (Csv.surface row) "Unknown";
               score := Py.get_default (Csv.score row) "Unknown";
               best_of := best_of;
               player := Py.get_default (Csv.player_name side row) "Unknown";
               opponent :=
                 Py.get_default (Csv.opponent_name side row) "Unknown";
               won_match := Csv.won side;
               first_in_pct := (first_in_pct * 100)%Q;
               first_win_pct := (first_win_pct * 100)%Q;
               second_win_pct := (second_win_pct * 100)%Q;
               only_first_expected := (Serve.only_first outcome * 100)%Q;
               traditional_expected := (Serve.traditional outcome * 100)%Q;
               benefit_pct :=
                 ((Serve.only_first outcome - Serve.traditional outcome)
                  * 100)%Q;
               only_first_better := Serve.only_first_better outcome;
               service_points_played := svpt;
               estimated_point_swing := service_point_diff;
               could_flip_result := could_flip_result;
               sim_traditional_prob :=
                 (Sim.traditional_prob sim_results * 100)%Q;
               sim_only_first_prob :=
                 (Sim.only_first_prob sim_results * 100)%Q;
               sim_prob_diff := (prob_diff * 100)%Q;
               num_simulations := Sim.num_simulations sim_results |}))
      end
    else ret (inr None)
  else ret (inr None).

(** [results.append(...)] when the block produced a record. *)
Definition append_record (results : list PerformanceRecord)
  (r : option PerformanceRecord) : list PerformanceRecord :=
  match r with
  | Some r => results ++ [r]
  | None => results
  end.

(** The loop of [calculate_serve_advantage] over the rows, winner block
    first; an exception leaves the loop. *)
Fixpoint analyze_rows (rnd : nat -> Q) (rows : list Csv.Row)
  (results : list PerformanceRecord)
  : state nat (Py.exn + list PerformanceRecord) :=
  match rows with
  | [] => ret (inr results)
  | row :: rows' =>
      w <- analyze_side rnd Csv.Winner row ;;
      match w with
      | inl e => ret (inl e)
      | inr w =>
          l <- analyze_side rnd Csv.Loser row ;;
          match l with
          | inl e => ret (inl e)
          | inr l =>
              analyze_rows rnd rows' (append_record (append_record results w) l)
          end
      end
  end.

Definition calculate_serve_advantage (rnd : nat -> Q) (rows : list Csv.Row)
  : state nat (Py.exn + list PerformanceRecord) :=
  analyze_rows rnd rows [].

End Analyzer.

(* ===================================================================== *)
(** ** update_data.py *)
(* ===================================================================== *)

Module UpdateData.

Local Open Scope string_scope.

Definition NUM_SIMULATIONS : Z := 1000.

(** The marker list of the script, which reads both tours. *)
Definition grand_slams : list string :=
  ["australian open"; "roland garros"; "wimbledon"; "us open"].

Definition is_grand_slam (tourney_name : string) : bool :=
  existsb (fun slam => Py.contains slam tourney_name) grand_slams.

(** [tour = row.get('tour', 'ATP')],
    [tourney_name = row.get('tourney_name', '').lower()],
    [best_of = 5 if (is_grand_slam and tour == 'ATP') else 3]. *)
Definition resolve_best_of (tourney_name tour : option string) : Z :=
  let tour := Py.get_default tour "ATP" in
  let tourney_name := Py.lower (Py.get_default tourney_name "") in
  if is_grand_slam tourney_name && String.eqb tour "ATP" then 5%Z else 3%Z.

(** The dictionary [simulate_match_outcome] returns. *)
Module Sim.
Record Result : Type := {
  traditional_prob : Q;
  only_first_prob : Q
}.
End Sim.

(** One simulated match: the body of the outer loop.  Here the whole
    comparison is under [if service_points > 0]. *)
Definition trial (rnd : nat -> Q)
  (first_in_pct first_win_pct second_win_pct : Q)
  (service_points best_of : Z) (wins : Z * Z) : state nat (Z * Z) :=
  trad_points_won <-
    for_range service_points
      (trad_point rnd first_in_pct first_win_pct second_win_pct) 0%Z ;;
  only_first_points_won <-
    for_range service_points
      (only_first_point rnd first_in_pct first_win_pct) 0%Z ;;
  let win_threshold := win_threshold best_of in
  if (service_points >? 0)%Z then
    let traditional_wins :=
      if Py.Qgtb (inject_Z trad_points_won / inject_Z service_points)%Q
           win_threshold
      then (fst wins + 1)%Z else fst wins in
    let only_first_wins :=
      if Py.Qgtb (inject_Z only_first_points_won / inject_Z service_points)%Q
           win_threshold
      then (snd wins + 1)%Z else snd wins in
    ret (traditional_wins, only_first_wins)
  else ret wins.

(** [simulate_match_outcome]: the number of trials is the module constant,
    so the two final divisions are by 1000 and cannot raise. *)
Definition simulate_match_outcome (rnd : nat -> Q)
  (first_in_pct first_win_pct second_win_pct : Q)
  (service_points best_of : Z) : state nat Sim.Result :=
  wins <-
    for_range NUM_SIMULATIONS
      (trial rnd first_in_pct first_win_pct second_win_pct
         service_points best_of) (0%Z, 0%Z) ;;
  ret {| Sim.traditional_prob :=
           (inject_Z (fst wins) / inject_Z NUM_SIMULATIONS)%Q;
         Sim.only_first_prob :=
           (inject_Z (snd wins) / inject_Z NUM_SIMULATIONS)%Q |}.

(** One entry of [results], under the keys of the script; [d], the
    tournament date, is left out. *)
Record PerformanceRecord : Type := {
  tour : string;
  p : string;
  o : string;
  w : Z;
  t : string;
  b : string;
  s : string;
  sc : string;
  fi : Q;
  fw : Q;
  sw : Q;
  bp : Q;
  ob : Z;
  cf : Z;
  sd : Q
}.

(** The block run on the winner's columns and again on the loser's, with
    the [tour] and [best_of] of the row. *)
Definition analyze_side (rnd : nat -> Q) (tour_of_row : string) (best_of : Z)
  (side : Csv.Side) (row : Csv.Row) : state nat (option PerformanceRecord) :=
  let svpt := Csv.svpt side row in
  let fstIn := Csv.fstIn side row in
  if ((svpt >? 0) && (fstIn >? 0))%Z then
    let first_in_pct := Serve.first_in_pct svpt fstIn in
    let first_win_pct := Serve.first_win_pct fstIn (Csv.fstWon side row) in
    let second_serve_points := (svpt - fstIn)%Z in
    if (second_serve_points >? 0)%Z then
      let second_win_pct :=
        Serve.second_win_pct svpt fstIn (Csv.sndWon side row) in
      let outcome :=
        Serve.serve_outcome first_in_pct first_win_pct second_win_pct in
      sim <-
        simulate_match_outcome rnd first_in_pct first_win_pct second_win_pct
          svpt best_of ;;
      let prob_diff :=
        (Sim.only_first_prob sim - Sim.traditional_prob sim)%Q in
      ret (Some
        {| tour := tour_of_row;
           p := Py.get_default (Csv.player_name side row) "Unknown";
           o := Py.get_default (Csv.opponent_name side row) "Unknown";
           w := if Csv.won side then 1%Z else 0%Z;
           t := Py.get_default (Csv.tourney_name row) "Unknown";
           b := Py.str_int best_of;
           s := Py.get_default (Csv.surface row) "?";
           sc := Py.get_default (Csv.score row) "";
           fi := Py.round2 (first_in_pct * 100);
           fw := Py.round2 (first_win_pct * 100);
           sw := Py.round2 (second_win_pct * 100);
           bp := Py.round2
                   ((Serve.only_first outcome - Serve.traditional outcome)
                    * 100);
           ob := if Serve.only_first_better outcome then 1%Z else 0%Z;
           cf := if Py.Qgtb (Qabs prob_diff) (15 # 100) then 1%Z else 0%Z;
           sd := Py.round2 (prob_diff * 100) |})
    else ret None
  else ret None.

Definition append_record (results : list PerformanceRecord)
  (r : option PerformanceRecord) : list PerformanceRecord :=
  match r with
  | Some r => results ++ [r]
  | None => results
  end.

(** The loop of [calculate_serve_advantage] over the rows. *)
Fixpoint analyze_rows (rnd : nat -> Q) (rows : list Csv.Row)
  (results : list PerformanceRecord) : state nat (list PerformanceRecord) :=
  match rows with
  | [] => ret results
  | row :: rows' =>
      let tour_of_row := Py.get_default (Csv.tour row) "ATP" in
      let best_of := resolve_best_of (Csv.tourney_name row) (Csv.tour row) in
      w <- analyze_side rnd tour_of_row best_of Csv.Winner row ;;
      l <- analyze_side rnd tour_of_row best_of Csv.Loser row ;;
      analyze_rows rnd rows' (append_record (append_record results w) l)
  end.

Definition calculate_serve_advantage (rnd : nat -> Q) (rows : list Csv.Row)
  : state nat (list PerformanceRecord) :=
  analyze_rows rnd rows [].

End UpdateData.

(* ===================================================================== *)
(** ** Specification vocabulary *)
(* ===================================================================== *)

Local Open Scope string_scope.

(** A marker matches a tournament name case-insensitively when some
    substring of the name equals the marker up to letter case. *)
Definition matches_ci (marker name : string) : Prop :=
  exists pre mid post,
    name = pre ++ mid ++ post /\ Py.lower mid = Py.lower marker.

(** The men's tour, as the [tour] column writes it. *)
Definition mens_tour : string := "ATP".

(** The points won in the two loops of one simulated match. *)
Definition match_points (rnd : nat -> Q)
  (first_in_pct first_win_pct second_win_pct : Q) (service_points : Z)
  : state nat (Z * Z) :=
  trad_points_won <-
    for_range service_points
      (trad_point rnd first_in_pct first_win_pct second_win_pct) 0%Z ;;
  only_first_points_won <-
    for_range service_points
      (only_first_point rnd first_in_pct first_win_pct) 0%Z ;;
  ret (trad_points_won, only_first_points_won).

(** The points won in [n] successive simulated matches. *)
Fixpoint matches_points (rnd : nat -> Q)
  (first_in_pct first_win_pct second_win_pct : Q) (service_points : Z)
  (n : nat) : state nat (list (Z * Z)) :=
  match n with
  | O => ret (@nil (Z * Z))
  | S n' =>
      m <- match_points rnd first_in_pct first_win_pct second_win_pct
             service_points ;;
      rest <- matches_points rnd first_in_pct first_win_pct second_win_pct
                service_points n' ;;
      ret (m :: rest)
  end.

(** The counter of points won after one more point. *)
Definition bump (won : bool) (counter : Z) : Z :=
  if won then (counter + 1)%Z else counter.

(** A strategy wins a simulated match when its fraction of points won is
    strictly above the threshold of the format. *)
Definition wins_match (service_points best_of points : Z) : Prop :=
  (win_threshold best_of < inject_Z points / inject_Z service_points)%Q.

Definition wins_matchb (service_points best_of points : Z) : bool :=
  Py.Qgtb (inject_Z points / inject_Z service_points)%Q (win_threshold best_of).

(** The number of simulated matches won, for each strategy. *)
Definition count_wins (service_points best_of : Z) (points : list Z) : Z :=
  Z.of_nat (List.length (filter (wins_matchb service_points best_of) points)).

(** The two win counters after the simulated matches whose points are
    listed in [ms]. *)
Definition tally (service_points best_of : Z) (ms : list (Z * Z))
  (wins : Z * Z) : Z * Z :=
  ((fst wins + count_wins service_points best_of (map fst ms))%Z,
   (snd wins + count_wins service_points best_of (map snd ms))%Z).

(** The guards under which the scripts analyse one side of a row. *)
Definition sufficient (side : Csv.Side) (row : Csv.Row) : Prop :=
  (Csv.svpt side row > 0 /\ Csv.fstIn side row > 0
   /\ Csv.svpt side row - Csv.fstIn side row > 0)%Z.

(** The serve outcome of one side of a row. *)
Definition row_outcome (side : Csv.Side) (row : Csv.Row)
  : Serve.StrategyOutcome :=
  Serve.serve_outcome
    (Serve.first_in_pct (Csv.svpt side row) (Csv.fstIn side row))
    (Serve.first_win_pct (Csv.fstIn side row) (Csv.fstWon side row))
    (Serve.second_win_pct (Csv.svpt side row) (Csv.fstIn side row)
       (Csv.sndWon side row)).

(** A record of [tennis_serve_analyzer.py] carries the serve statistics of
    one side of a row. *)
Definition analyzer_derived (side : Csv.Side) (row : Csv.Row)
  (r : Analyzer.PerformanceRecord) : Prop :=
  let svpt := Csv.svpt side row in
  let fstIn := Csv.fstIn side row in
  let outcome := row_outcome side row in
  Analyzer.first_in_pct r = (Serve.first_in_pct svpt fstIn * 100)%Q
  /\ Analyzer.first_win_pct r
     = (Serve.first_win_pct fstIn (Csv.fstWon side row) * 100)%Q
  /\ Analyzer.second_win_pct r
     = (Serve.second_win_pct svpt fstIn (Csv.sndWon side row) * 100)%Q
  /\ Analyzer.only_first_expected r = (Serve.only_first outcome * 100)%Q
  /\ Analyzer.traditional_expected r = (Serve.traditional outcome * 100)%Q
  /\ Analyzer.benefit_pct r
     = ((Serve.only_first outcome - Serve.traditional outcome) * 100)%Q
  /\ Analyzer.only_first_better r = Serve.only_first_better outcome
  /\ Analyzer.service_points_played r = svpt
  /\ Analyzer.best_of r = Analyzer.resolve_best_of (Csv.tourney_name row).

(** A record of [update_data.py] carries the same statistics, rounded to
    two decimals. *)
Definition update_data_derived (side : Csv.Side) (row : Csv.Row)
  (r : UpdateData.PerformanceRecord) : Prop :=
  let svpt := Csv.svpt side row in
  let fstIn := Csv.fstIn side row in
  let outcome := row_outcome side row in
  UpdateData.fi r = Py.round2 (Serve.first_in_pct svpt fstIn * 100)
  /\ UpdateData.fw r
     = Py.round2 (Serve.first_win_pct fstIn (Csv.fstWon side row) * 100)
  /\ UpdateData.sw r
     = Py.round2
         (Serve.second_win_pct svpt fstIn (Csv.sndWon side row) * 100)
  /\ UpdateData.bp r
     = Py.round2
         ((Serve.only_first outcome - Serve.traditional outcome) * 100)
  /\ UpdateData.ob r = (if Serve.only_first_better outcome then 1 else 0)%Z
  /\ UpdateData.b r
     = Py.str_int
         (UpdateData.resolve_best_of (Csv.tourney_name row) (Csv.tour row)).

(* ===================================================================== *)
(** ** The export filter of update_data.py *)
(* ===================================================================== *)

Module UpdateMain.

Local Open Scope string_scope.

Definition retirement_markers : list string := ["RET"; "W/O"; "DEF"].

(** [any(x in (r.get('sc') or '') for x in ['RET', 'W/O', 'DEF'])]; the
    score of a record is a string, on which [or ''] changes nothing. *)
Definition is_retirement (r : UpdateData.PerformanceRecord) : bool :=
  existsb (fun x => Py.contains x (UpdateData.sc r)) retirement_markers.

(** [results = [r for r in results if not any(...)]] *)
Definition filter_results (results : list UpdateData.PerformanceRecord)
  : list UpdateData.PerformanceRecord :=
  filter (fun r => negb (is_retirement r)) results.

(** [main], from the loaded rows to the list handed to [update_html]. *)
Definition main_results (rnd : nat -> Q) (rows : list Csv.Row)
  : state nat (list UpdateData.PerformanceRecord) :=
  results <- UpdateData.calculate_serve_advantage rnd rows ;;
  ret (filter_results results).

End UpdateMain.

(* ===================================================================== *)
(** ** The report of tennis_serve_analyzer.py *)
(* ===================================================================== *)

Module Report.

Local Open Scope string_scope.

(** What [main] can raise: the exception of the simulator, or the
    [KeyError] of a column that the frame of results does not have. *)
Inductive exn : Type :=
| Simulator (e : Py.exn)
| KeyError (key : string).

(** [results_df['only_first_better'].sum()] *)
Definition count_better (results : list Analyzer.PerformanceRecord) : Z :=
  Z.of_nat (List.length (filter Analyzer.only_first_better results)).

(** [lambda x: f'Best of {int(x)}' if x in [3, 5] else 'Unknown'] *)
Definition format_label (x : Z) : string :=
  if (x =? 3)%Z || (x =? 5)%Z then "Best of " ++ Py.str_int x else "Unknown".

(** The numbers [analyze_results] computes for its header and for its
    Grand Slam section; the tables it prints in between (the top 20, the
    players, the surfaces, the formats) are left out. *)
Record Summary : Type := {
  total_performances : Z;
  only_first_better_count : Z;
  pct_better : Q;
  grand_slam : option (Z * Z * Q)
}.

(** [analyze_results].  A frame built from an empty list of results has no
    column, so the first column access raises; the Grand Slam section is
    under [if len(gs_df) > 0]. *)
Definition analyze_results (results : list Analyzer.PerformanceRecord)
  : exn + Summary :=
  match results with
  | [] => inl (KeyError "only_first_better")
  | _ :: _ =>
      let total_performances := Z.of_nat (List.length results) in
      let only_first_better_count := count_better results in
      let pct_better :=
        (inject_Z only_first_better_count / inject_Z total_performances
         * 100)%Q in
      let gs_df :=
        filter (fun r => (Analyzer.best_of r =? 5)%Z) results in
      let grand_slam :=
        if (Z.of_nat (List.length gs_df) >? 0)%Z
        then Some (Z.of_nat (List.length gs_df), count_better gs_df,
                   (inject_Z (count_better gs_df)
                    / inject_Z (Z.of_nat (List.length gs_df)) * 100)%Q)
        else None in
      inr {| total_performances := total_performances;
             only_first_better_count := only_first_better_count;
             pct_better := pct_better;
             grand_slam := grand_slam |}
  end.

(** [main], from the loaded rows on: the pass, then the report. *)
Definition main (rnd : nat -> Q) (rows : list Csv.Row)
  : state nat (exn + Summary) :=
  results_df <- Analyzer.calculate_serve_advantage rnd rows ;;
  match results_df with
  | inl e => ret (inl (Simulator e))
  | inr results => ret (analyze_results results)
  end.

End Report.

(* ===================================================================== *)
(** ** tennis_demo.py *)
(* ===================================================================== *)

Module Demo.

Local Open Scope string_scope.

(** [int(x)] on a float: truncation toward zero. *)
Definition int_of_float (x : Q) : Z := Z.quot (Qnum x) (Zpos (Qden x)).

Definition players : list string :=
  ["Carlos Alcaraz"; "Novak Djokovic"; "Jannik Sinner"; "Daniil Medvedev";
   "Alexander Zverev"; "Andrey Rublev"; "Taylor Fritz"; "Hubert Hurkacz";
   "Stefanos Tsitsipas"; "Casper Ruud"; "Holger Rune"; "Alex de Minaur"].

(** One sample match; the columns [tourney_date] and [round], which the
    script does not read again, are left out. *)
Record Row : Type := {
  tourney_name : string;
  surface : string;
  winner_name : string;
  loser_name : string;
  w_1stIn : Z; w_1stWon : Z; w_2ndWon : Z; w_svpt : Z;
  l_1stIn : Z; l_1stWon : Z; l_2ndWon : Z; l_svpt : Z
}.

(** The values that the calls of [np.random] return while one sample match
    is built: the two [choice]s of players, the [choice]s of tournament and
    surface, and for each player one [randint] and three [uniform]s. *)
Record Draws : Type := {
  choice_winner : string;
  choice_loser : string;
  choice_tournament : string;
  choice_surface : string;
  randint_w : Z;
  uniform_w_1stIn : Q; uniform_w_1stWon : Q; uniform_w_2ndWon : Q;
  randint_l : Z;
  uniform_l_1stIn : Q; uniform_l_1stWon : Q; uniform_l_2ndWon : Q
}.

(** The body of the loop that builds [sample_data]. *)
Definition sample_row (d : Draws) : Row :=
  let w_svpt := randint_w d in
  let w_1stIn := int_of_float (inject_Z w_svpt * uniform_w_1stIn d) in
  let w_1stWon := int_of_float (inject_Z w_1stIn * uniform_w_1stWon d) in
  let w_2ndWon :=
    int_of_float (inject_Z (w_svpt - w_1stIn) * uniform_w_2ndWon d) in
  let l_svpt := randint_l d in
  let l_1stIn := int_of_float (inject_Z l_svpt * uniform_l_1stIn d) in
  let l_1stWon := int_of_float (inject_Z l_1stIn * uniform_l_1stWon d) in
  let l_2ndWon :=
    int_of_float (inject_Z (l_svpt - l_1stIn) * uniform_l_2ndWon d) in
  {| tourney_name := choice_tournament d;
     surface := choice_surface d;
     winner_name := choice_winner d;
     loser_name := choice_loser d;
     w_1stIn := w_1stIn; w_1stWon := w_1stWon; w_2ndWon := w_2ndWon;
     w_svpt := w_svpt;
     l_1stIn := l_1stIn; l_1stWon := l_1stWon; l_2ndWon := l_2ndWon;
     l_svpt := l_svpt |}.

(** What the calls of [np.random] promise: [randint(80, 150)] is an integer
    from 80 to 149, [uniform(a, b)] lies from [a] up to [b], [choice] picks
    an element of its list, and the loser is picked among the players other
    than the winner. *)
Definition in_range (d : Draws) : Prop :=
  (80 <= randint_w d < 150)%Z
  /\ (55 # 100 <= uniform_w_1stIn d < 75 # 100)%Q
  /\ (65 # 100 <= uniform_w_1stWon d < 85 # 100)%Q
  /\ (35 # 100 <= uniform_w_2ndWon d < 55 # 100)%Q
  /\ (80 <= randint_l d < 150)%Z
  /\ (55 # 100 <= uniform_l_1stIn d < 75 # 100)%Q
  /\ (60 # 100 <= uniform_l_1stWon d < 80 # 100)%Q
  /\ (30 # 100 <= uniform_l_2ndWon d < 50 # 100)%Q
  /\ In (choice_winner d) players
  /\ In (choice_loser d)
       (filter (fun p => negb (String.eqb p (choice_winner d))) players).

(** One entry of [results]; its keys [tourney_name] and [surface] carry
    the prefix [r_] here, the row having columns of these names. *)
Record PerformanceRecord : Type := {
  r_tourney_name : string;
  r_surface : string;
  player : string;
  opponent : string;
  first_in_pct : Q;
  first_win_pct : Q;
  second_win_pct : Q;
  only_first_expected : Q;
  traditional_expected : Q;
  benefit_pct : Q;
  only_first_better : bool
}.

(** The block run on the winner's columns ([won = true]) and again on the
    loser's. *)
Definition analyze_side (won : bool) (row : Row) : option PerformanceRecord :=
  let svpt := if won then w_svpt row else l_svpt row in
  let fstIn := if won then w_1stIn row else l_1stIn row in
  let fstWon := if won then w_1stWon row else l_1stWon row in
  let sndWon := if won then w_2ndWon row else l_2ndWon row in
  if ((svpt >? 0) && (fstIn >? 0))%Z then
    let first_in_pct := Serve.first_in_pct svpt fstIn in
    let first_win_pct := Serve.first_win_pct fstIn fstWon in
    let second_serve_points := (svpt - fstIn)%Z in
    if (second_serve_points >? 0)%Z then
      let second_win_pct := Serve.second_win_pct svpt fstIn sndWon in
      let outcome :=
        Serve.serve_outcome first_in_pct first_win_pct second_win_pct in
      Some {| r_tourney_name := tourney_name row;
              r_surface := surface row;
              player := if won then winner_name row else loser_name row;
              opponent := if won then loser_name row else winner_name row;
              first_in_pct := (first_in_pct * 100)%Q;
              first_win_pct := (first_win_pct * 100)%Q;
              second_win_pct := (second_win_pct * 100)%Q;
              only_first_expected := (Serve.only_first outcome * 100)%Q;
              traditional_expected := (Serve.traditional outcome * 100)%Q;
              benefit_pct :=
                ((Serve.only_first outcome - Serve.traditional outcome)
                 * 100)%Q;
              only_first_better := Serve.only_first_better outcome |}
    else None
  else None.

Definition append_record (results : list PerformanceRecord)
  (r : option PerformanceRecord) : list PerformanceRecord :=
  match r with
  | Some r => results ++ [r]
  | None => results
  end.

(** The loop over the rows of the sample frame. *)
Fixpoint analyze_rows (rows : list Row) (results : list PerformanceRecord)
  : list PerformanceRecord :=
  match rows with
  | [] => results
  | row :: rows' =>
      analyze_rows rows'
        (append_record (append_record results (analyze_side true row))
           (analyze_side false row))
  end.

(** The results of the script on the sample matches built from [draws]. *)
Definition results (draws : list Draws) : list PerformanceRecord :=
  analyze_rows (map sample_row draws) [].

End Demo.

(* ===================================================================== *)
(** ** Vocabulary of the passes *)
(* ===================================================================== *)

(** The guards, as a test. *)
Definition sufficientb (side : Csv.Side) (row : Csv.Row) : bool :=
  ((Csv.svpt side row >? 0) && (Csv.fstIn side row >? 0)
   && (Csv.svpt side row - Csv.fstIn side row >? 0))%Z.

(** The sides of the rows that pass the guards, in the order of the pass:
    row by row, the winner before the loser. *)
Definition emitted (rows : list Csv.Row) : list (Csv.Row * Csv.Side) :=
  flat_map
    (fun row =>
       ((if sufficientb Csv.Winner row then [(row, Csv.Winner)] else [])
        ++ (if sufficientb Csv.Loser row then [(row, Csv.Loser)] else []))%list)
    rows.

(** Everything a record of [tennis_serve_analyzer.py] holds, in terms of
    its row and of the two win counts [tw] and [ow] of its simulation. *)
Definition analyzer_record_of (row : Csv.Row) (side : Csv.Side)
  (r : Analyzer.PerformanceRecord) : Prop :=
  analyzer_derived side row r
  /\ Analyzer.player r = Py.get_default (Csv.player_name side row) "Unknown"
  /\ Analyzer.opponent r
     = Py.get_default (Csv.opponent_name side row) "Unknown"
  /\ Analyzer.won_match r = Csv.won side
  /\ Analyzer.tourney_name r
     = Py.get_default (Csv.tourney_name row) "Unknown"
  /\ Analyzer.surface r = Py.get_default (Csv.surface row) "Unknown"
  /\ Analyzer.score r = Py.get_default (Csv.score row) "Unknown"
  /\ Analyzer.estimated_point_swing r
     = ((Serve.only_first (row_outcome side row)
         - Serve.traditional (row_outcome side row))
        * inject_Z (Csv.svpt side row))%Q
  /\ Analyzer.num_simulations r = 1000%Z
  /\ exists tw ow : Z,
       (0 <= tw <= 1000)%Z /\ (0 <= ow <= 1000)%Z
       /\ Analyzer.sim_traditional_prob r
          = (inject_Z tw / inject_Z 1000 * 100)%Q
       /\ Analyzer.sim_only_first_prob r
          = (inject_Z ow / inject_Z 1000 * 100)%Q
       /\ Analyzer.sim_prob_diff r
          = ((inject_Z ow / inject_Z 1000 - inject_Z tw / inject_Z 1000)
             * 100)%Q
       /\ Analyzer.could_flip_result r
          = Py.Qgtb
              (Qabs (inject_Z ow / inject_Z 1000 - inject_Z tw / inject_Z 1000))
              (15 # 100).

(** The same for a record of [update_data.py]. *)
Definition update_data_record_of (row : Csv.Row) (side : Csv.Side)
  (r : UpdateData.PerformanceRecord) : Prop :=
  update_data_derived side row r
  /\ UpdateData.tour r = Py.get_default (Csv.tour row) "ATP"
  /\ UpdateData.p r = Py.get_default (Csv.player_name side row) "Unknown"
  /\ UpdateData.o r = Py.get_default (Csv.opponent_name side row) "Unknown"
  /\ UpdateData.w r = (if Csv.won side then 1 else 0)%Z
  /\ UpdateData.t r = Py.get_default (Csv.tourney_name row) "Unknown"
  /\ UpdateData.s r = Py.get_default (Csv.surface row) "?"
  /\ UpdateData.sc r = Py.get_default (Csv.score row) ""
  /\ exists tw ow : Z,
       (0 <= tw <= 1000)%Z /\ (0 <= ow <= 1000)%Z
       /\ UpdateData.cf r
          = (if Py.Qgtb
                  (Qabs (inject_Z ow / inject_Z 1000
                         - inject_Z tw / inject_Z 1000))
                  (15 # 100)
             then 1 else 0)%Z
       /\ UpdateData.sd r
          = Py.round2
              ((inject_Z ow / inject_Z 1000 - inject_Z tw / inject_Z 1000)
               * 100).

(** A record of the demo whose three rates are proper percentages and
    whose player is not the opponent. *)
Definition demo_record_ok (r : Demo.PerformanceRecord) : Prop :=
  (0 < Demo.first_in_pct r < 100)%Q
  /\ (0 < Demo.first_win_pct r < 100)%Q
  /\ (0 <= Demo.second_win_pct r <= 100)%Q
  /\ Demo.player r <> Demo.opponent r.

(** The service points that a pass simulates for one side of a row: its
    service points when the side passes the guards, none otherwise. *)
Definition side_points (side : Csv.Side) (row : Csv.Row) : nat :=
  if sufficientb side row then Z.to_nat (Csv.svpt side row) else 0%nat.

(** The service points that a pass simulates in all. *)
Definition service_points_simulated (rows : list Csv.Row) : nat :=
  list_sum
    (map (fun row =>
            (side_points Csv.Winner row + side_points Csv.Loser row)%nat)
       rows).

(* ===================================================================== *)
(** ** Binary64 arithmetic *)
(* ===================================================================== *)

(** The flag and the benefit of a performance depend on how the scripts'
    floats round.  [B64] is binary64 arithmetic on the rationals: each
    operation is the exact one followed by rounding to the nearest
    binary64 number, ties to the even significand, subnormal numbers
    included.  Overflow is not modelled; the values here stay far below
    [2^1024]. *)
Module B64.

(** [2^z] for an integer [z] of either sign. *)
Definition pow2 (z : Z) : Q :=
  if (0 <=? z)%Z then inject_Z (2 ^ z) else 1 # Z.to_pos (2 ^ (- z)).

(** The binary exponent of [x]: the [e] with [2^e <= |x| < 2^(e+1)]. *)
Definition ilog2 (x : Q) : Z :=
  let k := (Z.log2 (Z.abs (Qnum x)) - Z.log2 (Zpos (Qden x)))%Z in
  if Py.Qltb (Qabs x) (pow2 k) then (k - 1)%Z else k.

(** The nearest binary64 number: a multiple of [2^(e-52)], where [e] is the
    exponent of [x] and at least -1022. *)
Definition round (x : Q) : Q :=
  let q := pow2 (Z.max (ilog2 x) (-1022) - 52) in
  (inject_Z (Py.round_half_even (x / q)) * q)%Q.

Definition add (x y : Q) : Q := round (x + y).
Definition sub (x y : Q) : Q := round (x - y).
Definition mul (x y : Q) : Q := round (x * y).
Definition div (x y : Q) : Q := round (x / y).

(** [2^-51], a bound on the rounding error of a result of size at most 4. *)
Definition eps : Q := 1 # 2251799813685248.

End B64.

(** The serve outcome as the scripts compute it, in binary64:
<<
    first_in_pct = row['w_1stIn'] / row['w_svpt']
    first_win_pct = row['w_1stWon'] / row['w_1stIn']
    second_win_pct = row['w_2ndWon'] / second_serve_points
    only_first = first_in_pct * first_win_pct
                 + (1 - first_in_pct) * first_in_pct * first_win_pct
    traditional = first_in_pct * first_win_pct
                 + (1 - first_in_pct) * second_win_pct
    only_first_better = (first_in_pct * first_win_pct) > second_win_pct
>>
    with [benefit] the difference [only_first - traditional]. *)
Module FloatServe.

Definition first_in_pct (svpt fstIn : Z) : Q :=
  B64.div (inject_Z fstIn) (inject_Z svpt).
Definition first_win_pct (fstIn fstWon : Z) : Q :=
  B64.div (inject_Z fstWon) (inject_Z fstIn).
Definition second_win_pct (svpt fstIn sndWon : Z) : Q :=
  B64.div (inject_Z sndWon) (inject_Z (svpt - fstIn)).

Definition serve_outcome (first_in_pct first_win_pct second_win_pct : Q)
  : Serve.StrategyOutcome :=
  let only_first :=
    B64.add (B64.mul first_in_pct first_win_pct)
      (B64.mul (B64.mul (B64.sub 1 first_in_pct) first_in_pct)
         first_win_pct) in
  let traditional :=
    B64.add (B64.mul first_in_pct first_win_pct)
      (B64.mul (B64.sub 1 first_in_pct) second_win_pct) in
  {| Serve.only_first := only_first;
     Serve.traditional := traditional;
     Serve.benefit := B64.sub only_first traditional;
     Serve.only_first_better :=
       Py.Qgtb (B64.mul first_in_pct first_win_pct) second_win_pct |}.

(** The outcome of one performance, from its four counts. *)
Definition row_outcome (svpt fstIn fstWon sndWon : Z) : Serve.StrategyOutcome :=
  serve_outcome (first_in_pct svpt fstIn) (first_win_pct fstIn fstWon)
    (second_win_pct svpt fstIn sndWon).

End FloatServe.

(* ===================================================================== *)
(** ** Comparisons and the state monad *)
(* ===================================================================== *)

Lemma Qltb_true_iff (a b : Q) : Py.Qltb a b = true <-> (a < b)%Q.
Proof.
  unfold Py.Qltb. rewrite negb_true_iff.
  split; intro H.
  - apply Qnot_le_lt. intro Hle. apply Qle_bool_iff in Hle. congruence.
  - destruct (Qle_bool b a) eqn:E; [| reflexivity].
    apply Qle_bool_iff in E. exfalso. exact (Qlt_not_le _ _ H E).
Qed.

Lemma Qgtb_true_iff (a b : Q) : Py.Qgtb a b = true <-> (b < a)%Q.
Proof. unfold Py.Qgtb. apply Qltb_true_iff. Qed.

Lemma Qgtb_false_iff (a b : Q) : Py.Qgtb a b = false <-> (a <= b)%Q.
Proof.
  split; intro H.
  - apply Qnot_lt_le. intro Hlt. apply Qgtb_true_iff in Hlt. congruence.
  - destruct (Py.Qgtb a b) eqn:E; [| reflexivity].
    apply Qgtb_true_iff in E. exfalso. exact (Qlt_not_le _ _ E H).
Qed.

Lemma run_ret {A : Type} (a : A) (k : nat) :
  runState (ret a) k = (a, k).
Proof. reflexivity. Qed.

Lemma run_bind {A B : Type} (m : state nat A) (f : A -> state nat B) (k : nat) :
  runState (bind m f) k =
  let (a, k') := runState m k in runState (f a) k'.
Proof. reflexivity. Qed.

Lemma run_repeatM_S {A : Type} (n : nat) (body : A -> state nat A) (acc : A)
  (k : nat) :
  runState (repeatM (S n) body acc) k =
  let (acc', k') := runState (body acc) k in runState (repeatM n body acc') k'.
Proof. reflexivity. Qed.

(** A loop whose bound is not positive does nothing. *)
Lemma run_for_range_nonpos {A : Type} (n : Z) (body : A -> state nat A)
  (acc : A) (k : nat) :
  (n <= 0)%Z -> runState (for_range n body acc) k = (acc, k).
Proof.
  intro Hn. unfold for_range.
  replace (Z.to_nat n) with O by lia. reflexivity.
Qed.

(* ===================================================================== *)
(** ** Substrings and letter case *)
(* ===================================================================== *)

Lemma prefix_iff (s t : string) :
  prefix s t = true <-> exists r, t = s ++ r.
Proof.
  revert t. induction s as [| c s IH]; intros t.
  - split; [intros _; exists t; reflexivity | destruct t; reflexivity].
  - destruct t as [| d t]; simpl.
    + split; [discriminate | intros [r Hr]; discriminate].
    + destruct (ascii_dec c d) as [-> | Hcd].
      * rewrite IH. split; intros [r Hr]; exists r; [now subst | now inversion Hr].
      * split; [discriminate | intros [r Hr]; inversion Hr; congruence].
Qed.

Lemma contains_eq (needle hay : string) :
  Py.contains needle hay =
  if prefix needle hay then true
  else match hay with
       | EmptyString => false
       | String _ hay' => Py.contains needle hay'
       end.
Proof. destruct hay; reflexivity. Qed.

Lemma contains_iff (needle hay : string) :
  Py.contains needle hay = true <-> exists pre post, hay = pre ++ needle ++ post.
Proof.
  induction hay as [| c hay IH]; rewrite contains_eq.
  - destruct (prefix needle "") eqn:E.
    + split; [intros _ | reflexivity].
      apply prefix_iff in E. destruct E as [r Hr]. exists "", r. exact Hr.
    + split; [discriminate |].
      intros (pre & post & H). destruct pre; [| discriminate].
      assert (prefix needle "" = true) by (apply prefix_iff; exists post; exact H).
      congruence.
  - destruct (prefix needle (String c hay)) eqn:E.
    + split; [intros _ | reflexivity].
      apply prefix_iff in E. destruct E as [r Hr]. exists "", r. exact Hr.
    + rewrite IH. split.
      * intros (pre & post & H). exists (String c pre), post. simpl. now rewrite H.
      * intros (pre & post & H). destruct pre as [| d pre].
        -- assert (prefix needle (String c hay) = true)
             by (apply prefix_iff; exists post; exact H).
           congruence.
        -- simpl in H. inversion H. exists pre, post. reflexivity.
Qed.

Lemma lower_app (a b : string) : Py.lower (a ++ b) = Py.lower a ++ Py.lower b.
Proof.
  induction a as [| c a IH]; simpl; [reflexivity | now rewrite IH].
Qed.

(** Lower-casing acts letter by letter, so a split of the lower-cased text
    comes from a split of the text. *)
Lemma lower_app_inv (s a b : string) :
  Py.lower s = a ++ b ->
  exists s1 s2, s = s1 ++ s2 /\ Py.lower s1 = a /\ Py.lower s2 = b.
Proof.
  revert s. induction a as [| c a IH]; intros s H; simpl in H.
  - exists "", s. auto.
  - destruct s as [| d s]; simpl in H; [discriminate |].
    inversion H as [[Hc Hs]].
    destruct (IH s Hs) as (s1 & s2 & -> & H1 & H2).
    exists (String d s1), s2. simpl. rewrite H1. auto.
Qed.

(** On a lower-case marker, the test of the scripts is the case-insensitive
    match of the specification. *)
Lemma contains_lower_iff (marker name : string) :
  Py.lower marker = marker ->
  Py.contains marker (Py.lower name) = true <-> matches_ci marker name.
Proof.
  intro Hm. rewrite contains_iff. unfold matches_ci. split.
  - intros (pre & post & H).
    apply lower_app_inv in H. destruct H as (s1 & s2 & -> & H1 & H2).
    apply lower_app_inv in H2. destruct H2 as (s3 & s4 & -> & H3 & H4).
    exists s1, s3, s4. split; [reflexivity | congruence].
  - intros (pre & mid & post & -> & H).
    exists (Py.lower pre), (Py.lower post).
    rewrite !lower_app. congruence.
Qed.

Lemma existsb_matches_ci (markers : list string) (name : string) :
  Forall (fun m => Py.lower m = m) markers ->
  existsb (fun slam => Py.contains slam (Py.lower name)) markers = true <->
  exists m, In m markers /\ matches_ci m name.
Proof.
  intro Hlow. rewrite existsb_exists. rewrite Forall_forall in Hlow.
  split; intros (m & Hin & H); exists m; split; try assumption.
  - apply contains_lower_iff; auto.
  - apply contains_lower_iff; auto.
Qed.

Lemma update_data_markers_lower :
  Forall (fun m => Py.lower m = m) UpdateData.grand_slams.
Proof. repeat constructor. Qed.

Lemma analyzer_markers_lower :
  Forall (fun m => Py.lower m = m) Analyzer.grand_slams.
Proof. repeat constructor. Qed.

(** The classifier of [tennis_serve_analyzer.py], which has no tour: best
    of five exactly on a marker match. *)
Lemma analyzer_best_of_five_iff (name : option string) :
  Analyzer.resolve_best_of name = 5%Z <->
  exists m, In m Analyzer.grand_slams
            /\ matches_ci m (Py.get_default name "").
Proof.
  unfold Analyzer.resolve_best_of, Analyzer.is_grand_slam.
  rewrite <- (existsb_matches_ci _ _ analyzer_markers_lower).
  destruct (existsb _ _); split; intro H; try reflexivity; discriminate.
Qed.

(** C3. In [update_data.py] a match is best of five exactly when one of the
    four major-tournament markers matches the tournament name
    case-insensitively and the tour is the men's tour, and best of three
    otherwise; an absent name is the empty name and an absent tour is the
    men's tour.  Wimbledon is best of five for men and best of three for
    women, the Miami Open is best of three. *)
Theorem best_of_resolver_spec :
  (forall name tour : option string,
     let major :=
       (exists m, In m UpdateData.grand_slams
                  /\ matches_ci m (Py.get_default name ""))
       /\ Py.get_default tour mens_tour = mens_tour in
     (UpdateData.resolve_best_of name tour = 5%Z <-> major)
     /\ (UpdateData.resolve_best_of name tour = 3%Z <-> ~ major))
  /\ UpdateData.resolve_best_of (Some "Wimbledon") (Some "ATP") = 5%Z
  /\ UpdateData.resolve_best_of (Some "Miami Open") (Some "ATP") = 3%Z
  /\ UpdateData.resolve_best_of (Some "Wimbledon") (Some "WTA") = 3%Z.
Proof.
  split; [| repeat split; reflexivity].
  intros name tour major. subst major.
  unfold UpdateData.resolve_best_of, UpdateData.is_grand_slam, mens_tour.
  rewrite <- (existsb_matches_ci _ _ update_data_markers_lower).
  rewrite <- String.eqb_eq.
  destruct (existsb _ _); destruct (String.eqb _ "ATP"); simpl;
    (split; split; intro H;
     [ try discriminate; auto
     | try reflexivity; destruct H; discriminate
     | try discriminate; try (intros [? ?]; discriminate)
     | try reflexivity; exfalso; apply H; auto ]).
Qed.

(* ===================================================================== *)
(** ** The serve outcome model *)
(* ===================================================================== *)

Local Open Scope Q_scope.

(** C7. On first-serve-in and first-serve-win rates in (0,1] and a
    second-serve-win rate in [0,1], both expected point-win rates lie in
    [0,1]. *)
Theorem expected_rates_in_unit_interval (fi fw sw : Q) :
  0 < fi <= 1 -> 0 < fw <= 1 -> 0 <= sw <= 1 ->
  (0 <= Serve.only_first (Serve.serve_outcome fi fw sw) <= 1)
  /\ (0 <= Serve.traditional (Serve.serve_outcome fi fw sw) <= 1).
Proof.
  intros [Hfi0 Hfi1] [Hfw0 Hfw1] [Hsw0 Hsw1].
  unfold Serve.serve_outcome; simpl.
  assert (H1 : 0 <= fi * fw) by (apply Qmult_le_0_compat; lra).
  assert (H2 : 0 <= (1 - fi) * (fi * fw)) by (apply Qmult_le_0_compat; lra).
  assert (H3 : 0 <= (1 - fi) * sw) by (apply Qmult_le_0_compat; lra).
  assert (H4 : 0 <= fi * (1 - fw)) by (apply Qmult_le_0_compat; lra).
  assert (H5 : 0 <= (1 - fi) * (1 - sw)) by (apply Qmult_le_0_compat; lra).
  assert (H6 : 0 <= (1 - fi) * (1 - fi)) by (apply Qmult_le_0_compat; lra).
  assert (H7 : 0 <= (1 - fw) * (fi * (2 - fi)))
    by (apply Qmult_le_0_compat; [lra | apply Qmult_le_0_compat; lra]).
  repeat split; lra.
Qed.

(* ===================================================================== *)
(** ** The point loops follow the specified branching *)
(* ===================================================================== *)

Local Open Scope Z_scope.

Lemma trad_point_spec (rnd : nat -> Q) (fi fw sw : Q) (c : Z) (k : nat) :
  runState (trad_point rnd fi fw sw c) k =
  let (won, k') := runState (spec_point rnd Traditional fi fw sw) k in
  (bump won c, k').
Proof.
  unfold trad_point, spec_point, bernoulli, random, bump. simpl.
  destruct (Py.Qltb (rnd k) fi); simpl;
    destruct (Py.Qltb (rnd (S k)) _); reflexivity.
Qed.

Lemma only_first_point_spec (rnd : nat -> Q) (fi fw sw : Q) (c : Z) (k : nat) :
  runState (only_first_point rnd fi fw c) k =
  let (won, k') := runState (spec_point rnd OnlyFirst fi fw sw) k in
  (bump won c, k').
Proof.
  unfold only_first_point, spec_point, bernoulli, random, bump. simpl.
  destruct (Py.Qltb (rnd k) fi); simpl.
  - destruct (Py.Qltb (rnd (S k)) fw); reflexivity.
  - destruct (Py.Qltb (rnd (S k)) fi); simpl;
      [destruct (Py.Qltb (rnd (S (S k))) fw) |]; reflexivity.
Qed.

Lemma points_won_cons (won : bool) (outcomes : list bool) :
  points_won (won :: outcomes) = bump won (points_won outcomes).
Proof.
  unfold points_won, bump. destruct won; simpl; lia.
Qed.

Section LoopRefinement.

Variable rnd : nat -> Q.
Variable strategy : Strategy.
Variables fi fw sw : Q.
Variable body : Z -> state nat Z.

Hypothesis body_spec : forall c k,
  runState (body c) k =
  let (won, k') := runState (spec_point rnd strategy fi fw sw) k in
  (bump won c, k').

(** A counting loop over the per-point body adds to its counter the number
    of points that the specified step wins, draw for draw. *)
Lemma repeatM_points (n : nat) : forall (c : Z) (k : nat),
  runState (repeatM n body c) k =
  let (outcomes, k') := runState (spec_points rnd n strategy fi fw sw) k in
  (c + points_won outcomes, k').
Proof.
  induction n as [| n IH]; intros c k.
  - simpl. f_equal. unfold points_won. simpl. lia.
  - rewrite run_repeatM_S, body_spec.
    cbn [spec_points]. rewrite run_bind.
    destruct (runState (spec_point rnd strategy fi fw sw) k) as [won k1].
    rewrite IH, run_bind.
    destruct (runState (spec_points rnd n strategy fi fw sw) k1) as [rest k2].
    rewrite run_ret, points_won_cons.
    f_equal. unfold bump. destruct won; lia.
Qed.

Lemma spec_points_length (n : nat) : forall k,
  List.length (fst (runState (spec_points rnd n strategy fi fw sw) k)) = n.
Proof.
  induction n as [| n IH]; intro k; [reflexivity |].
  cbn [spec_points]. rewrite run_bind.
  destruct (runState (spec_point rnd strategy fi fw sw) k) as [won k1].
  rewrite run_bind. specialize (IH k1).
  destruct (runState (spec_points rnd n strategy fi fw sw) k1) as [rest k2].
  simpl in *. now rewrite IH.
Qed.

End LoopRefinement.

(** C1. Each service point of the simulator is the specified branching: a
    first-serve-in sample of probability [firstIn]; on success a point-won
    sample of probability [firstWin]; on failure the traditional strategy
    samples point-won with probability [secondWin], and the only-first
    strategy samples first-serve-in again and, on success, point-won with
    probability [firstWin], and loses the point otherwise.  Each of the two
    loops of a simulated match runs this step once per service point and
    counts the points won. *)
Theorem point_loops_follow_spec (rnd : nat -> Q) (fi fw sw : Q) :
  (forall c k,
     runState (trad_point rnd fi fw sw c) k =
     let (won, k') := runState (spec_point rnd Traditional fi fw sw) k in
     (if won then c + 1 else c, k'))
  /\ (forall c k,
     runState (only_first_point rnd fi fw c) k =
     let (won, k') := runState (spec_point rnd OnlyFirst fi fw sw) k in
     (if won then c + 1 else c, k'))
  /\ (forall service_points k,
     let n := Z.to_nat service_points in
     (let (outcomes, k') :=
        runState (spec_points rnd n Traditional fi fw sw) k in
      List.length outcomes = n
      /\ runState (for_range service_points (trad_point rnd fi fw sw) 0) k
         = (points_won outcomes, k'))
     /\
     (let (outcomes, k') :=
        runState (spec_points rnd n OnlyFirst fi fw sw) k in
      List.length outcomes = n
      /\ runState (for_range service_points (only_first_point rnd fi fw) 0) k
         = (points_won outcomes, k'))).
Proof.
  split; [exact (trad_point_spec rnd fi fw sw) |].
  split; [exact (only_first_point_spec rnd fi fw sw) |].
  intros service_points k n. unfold for_range. fold n. split.
  - pose proof (spec_points_length rnd Traditional fi fw sw n k) as Hlen.
    rewrite (repeatM_points rnd Traditional fi fw sw _
               (trad_point_spec rnd fi fw sw)).
    destruct (runState (spec_points rnd n Traditional fi fw sw) k).
    split; [exact Hlen | reflexivity].
  - pose proof (spec_points_length rnd OnlyFirst fi fw sw n k) as Hlen.
    rewrite (repeatM_points rnd OnlyFirst fi fw sw _
               (only_first_point_spec rnd fi fw sw)).
    destruct (runState (spec_points rnd n OnlyFirst fi fw sw) k).
    split; [exact Hlen | reflexivity].
Qed.

(* ===================================================================== *)
(** ** Simulated matches and their tally *)
(* ===================================================================== *)

Lemma win_threshold_positive (best_of : Z) :
  Py.Qgtb 0 (win_threshold best_of) = false.
Proof. unfold win_threshold. destruct (best_of =? 3); reflexivity. Qed.

Lemma wins_matchb_iff (service_points best_of points : Z) :
  wins_matchb service_points best_of points = true
  <-> wins_match service_points best_of points.
Proof. unfold wins_matchb, wins_match. apply Qgtb_true_iff. Qed.

Lemma count_wins_cons (service_points best_of points : Z) (rest : list Z) :
  count_wins service_points best_of (points :: rest) =
  bump (wins_matchb service_points best_of points)
    (count_wins service_points best_of rest).
Proof.
  unfold count_wins, bump. simpl.
  destruct (wins_matchb service_points best_of points); simpl; lia.
Qed.

Section Trials.

Variable rnd : nat -> Q.
Variables fi fw sw : Q.
Variables service_points best_of : Z.

(** One trial of [tennis_serve_analyzer.py]: the two point loops, then one
    more win for each strategy whose fraction is above the threshold. *)
Lemma analyzer_trial_run (wins : Z * Z) (k : nat) :
  runState (Analyzer.trial rnd fi fw sw service_points best_of wins) k =
  let (m, k') := runState (match_points rnd fi fw sw service_points) k in
  ((bump ((service_points >? 0) && wins_matchb service_points best_of (fst m))
      (fst wins),
    bump ((service_points >? 0) && wins_matchb service_points best_of (snd m))
      (snd wins)), k').
Proof.
  unfold Analyzer.trial, match_points. rewrite !run_bind.
  destruct (runState (for_range service_points (trad_point rnd fi fw sw) 0) k)
    as [tp k1].
  rewrite !run_bind.
  destruct (runState (for_range service_points (only_first_point rnd fi fw) 0) k1)
    as [op k2].
  rewrite !run_ret. unfold wins_matchb, bump. simpl fst; simpl snd.
  destruct (service_points >? 0); simpl andb.
  - reflexivity.
  - rewrite win_threshold_positive. reflexivity.
Qed.

(** The trial of [update_data.py] guards the comparison instead of the
    quotient; it computes the same. *)
Lemma update_data_trial_agrees (wins : Z * Z) (k : nat) :
  runState (UpdateData.trial rnd fi fw sw service_points best_of wins) k =
  runState (Analyzer.trial rnd fi fw sw service_points best_of wins) k.
Proof.
  rewrite analyzer_trial_run.
  unfold UpdateData.trial, match_points. rewrite !run_bind.
  destruct (runState (for_range service_points (trad_point rnd fi fw sw) 0) k)
    as [tp k1].
  rewrite !run_bind.
  destruct (runState (for_range service_points (only_first_point rnd fi fw) 0) k1)
    as [op k2].
  rewrite !run_ret. unfold wins_matchb, bump. simpl fst; simpl snd.
  destruct (service_points >? 0); simpl andb.
  - reflexivity.
  - destruct wins; reflexivity.
Qed.

Lemma repeatM_ext {A : Type} (f g : A -> state nat A) (n : nat) :
  (forall a k, runState (f a) k = runState (g a) k) ->
  forall a k, runState (repeatM n f a) k = runState (repeatM n g a) k.
Proof.
  intro Hfg. induction n as [| n IH]; intros a k; [reflexivity |].
  rewrite !run_repeatM_S, Hfg.
  destruct (runState (g a) k) as [a' k']. apply IH.
Qed.

(** With a positive number of service points, [n] trials add to each
    counter the number of simulated matches that its strategy wins. *)
Lemma trials_tally (n : nat) :
  service_points > 0 ->
  forall (wins : Z * Z) (k : nat),
    runState
      (repeatM n (Analyzer.trial rnd fi fw sw service_points best_of) wins) k =
    let (ms, k') :=
      runState (matches_points rnd fi fw sw service_points n) k in
    (tally service_points best_of ms wins, k').
Proof.
  intro Hsp. apply Z.gtb_gt in Hsp.
  induction n as [| n IH]; intros wins k.
  - simpl. unfold tally, count_wins. simpl. rewrite !Z.add_0_r.
    destruct wins; reflexivity.
  - rewrite run_repeatM_S, analyzer_trial_run. rewrite Hsp. simpl andb.
    cbn [matches_points]. rewrite run_bind.
    destruct (runState (match_points rnd fi fw sw service_points) k) as [m k1].
    rewrite IH, run_bind.
    destruct (runState (matches_points rnd fi fw sw service_points n) k1)
      as [ms k2].
    rewrite run_ret. unfold tally. simpl fst; simpl snd. simpl map.
    rewrite !count_wins_cons. f_equal. f_equal; unfold bump;
      destruct (wins_matchb service_points best_of _); lia.
Qed.

Lemma matches_points_length (n : nat) : forall k,
  List.length (fst (runState (matches_points rnd fi fw sw service_points n) k))
  = n.
Proof.
  induction n as [| n IH]; intro k; [reflexivity |].
  cbn [matches_points]. rewrite run_bind.
  destruct (runState (match_points rnd fi fw sw service_points) k) as [m k1].
  rewrite run_bind. specialize (IH k1).
  destruct (runState (matches_points rnd fi fw sw service_points n) k1).
  simpl in *. now rewrite IH.
Qed.

(** Without service points the trials draw nothing and count nothing. *)
Lemma trials_without_points (n : nat) :
  service_points <= 0 ->
  forall (wins : Z * Z) (k : nat),
    runState
      (repeatM n (Analyzer.trial rnd fi fw sw service_points best_of) wins) k
    = (wins, k).
Proof.
  intro Hsp. assert (Hgt : (service_points >? 0) = false) by lia.
  induction n as [| n IH]; intros wins k; [reflexivity |].
  rewrite run_repeatM_S, analyzer_trial_run.
  unfold match_points. rewrite run_bind, run_for_range_nonpos by exact Hsp.
  rewrite run_bind, run_for_range_nonpos by exact Hsp.
  rewrite run_ret, Hgt. simpl andb. unfold bump.
  rewrite IH. destruct wins; reflexivity.
Qed.

(** The simulator of [tennis_serve_analyzer.py] returns the counters and
    their quotients by [num_sims], unless [num_sims] is 0. *)
Lemma analyzer_simulate_run (num_sims : Z) (k : nat) :
  num_sims <> 0 ->
  runState
    (Analyzer.simulate_match_outcome rnd fi fw sw service_points best_of
       num_sims) k =
  let (wins, k') :=
    runState
      (for_range num_sims
         (Analyzer.trial rnd fi fw sw service_points best_of) (0, 0)) k in
  (inr {| Analyzer.Sim.traditional_wins := fst wins;
          Analyzer.Sim.only_first_wins := snd wins;
          Analyzer.Sim.traditional_prob :=
            (inject_Z (fst wins) / inject_Z num_sims)%Q;
          Analyzer.Sim.only_first_prob :=
            (inject_Z (snd wins) / inject_Z num_sims)%Q;
          Analyzer.Sim.num_simulations := num_sims |}, k').
Proof.
  intro Hn. apply Z.eqb_neq in Hn.
  unfold Analyzer.simulate_match_outcome. rewrite run_bind.
  destruct (runState (for_range num_sims _ (0, 0)) k) as [wins k'].
  rewrite run_ret. unfold Py.int_truediv. rewrite Hn. reflexivity.
Qed.

(** The simulator of [update_data.py] is the other one at 1000 trials. *)
Lemma update_data_simulate_run (k : nat) :
  runState
    (UpdateData.simulate_match_outcome rnd fi fw sw service_points best_of) k =
  let (wins, k') :=
    runState
      (for_range UpdateData.NUM_SIMULATIONS
         (Analyzer.trial rnd fi fw sw service_points best_of) (0, 0)) k in
  ({| UpdateData.Sim.traditional_prob :=
        (inject_Z (fst wins) / inject_Z UpdateData.NUM_SIMULATIONS)%Q;
      UpdateData.Sim.only_first_prob :=
        (inject_Z (snd wins) / inject_Z UpdateData.NUM_SIMULATIONS)%Q |}, k').
Proof.
  unfold UpdateData.simulate_match_outcome. rewrite run_bind.
  unfold for_range.
  rewrite (repeatM_ext _ _ _ update_data_trial_agrees).
  destruct (runState (repeatM _ _ (0, 0)) k) as [wins k'].
  reflexivity.
Qed.

End Trials.

(** C4. With a positive number of service points, a strategy wins a
    simulated match exactly when its points won divided by the service
    points is strictly above the threshold of the format, 0.58 for best of
    three and 0.56 for best of five; and after [num_sims >= 1] trials the
    result holds, for each strategy, the number of simulated matches won and
    that number divided by [num_sims].  [update_data.py] runs the same trial
    1000 times. *)
Theorem simulated_wins_and_probabilities (rnd : nat -> Q) (fi fw sw : Q)
  (service_points best_of num_sims : Z) (k : nat) :
  service_points > 0 -> num_sims >= 1 ->
  (win_threshold 3 = 58 # 100 /\ win_threshold 5 = 56 # 100)
  /\ (forall wins k0,
        let (m, k1) := runState (match_points rnd fi fw sw service_points) k0 in
        let wins' :=
          ((if wins_matchb service_points best_of (fst m)
            then fst wins + 1 else fst wins),
           (if wins_matchb service_points best_of (snd m)
            then snd wins + 1 else snd wins)) in
        runState (Analyzer.trial rnd fi fw sw service_points best_of wins) k0
        = (wins', k1)
        /\ runState (UpdateData.trial rnd fi fw sw service_points best_of wins) k0
           = (wins', k1))
  /\ (forall points,
        wins_matchb service_points best_of points = true
        <-> (win_threshold best_of
             < inject_Z points / inject_Z service_points)%Q)
  /\ (let (ms, k') :=
        runState (matches_points rnd fi fw sw service_points
                    (Z.to_nat num_sims)) k in
      let traditional_wins := count_wins service_points best_of (map fst ms) in
      let only_first_wins := count_wins service_points best_of (map snd ms) in
      List.length ms = Z.to_nat num_sims
      /\ runState
           (Analyzer.simulate_match_outcome rnd fi fw sw service_points
              best_of num_sims) k
         = (inr {| Analyzer.Sim.traditional_wins := traditional_wins;
                   Analyzer.Sim.only_first_wins := only_first_wins;
                   Analyzer.Sim.traditional_prob :=
                     (inject_Z traditional_wins / inject_Z num_sims)%Q;
                   Analyzer.Sim.only_first_prob :=
                     (inject_Z only_first_wins / inject_Z num_sims)%Q;
                   Analyzer.Sim.num_simulations := num_sims |}, k'))
  /\ (let (ms, k') :=
        runState (matches_points rnd fi fw sw service_points 1000) k in
      let traditional_wins := count_wins service_points best_of (map fst ms) in
      let only_first_wins := count_wins service_points best_of (map snd ms) in
      runState
        (UpdateData.simulate_match_outcome rnd fi fw sw service_points best_of)
        k
      = ({| UpdateData.Sim.traditional_prob :=
              (inject_Z traditional_wins / inject_Z 1000)%Q;
            UpdateData.Sim.only_first_prob :=
              (inject_Z only_first_wins / inject_Z 1000)%Q |}, k')).
Proof.
  intros Hsp Hn.
  split; [split; reflexivity |].
  split.
  { intros wins k0.
    pose proof (analyzer_trial_run rnd fi fw sw service_points best_of wins k0)
      as Ha.
    pose proof (update_data_trial_agrees rnd fi fw sw service_points best_of
                  wins k0) as Hu.
    rewrite Ha in Hu.
    destruct (runState (match_points rnd fi fw sw service_points) k0) as [m k1].
    replace (service_points >? 0) with true in * by (symmetry; lia).
    simpl andb in *. unfold bump in *. split; assumption. }
  split; [intro points; apply wins_matchb_iff |].
  split.
  - pose proof (matches_points_length rnd fi fw sw service_points
                  (Z.to_nat num_sims) k) as Hlen.
    rewrite analyzer_simulate_run by lia.
    unfold for_range. rewrite trials_tally by exact Hsp.
    destruct (runState (matches_points rnd fi fw sw service_points
                          (Z.to_nat num_sims)) k) as [ms k'].
    split; [exact Hlen |]. unfold tally. reflexivity.
  - rewrite update_data_simulate_run.
    unfold for_range.
    change (Z.to_nat UpdateData.NUM_SIMULATIONS) with 1000%nat.
    rewrite trials_tally by exact Hsp.
    destruct (runState (matches_points rnd fi fw sw service_points 1000) k)
      as [ms k'].
    unfold tally. reflexivity.
Qed.

(** A run of the theorem above: every draw is 0, so every sample succeeds
    and both strategies win both simulated matches of two points. *)
Lemma simulated_wins_witness :
  2 > 0 /\ 2 >= 1
  /\ fst (runState
            (Analyzer.simulate_match_outcome (fun _ => 0%Q)
               (1 # 2) (1 # 2) (1 # 2) 2 3 2) 0%nat)
     = inr {| Analyzer.Sim.traditional_wins := 2;
              Analyzer.Sim.only_first_wins := 2;
              Analyzer.Sim.traditional_prob := (inject_Z 2 / inject_Z 2)%Q;
              Analyzer.Sim.only_first_prob := (inject_Z 2 / inject_Z 2)%Q;
              Analyzer.Sim.num_simulations := 2 |}.
Proof.
  split; [lia |]. split; [lia |].
  pose proof (simulated_wins_and_probabilities (fun _ => 0%Q)
                (1 # 2) (1 # 2) (1 # 2) 2 3 2 0%nat
                ltac:(lia) ltac:(lia)) as (_ & _ & _ & H & _).
  match type of H with
  | (let (_, _) := ?x in _) => destruct x as [ms k'] eqn:E
  end.
  destruct H as [_ H]. rewrite H.
  vm_compute in E. injection E as <- <-. reflexivity.
Defined.

(** C9. With no service points and at least one simulation, both returned
    win probabilities are 0, in both scripts, and no draw is consumed. *)
Theorem no_service_points_no_wins (rnd : nat -> Q) (fi fw sw : Q)
  (best_of num_sims : Z) (k : nat) :
  num_sims >= 1 ->
  (exists r,
     runState
       (Analyzer.simulate_match_outcome rnd fi fw sw 0 best_of num_sims) k
     = (inr r, k)
     /\ (Analyzer.Sim.traditional_prob r == 0)%Q
     /\ (Analyzer.Sim.only_first_prob r == 0)%Q)
  /\ (exists r,
        runState (UpdateData.simulate_match_outcome rnd fi fw sw 0 best_of) k
        = (r, k)
        /\ (UpdateData.Sim.traditional_prob r == 0)%Q
        /\ (UpdateData.Sim.only_first_prob r == 0)%Q).
Proof.
  intro Hn. split.
  - rewrite analyzer_simulate_run by lia.
    unfold for_range. rewrite trials_without_points by lia.
    eexists. split; [reflexivity |]. simpl.
    split; unfold Qdiv; rewrite Qmult_0_l; reflexivity.
  - rewrite update_data_simulate_run.
    unfold for_range. rewrite trials_without_points by lia.
    eexists. split; [reflexivity |]. simpl.
    split; reflexivity.
Qed.

(** A run of the theorem above: three simulations of a match without
    service points. *)
Lemma no_service_points_witness :
  3 >= 1
  /\ exists r,
       runState
         (Analyzer.simulate_match_outcome (fun _ => 0%Q)
            (1 # 2) (1 # 2) (1 # 2) 0 3 3) 0%nat
       = (inr r, 0%nat)
       /\ (Analyzer.Sim.traditional_prob r == 0)%Q
       /\ (Analyzer.Sim.only_first_prob r == 0)%Q.
Proof.
  split; [lia |].
  exact (proj1 (no_service_points_no_wins (fun _ => 0%Q)
                  (1 # 2) (1 # 2) (1 # 2) 3 3 0%nat ltac:(lia))).
Defined.

(** The simulator called with -1 simulations does not fail: it returns a
    result with no wins. *)
Lemma negative_num_sims_returns :
  fst (runState
         (Analyzer.simulate_match_outcome (fun _ => 0%Q)
            (1 # 2) (1 # 2) (1 # 2) 10 3 (-1)) 0%nat)
  = inr {| Analyzer.Sim.traditional_wins := 0;
           Analyzer.Sim.only_first_wins := 0;
           Analyzer.Sim.traditional_prob := 0;
           Analyzer.Sim.only_first_prob := 0;
           Analyzer.Sim.num_simulations := -1 |}
  /\ (forall e : Py.exn,
        fst (runState
               (Analyzer.simulate_match_outcome (fun _ => 0%Q)
                  (1 # 2) (1 # 2) (1 # 2) 10 3 (-1)) 0%nat)
        <> inl e).
Proof.
  split; [reflexivity |]. intros e H. discriminate H.
Qed.

(* ===================================================================== *)
(** ** The analysis pass *)
(* ===================================================================== *)

(** One block of [tennis_serve_analyzer.py] raises nothing, and appends a
    record exactly under the three guards. *)
Lemma analyzer_side_run (rnd : nat -> Q) (side : Csv.Side) (row : Csv.Row)
  (k : nat) :
  exists x k',
    runState (Analyzer.analyze_side rnd side row) k = (inr x, k')
    /\ (forall r, x = Some r ->
          sufficient side row /\ analyzer_derived side row r)
    /\ (x = None -> ~ sufficient side row).
Proof.
  unfold Analyzer.analyze_side, sufficient.
  destruct ((Csv.svpt side row >? 0) && (Csv.fstIn side row >? 0)) eqn:G1;
    [| exists None, k; split; [reflexivity |]; split; [discriminate | lia] ].
  destruct (Csv.svpt side row - Csv.fstIn side row >? 0) eqn:G2;
    [| exists None, k; split; [reflexivity |]; split; [discriminate | lia] ].
  cbv zeta. rewrite run_bind.
  rewrite analyzer_simulate_run by (unfold Analyzer.NUM_SIMULATIONS; lia).
  destruct (runState (for_range Analyzer.NUM_SIMULATIONS _ (0, 0)) k)
    as [wins k'].
  rewrite run_ret. eexists. exists k'. split; [reflexivity |]. split.
  - intros r [= <-]. split; [lia |].
    unfold analyzer_derived, row_outcome. cbn. repeat split.
  - discriminate.
Qed.

Lemma in_append_record_analyzer (acc : list Analyzer.PerformanceRecord)
  (x : option Analyzer.PerformanceRecord) (r : Analyzer.PerformanceRecord) :
  In r (Analyzer.append_record acc x) -> In r acc \/ x = Some r.
Proof.
  destruct x as [r' |]; simpl; [| auto].
  rewrite in_app_iff. simpl. intros [H | [H | []]]; [auto | subst; auto].
Qed.

(** The pass of [tennis_serve_analyzer.py] raises nothing, and each record
    it appends comes from one side of one row that passes the guards. *)
Lemma analyzer_rows_run (rnd : nat -> Q) (rows : list Csv.Row) :
  forall (acc : list Analyzer.PerformanceRecord) (k : nat),
  exists rs k',
    runState (Analyzer.analyze_rows rnd rows acc) k = (inr rs, k')
    /\ forall r, In r rs ->
         In r acc
         \/ exists row side,
              In row rows /\ sufficient side row
              /\ analyzer_derived side row r.
Proof.
  induction rows as [| row rows IH]; intros acc k.
  - exists acc, k. split; [reflexivity | auto].
  - cbn [Analyzer.analyze_rows]. rewrite run_bind.
    destruct (analyzer_side_run rnd Csv.Winner row k)
      as (w & k1 & Ew & Hw & _).
    rewrite Ew, run_bind.
    destruct (analyzer_side_run rnd Csv.Loser row k1)
      as (l & k2 & El & Hl & _).
    rewrite El.
    destruct (IH (Analyzer.append_record (Analyzer.append_record acc w) l) k2)
      as (rs & k' & E & Hrs).
    exists rs, k'. split; [exact E |].
    intros r Hr. destruct (Hrs r Hr) as [Hacc | (row' & side & Hin & H)].
    + apply in_append_record_analyzer in Hacc. destruct Hacc as [Hacc | ->].
      * apply in_append_record_analyzer in Hacc. destruct Hacc as [Hacc | ->].
        -- left. exact Hacc.
        -- right. exists row, Csv.Winner. split; [left; reflexivity | auto].
      * right. exists row, Csv.Loser. split; [left; reflexivity | auto].
    + right. exists row', side. split; [right; exact Hin | exact H].
Qed.

(** One block of [update_data.py] appends a record exactly under the three
    guards. *)
Lemma update_data_side_run (rnd : nat -> Q) (side : Csv.Side) (row : Csv.Row)
  (k : nat) :
  let tour_of_row := Py.get_default (Csv.tour row) "ATP" in
  let best_of :=
    UpdateData.resolve_best_of (Csv.tourney_name row) (Csv.tour row) in
  exists x k',
    runState (UpdateData.analyze_side rnd tour_of_row best_of side row) k
    = (x, k')
    /\ (forall r, x = Some r ->
          sufficient side row /\ update_data_derived side row r)
    /\ (x = None -> ~ sufficient side row).
Proof.
  intros tour_of_row best_of.
  unfold UpdateData.analyze_side, sufficient.
  destruct ((Csv.svpt side row >? 0) && (Csv.fstIn side row >? 0)) eqn:G1;
    [| exists None, k; split; [reflexivity |]; split; [discriminate | lia] ].
  destruct (Csv.svpt side row - Csv.fstIn side row >? 0) eqn:G2;
    [| exists None, k; split; [reflexivity |]; split; [discriminate | lia] ].
  cbv zeta. rewrite run_bind.
  destruct (runState (UpdateData.simulate_match_outcome _ _ _ _ _ _) k)
    as [sim k'].
  rewrite run_ret. eexists. exists k'. split; [reflexivity |]. split.
  - intros r [= <-]. split; [lia |].
    unfold update_data_derived, row_outcome. cbn [UpdateData.fi UpdateData.fw
      UpdateData.sw UpdateData.bp UpdateData.ob UpdateData.b].
    repeat split.
  - discriminate.
Qed.

Lemma in_append_record_update_data (acc : list UpdateData.PerformanceRecord)
  (x : option UpdateData.PerformanceRecord) (r : UpdateData.PerformanceRecord) :
  In r (UpdateData.append_record acc x) -> In r acc \/ x = Some r.
Proof.
  destruct x as [r' |]; simpl; [| auto].
  rewrite in_app_iff. simpl. intros [H | [H | []]]; [auto | subst; auto].
Qed.

(** Each record the pass of [update_data.py] appends comes from one side of
    one row that passes the guards. *)
Lemma update_data_rows_run (rnd : nat -> Q) (rows : list Csv.Row) :
  forall (acc : list UpdateData.PerformanceRecord) (k : nat) r,
    In r (fst (runState (UpdateData.analyze_rows rnd rows acc) k)) ->
    In r acc
    \/ exists row side,
         In row rows /\ sufficient side row /\ update_data_derived side row r.
Proof.
  induction rows as [| row rows IH]; intros acc k r Hr.
  - left. exact Hr.
  - cbn [UpdateData.analyze_rows] in Hr. cbv zeta in Hr. rewrite run_bind in Hr.
    destruct (update_data_side_run rnd Csv.Winner row k)
      as (w & k1 & Ew & Hw & _).
    rewrite Ew, run_bind in Hr.
    destruct (update_data_side_run rnd Csv.Loser row k1)
      as (l & k2 & El & Hl & _).
    rewrite El in Hr.
    destruct (IH _ _ _ Hr) as [Hacc | (row' & side & Hin & H)].
    + apply in_append_record_update_data in Hacc. destruct Hacc as [Hacc | ->].
      * apply in_append_record_update_data in Hacc.
        destruct Hacc as [Hacc | ->].
        -- left. exact Hacc.
        -- right. exists row, Csv.Winner. split; [left; reflexivity | auto].
      * right. exists row, Csv.Loser. split; [left; reflexivity | auto].
    + right. exists row', side. split; [right; exact Hin | exact H].
Qed.

(** Under the guards the first-serve-in rate is strictly between 0 and 1. *)
Lemma first_in_pct_strict (svpt fstIn : Z) :
  svpt > 0 -> fstIn > 0 -> svpt - fstIn > 0 ->
  (0 < Serve.first_in_pct svpt fstIn /\ Serve.first_in_pct svpt fstIn < 1)%Q.
Proof.
  intros H1 H2 H3. unfold Serve.first_in_pct.
  assert (Hs : (0 < inject_Z svpt)%Q) by (rewrite <- (Zlt_Qlt 0); lia).
  assert (Hf : (0 < inject_Z fstIn)%Q) by (rewrite <- (Zlt_Qlt 0); lia).
  assert (Hlt : (inject_Z fstIn < inject_Z svpt)%Q) by (rewrite <- Zlt_Qlt; lia).
  split.
  - apply Qlt_shift_div_l; [exact Hs | lra].
  - apply Qlt_shift_div_r; [exact Hs | lra].
Qed.

Lemma analyzer_pass_run (rnd : nat -> Q) (rows : list Csv.Row) (k : nat) :
  exists rs k',
    runState (Analyzer.calculate_serve_advantage rnd rows) k = (inr rs, k')
    /\ Forall (fun r => exists row side,
                 In row rows /\ sufficient side row
                 /\ analyzer_derived side row r) rs.
Proof.
  unfold Analyzer.calculate_serve_advantage.
  destruct (analyzer_rows_run rnd rows [] k) as (rs & k' & E & H).
  exists rs, k'. split; [exact E |].
  apply Forall_forall. intros r Hr.
  destruct (H r Hr) as [[] | Hex]. exact Hex.
Qed.

Lemma update_data_pass_run (rnd : nat -> Q) (rows : list Csv.Row) (k : nat) :
  Forall (fun r => exists row side,
            In row rows /\ sufficient side row
            /\ update_data_derived side row r)
    (fst (runState (UpdateData.calculate_serve_advantage rnd rows) k)).
Proof.
  unfold UpdateData.calculate_serve_advantage.
  apply Forall_forall. intros r Hr.
  destruct (update_data_rows_run rnd rows [] k r Hr) as [[] | Hex]. exact Hex.
Qed.

Local Open Scope Q_scope.

(** C5, as the code has it.  Called with 0 simulations the simulator of
    [tennis_serve_analyzer.py] raises [ZeroDivisionError], after an empty
    loop; called with a negative number of simulations it raises nothing
    and returns no wins and two zero probabilities.  The analysis pass
    calls it with 1000 simulations and raises nothing. *)
Theorem simulate_nonpositive_num_sims (rnd : nat -> Q) (fi fw sw : Q)
  (service_points best_of : Z) (k : nat) :
  runState
    (Analyzer.simulate_match_outcome rnd fi fw sw service_points best_of 0) k
  = (inl Py.ZeroDivisionError, k)
  /\ (forall n : positive,
        exists r,
          runState
            (Analyzer.simulate_match_outcome rnd fi fw sw service_points
               best_of (Z.neg n)) k
          = (inr r, k)
          /\ Analyzer.Sim.traditional_wins r = 0%Z
          /\ Analyzer.Sim.only_first_wins r = 0%Z
          /\ Analyzer.Sim.traditional_prob r == 0
          /\ Analyzer.Sim.only_first_prob r == 0
          /\ Analyzer.Sim.num_simulations r = Z.neg n)
  /\ (forall rows : list Csv.Row,
        exists rs k',
          runState (Analyzer.calculate_serve_advantage rnd rows) k
          = (inr rs, k')).
Proof.
  split; [reflexivity |]. split.
  - intro n. rewrite analyzer_simulate_run by lia.
    rewrite run_for_range_nonpos by lia.
    eexists. split; [reflexivity |]. simpl.
    repeat split; unfold Qdiv; rewrite Qmult_0_l; reflexivity.
  - intro rows.
    destruct (analyzer_pass_run rnd rows k) as (rs & k' & E & _).
    exists rs, k'. exact E.
Qed.

Lemma percent_back (x : Q) : x * 100 / 100 == x.
Proof. field. Qed.

(** C2. The serve outcome model computes exactly
    [firstIn*firstWin + (1-firstIn)*firstIn*firstWin] for the only-first
    strategy and [firstIn*firstWin + (1-firstIn)*secondWin] for the
    traditional one, on every input; and every record of the analysis pass
    holds these two values, in percent, for its own three rates. *)
Theorem expected_rates_follow_formulas (rnd : nat -> Q) (rows : list Csv.Row)
  (k : nat) :
  (forall fi fw sw,
     Serve.only_first (Serve.serve_outcome fi fw sw)
     = Serve.spec_onlyFirstExpected fi fw
     /\ Serve.traditional (Serve.serve_outcome fi fw sw)
        = Serve.spec_traditionalExpected fi fw sw)
  /\ exists rs k',
       runState (Analyzer.calculate_serve_advantage rnd rows) k = (inr rs, k')
       /\ Forall (fun r =>
            let firstIn := Analyzer.first_in_pct r / 100 in
            let firstWin := Analyzer.first_win_pct r / 100 in
            let secondWin := Analyzer.second_win_pct r / 100 in
            Analyzer.only_first_expected r
            == Serve.spec_onlyFirstExpected firstIn firstWin * 100
            /\ Analyzer.traditional_expected r
               == Serve.spec_traditionalExpected firstIn firstWin secondWin
                  * 100) rs.
Proof.
  split; [intros; split; reflexivity |].
  destruct (analyzer_pass_run rnd rows k) as (rs & k' & E & H).
  exists rs, k'. split; [exact E |].
  eapply Forall_impl; [| exact H].
  intros r (row & side & _ & _ & D).
  destruct D as (-> & -> & -> & -> & -> & _).
  unfold row_outcome, Serve.serve_outcome, Serve.spec_onlyFirstExpected,
    Serve.spec_traditionalExpected.
  cbn [Serve.only_first Serve.traditional]. cbv zeta.
  rewrite !percent_back. split; reflexivity.
Qed.

(** The scenario of the specification: 65 % first serves in, 75 % of them
    won, 45 % of the second serves won. *)
Lemma expected_rates_witness :
  0 < 65 # 100 <= 1 /\ 0 < 75 # 100 <= 1 /\ 0 <= 45 # 100 <= 1
  /\ (0 <= Serve.only_first
             (Serve.serve_outcome (65 # 100) (75 # 100) (45 # 100)) <= 1)
  /\ (0 <= Serve.traditional
             (Serve.serve_outcome (65 # 100) (75 # 100) (45 # 100)) <= 1).
Proof.
  assert (H1 : 0 < 65 # 100 <= 1) by (split; [reflexivity | discriminate]).
  assert (H2 : 0 < 75 # 100 <= 1) by (split; [reflexivity | discriminate]).
  assert (H3 : 0 <= 45 # 100 <= 1) by (split; discriminate).
  split; [exact H1 |]. split; [exact H2 |]. split; [exact H3 |].
  exact (expected_rates_in_unit_interval _ _ _ H1 H2 H3).
Defined.

(** C10. Every record the analysis pass emits comes from one side of one
    row with [svpt > 0], [1stIn > 0] and [svpt - 1stIn > 0]: the three
    denominators of its rates are strictly positive and its first-serve-in
    rate is strictly between 0 and 1.  The pass of
    [tennis_serve_analyzer.py] stores the rates in percent, that of
    [update_data.py] in percent rounded to two decimals. *)
Theorem emitted_records_have_sound_rates (rnd : nat -> Q)
  (rows : list Csv.Row) (k : nat) :
  (exists rs k',
     runState (Analyzer.calculate_serve_advantage rnd rows) k = (inr rs, k')
     /\ Forall (fun r => exists row side,
          In row rows
          /\ let svpt := Csv.svpt side row in
             let fstIn := Csv.fstIn side row in
             (svpt > 0 /\ fstIn > 0 /\ svpt - fstIn > 0)%Z
             /\ 0 < inject_Z fstIn / inject_Z svpt < 1
             /\ Analyzer.first_in_pct r = inject_Z fstIn / inject_Z svpt * 100
             /\ Analyzer.first_win_pct r
                = inject_Z (Csv.fstWon side row) / inject_Z fstIn * 100
             /\ Analyzer.second_win_pct r
                = inject_Z (Csv.sndWon side row) / inject_Z (svpt - fstIn)
                  * 100
             /\ 0 < Analyzer.first_in_pct r < 100) rs)
  /\ Forall (fun r => exists row side,
       In row rows
       /\ let svpt := Csv.svpt side row in
          let fstIn := Csv.fstIn side row in
          (svpt > 0 /\ fstIn > 0 /\ svpt - fstIn > 0)%Z
          /\ 0 < inject_Z fstIn / inject_Z svpt < 1
          /\ UpdateData.fi r
             = Py.round2 (inject_Z fstIn / inject_Z svpt * 100)
          /\ UpdateData.fw r
             = Py.round2
                 (inject_Z (Csv.fstWon side row) / inject_Z fstIn * 100)
          /\ UpdateData.sw r
             = Py.round2
                 (inject_Z (Csv.sndWon side row) / inject_Z (svpt - fstIn)
                  * 100))
       (fst (runState (UpdateData.calculate_serve_advantage rnd rows) k)).
Proof.
  split.
  - destruct (analyzer_pass_run rnd rows k) as (rs & k' & E & H).
    exists rs, k'. split; [exact E |].
    eapply Forall_impl; [| exact H].
    intros r (row & side & Hin & Hs & D).
    exists row, side. split; [exact Hin |]. cbv zeta.
    destruct Hs as (H1 & H2 & H3).
    destruct (first_in_pct_strict _ _ H1 H2 H3) as [Hlo Hhi].
    unfold Serve.first_in_pct in Hlo, Hhi.
    destruct D as (D1 & D2 & D3 & _).
    unfold Serve.first_in_pct in D1. unfold Serve.first_win_pct in D2.
    unfold Serve.second_win_pct in D3.
    repeat split; try assumption; rewrite D1; lra.
  - eapply Forall_impl; [| exact (update_data_pass_run rnd rows k)].
    intros r (row & side & Hin & Hs & D).
    exists row, side. split; [exact Hin |]. cbv zeta.
    destruct Hs as (H1 & H2 & H3).
    destruct (first_in_pct_strict _ _ H1 H2 H3) as [Hlo Hhi].
    unfold Serve.first_in_pct in Hlo, Hhi.
    destruct D as (D1 & D2 & D3 & _).
    repeat split; assumption.
Qed.

(* ===================================================================== *)
(** ** Draws consumed and bounds of the simulator *)
(* ===================================================================== *)

Local Open Scope Z_scope.

(** A loop whose body adds 0 or 1 to its counter and consumes between [lo]
    and [hi] draws. *)
Lemma repeatM_counter_draws (body : Z -> state nat Z) (lo hi : nat) :
  (forall c k,
     c <= fst (runState (body c) k) <= c + 1
     /\ (k + lo <= snd (runState (body c) k) <= k + hi)%nat) ->
  forall n c k,
    c <= fst (runState (repeatM n body c) k) <= c + Z.of_nat n
    /\ (k + n * lo <= snd (runState (repeatM n body c) k) <= k + n * hi)%nat.
Proof.
  intros Hbody. induction n as [| n IH]; intros c k.
  - simpl. lia.
  - rewrite run_repeatM_S. specialize (Hbody c k).
    destruct (runState (body c) k) as [c1 k1]. simpl in Hbody.
    specialize (IH c1 k1).
    destruct (runState (repeatM n body c1) k1) as [c2 k2]. simpl in *.
    lia.
Qed.

Lemma trad_point_step (rnd : nat -> Q) (fi fw sw : Q) (c : Z) (k : nat) :
  c <= fst (runState (trad_point rnd fi fw sw c) k) <= c + 1
  /\ (k + 2 <= snd (runState (trad_point rnd fi fw sw c) k) <= k + 2)%nat.
Proof.
  unfold trad_point, random. simpl.
  destruct (Py.Qltb (rnd k) fi); simpl;
    destruct (Py.Qltb (rnd (S k)) _); simpl; lia.
Qed.

Lemma only_first_point_step (rnd : nat -> Q) (fi fw : Q) (c : Z) (k : nat) :
  c <= fst (runState (only_first_point rnd fi fw c) k) <= c + 1
  /\ (k + 2 <= snd (runState (only_first_point rnd fi fw c) k) <= k + 3)%nat.
Proof.
  unfold only_first_point, random. simpl.
  destruct (Py.Qltb (rnd k) fi); simpl.
  - destruct (Py.Qltb (rnd (S k)) fw); simpl; lia.
  - destruct (Py.Qltb (rnd (S k)) fi); simpl;
      [destruct (Py.Qltb (rnd (S (S k))) fw); simpl |]; lia.
Qed.

(** X1. In one simulated match the traditional loop consumes exactly two
    draws per service point and the only-first loop two or three; each
    loop wins at least 0 and at most [service_points] points (0 when
    [service_points] is negative). *)
Theorem point_loops_draws_and_bounds (rnd : nat -> Q) (fi fw sw : Q)
  (service_points : Z) (k : nat) :
  let n := Z.to_nat service_points in
  let trad :=
    runState (for_range service_points (trad_point rnd fi fw sw) 0) k in
  let only :=
    runState (for_range service_points (only_first_point rnd fi fw) 0) k in
  snd trad = (k + 2 * n)%nat
  /\ 0 <= fst trad <= Z.max 0 service_points
  /\ (k + 2 * n <= snd only <= k + 3 * n)%nat
  /\ 0 <= fst only <= Z.max 0 service_points.
Proof.
  intros n trad only. subst trad only. unfold for_range. fold n.
  pose proof (repeatM_counter_draws _ 2 2 (trad_point_step rnd fi fw sw) n 0 k)
    as Ht.
  pose proof (repeatM_counter_draws _ 2 3 (only_first_point_step rnd fi fw) n 0 k)
    as Ho.
  subst n. lia.
Qed.

(** One trial adds 0 or 1 to each win counter and consumes between four
    and five draws per service point. *)
Lemma analyzer_trial_step (rnd : nat -> Q) (fi fw sw : Q)
  (service_points best_of : Z) (wins : Z * Z) (k : nat) :
  let n := Z.to_nat service_points in
  let r := runState (Analyzer.trial rnd fi fw sw service_points best_of wins) k in
  fst wins <= fst (fst r) <= fst wins + 1
  /\ snd wins <= snd (fst r) <= snd wins + 1
  /\ (k + n * 4 <= snd r <= k + n * 5)%nat.
Proof.
  intros n r. subst r. rewrite analyzer_trial_run.
  unfold match_points. rewrite run_bind.
  pose proof (repeatM_counter_draws _ 2 2 (trad_point_step rnd fi fw sw) n 0 k)
    as Ht.
  unfold for_range. fold n.
  destruct (runState (repeatM n (trad_point rnd fi fw sw) 0) k) as [tp k1].
  rewrite run_bind.
  pose proof (repeatM_counter_draws _ 2 3 (only_first_point_step rnd fi fw)
                n 0 k1) as Ho.
  destruct (runState (repeatM n (only_first_point rnd fi fw) 0) k1) as [op k2].
  rewrite run_ret. simpl in *. unfold bump.
  destruct (_ && _); destruct (_ && _); lia.
Qed.

(** [n] trials add between 0 and [n] to each win counter. *)
Lemma trials_step (rnd : nat -> Q) (fi fw sw : Q) (service_points best_of : Z)
  (s : nat) : forall (wins : Z * Z) (k : nat),
  let n := Z.to_nat service_points in
  let r :=
    runState
      (repeatM s (Analyzer.trial rnd fi fw sw service_points best_of) wins) k in
  fst wins <= fst (fst r) <= fst wins + Z.of_nat s
  /\ snd wins <= snd (fst r) <= snd wins + Z.of_nat s
  /\ (k + s * (n * 4) <= snd r <= k + s * (n * 5))%nat.
Proof.
  induction s as [| s IH]; intros wins k n r; subst r.
  - simpl. lia.
  - rewrite run_repeatM_S.
    pose proof (analyzer_trial_step rnd fi fw sw service_points best_of wins k)
      as Hstep.
    destruct (runState (Analyzer.trial rnd fi fw sw service_points best_of wins) k)
      as [wins1 k1].
    specialize (IH wins1 k1).
    destruct (runState (repeatM s _ wins1) k1) as [wins2 k2].
    simpl in *. fold n in Hstep, IH. lia.
Qed.

Lemma unit_fraction (a b : Z) :
  0 <= a <= b -> 1 <= b -> (0 <= inject_Z a / inject_Z b <= 1)%Q.
Proof.
  intros Ha Hb.
  assert (Hb' : (0 < inject_Z b)%Q) by (rewrite <- (Zlt_Qlt 0); lia).
  assert (Ha0 : (0 <= inject_Z a)%Q) by (rewrite <- (Zle_Qle 0); lia).
  assert (Hab : (inject_Z a <= inject_Z b)%Q) by (rewrite <- Zle_Qle; lia).
  split.
  - apply Qle_shift_div_l; [exact Hb' | lra].
  - apply Qle_shift_div_r; [exact Hb' | lra].
Qed.

(** X2. Called with [num_sims >= 1], the simulator of
    [tennis_serve_analyzer.py] raises nothing; each strategy wins between 0
    and [num_sims] simulated matches, both win probabilities lie in [0,1],
    and the call consumes between 4 and 5 draws per service point and
    simulation.  The simulator of [update_data.py] does the same with 1000
    simulations. *)
Theorem simulation_bounds (rnd : nat -> Q) (fi fw sw : Q)
  (service_points best_of num_sims : Z) (k : nat) :
  num_sims >= 1 ->
  let n := Z.to_nat service_points in
  (exists r k',
     runState
       (Analyzer.simulate_match_outcome rnd fi fw sw service_points best_of
          num_sims) k = (inr r, k')
     /\ 0 <= Analyzer.Sim.traditional_wins r <= num_sims
     /\ 0 <= Analyzer.Sim.only_first_wins r <= num_sims
     /\ (0 <= Analyzer.Sim.traditional_prob r <= 1)%Q
     /\ (0 <= Analyzer.Sim.only_first_prob r <= 1)%Q
     /\ (k + Z.to_nat num_sims * (n * 4) <= k'
         <= k + Z.to_nat num_sims * (n * 5))%nat)
  /\ (exists r k',
        runState
          (UpdateData.simulate_match_outcome rnd fi fw sw service_points
             best_of) k = (r, k')
        /\ (0 <= UpdateData.Sim.traditional_prob r <= 1)%Q
        /\ (0 <= UpdateData.Sim.only_first_prob r <= 1)%Q
        /\ (k + 1000 * (n * 4) <= k' <= k + 1000 * (n * 5))%nat).
Proof.
  intros Hn n. split.
  - rewrite analyzer_simulate_run by lia. unfold for_range.
    pose proof (trials_step rnd fi fw sw service_points best_of
                  (Z.to_nat num_sims) (0, 0) k) as H.
    destruct (runState (repeatM (Z.to_nat num_sims) _ (0, 0)) k) as [wins k'].
    simpl in H. fold n in H. destruct H as (Ht & Ho & Hk).
    rewrite Z2Nat.id in Ht, Ho by lia.
    eexists. exists k'. split; [reflexivity |]. simpl.
    repeat split; try lia; try (apply unit_fraction; lia).
  - rewrite update_data_simulate_run. unfold for_range.
    pose proof (trials_step rnd fi fw sw service_points best_of
                  (Z.to_nat UpdateData.NUM_SIMULATIONS) (0, 0) k) as H.
    destruct (runState (repeatM (Z.to_nat UpdateData.NUM_SIMULATIONS) _ (0, 0)) k)
      as [wins k'].
    simpl fst in H; simpl snd in H. fold n in H. destruct H as (Ht & Ho & Hk).
    change (Z.to_nat UpdateData.NUM_SIMULATIONS) with 1000%nat in Hk.
    change (Z.of_nat (Z.to_nat UpdateData.NUM_SIMULATIONS)) with 1000 in Ht, Ho.
    eexists. exists k'. split; [reflexivity |]. simpl.
    repeat split; try lia;
      try (apply unit_fraction; unfold UpdateData.NUM_SIMULATIONS; lia).
Qed.

(** A run of the theorem above: three simulations of two service points. *)
Lemma simulation_bounds_witness :
  3 >= 1
  /\ exists r k',
       runState
         (Analyzer.simulate_match_outcome (fun _ => 0%Q)
            (1 # 2) (1 # 2) (1 # 2) 2 3 3) 0%nat = (inr r, k')
       /\ 0 <= Analyzer.Sim.traditional_wins r <= 3
       /\ 0 <= Analyzer.Sim.only_first_wins r <= 3
       /\ (0 <= Analyzer.Sim.traditional_prob r <= 1)%Q
       /\ (0 <= Analyzer.Sim.only_first_prob r <= 1)%Q
       /\ (0 + Z.to_nat 3 * (Z.to_nat 2 * 4) <= k'
           <= 0 + Z.to_nat 3 * (Z.to_nat 2 * 5))%nat.
Proof.
  split; [lia |].
  exact (proj1 (simulation_bounds (fun _ => 0%Q) (1 # 2) (1 # 2) (1 # 2)
                  2 3 3 0%nat ltac:(lia))).
Defined.

(* ===================================================================== *)
(** ** The simulator reads only the draws it consumes *)
(* ===================================================================== *)

Section Window.

Variable A : Type.
Variable body : (nat -> Q) -> A -> state nat A.
Variable hi : nat.

Hypothesis body_draws : forall rnd a k,
  (k <= snd (runState (body rnd a) k) <= k + hi)%nat.

Hypothesis body_local : forall r1 r2 a k,
  (forall i, (k <= i < k + hi)%nat -> r1 i = r2 i) ->
  runState (body r1 a) k = runState (body r2 a) k.

(** A loop over a body that reads at most [hi] draws ahead reads at most
    [n * hi] draws ahead. *)
Lemma repeatM_local (r1 r2 : nat -> Q) (n : nat) : forall a k,
  (forall i, (k <= i < k + n * hi)%nat -> r1 i = r2 i) ->
  runState (repeatM n (body r1) a) k = runState (repeatM n (body r2) a) k.
Proof.
  induction n as [| n IH]; intros a k Hagree; [reflexivity |].
  rewrite !run_repeatM_S.
  rewrite (body_local r1 r2 a k) by (intros i Hi; apply Hagree; lia).
  pose proof (body_draws r2 a k) as Hk.
  destruct (runState (body r2 a) k) as [a1 k1]. simpl in Hk.
  apply IH. intros i Hi. apply Hagree. lia.
Qed.

Lemma repeatM_draws (rnd : nat -> Q) (n : nat) : forall a k,
  (k <= snd (runState (repeatM n (body rnd) a) k) <= k + n * hi)%nat.
Proof.
  induction n as [| n IH]; intros a k; [simpl; lia |].
  rewrite run_repeatM_S.
  pose proof (body_draws rnd a k) as Hk.
  destruct (runState (body rnd a) k) as [a1 k1]. simpl in Hk.
  specialize (IH a1 k1). lia.
Qed.

End Window.

Lemma trad_point_local (fi fw sw : Q) (r1 r2 : nat -> Q) (c : Z) (k : nat) :
  (forall i, (k <= i < k + 2)%nat -> r1 i = r2 i) ->
  runState (trad_point r1 fi fw sw c) k = runState (trad_point r2 fi fw sw c) k.
Proof.
  intro H. unfold trad_point, random. simpl.
  rewrite (H k) by lia.
  destruct (Py.Qltb (r2 k) fi); simpl; rewrite (H (S k)) by lia; reflexivity.
Qed.

Lemma only_first_point_local (fi fw : Q) (r1 r2 : nat -> Q) (c : Z) (k : nat) :
  (forall i, (k <= i < k + 3)%nat -> r1 i = r2 i) ->
  runState (only_first_point r1 fi fw c) k
  = runState (only_first_point r2 fi fw c) k.
Proof.
  intro H. unfold only_first_point, random. simpl.
  rewrite (H k) by lia.
  destruct (Py.Qltb (r2 k) fi); simpl; rewrite (H (S k)) by lia;
    [reflexivity |].
  destruct (Py.Qltb (r2 (S k)) fi); simpl; [| reflexivity].
  rewrite (H (S (S k))) by lia. reflexivity.
Qed.

Lemma analyzer_trial_local (fi fw sw : Q) (service_points best_of : Z)
  (r1 r2 : nat -> Q) (wins : Z * Z) (k : nat) :
  (forall i, (k <= i < k + Z.to_nat service_points * 5)%nat -> r1 i = r2 i) ->
  runState (Analyzer.trial r1 fi fw sw service_points best_of wins) k
  = runState (Analyzer.trial r2 fi fw sw service_points best_of wins) k.
Proof.
  intro H. unfold Analyzer.trial, for_range.
  set (n := Z.to_nat service_points) in *.
  rewrite !run_bind.
  rewrite (repeatM_local Z (fun rnd => trad_point rnd fi fw sw) 2
             (fun rnd a k0 =>
                let H0 := trad_point_step rnd fi fw sw a k0 in
                conj (Nat.le_trans _ _ _ (Nat.le_add_r k0 2) (proj1 (proj2 H0)))
                     (proj2 (proj2 H0)))
             (trad_point_local fi fw sw) r1 r2 n 0 k)
    by (intros i Hi; apply H; lia).
  pose proof (repeatM_counter_draws _ 2 2 (trad_point_step r2 fi fw sw) n 0 k)
    as Hk.
  destruct (runState (repeatM n (trad_point r2 fi fw sw) 0) k) as [tp k1].
  simpl in Hk. rewrite !run_bind.
  rewrite (repeatM_local Z (fun rnd => only_first_point rnd fi fw) 3
             (fun rnd a k0 =>
                let H0 := only_first_point_step rnd fi fw a k0 in
                conj (Nat.le_trans _ _ _ (Nat.le_add_r k0 2) (proj1 (proj2 H0)))
                     (proj2 (proj2 H0)))
             (only_first_point_local fi fw) r1 r2 n 0 k1)
    by (intros i Hi; apply H; lia).
  reflexivity.
Qed.

Lemma analyzer_trial_draws (fi fw sw : Q) (service_points best_of : Z)
  (rnd : nat -> Q) (wins : Z * Z) (k : nat) :
  (k <= snd (runState (Analyzer.trial rnd fi fw sw service_points best_of wins) k)
   <= k + Z.to_nat service_points * 5)%nat.
Proof.
  pose proof (analyzer_trial_step rnd fi fw sw service_points best_of wins k)
    as H. cbv zeta in H. destruct H as (_ & _ & H). lia.
Qed.

Lemma trials_local (r1 r2 : nat -> Q) (fi fw sw : Q)
  (service_points best_of num_sims : Z) (k : nat) :
  (forall i,
     (k <= i < k + Z.to_nat num_sims * (Z.to_nat service_points * 5))%nat ->
     r1 i = r2 i) ->
  runState
    (for_range num_sims
       (Analyzer.trial r1 fi fw sw service_points best_of) (0, 0)) k
  = runState
      (for_range num_sims
         (Analyzer.trial r2 fi fw sw service_points best_of) (0, 0)) k.
Proof.
  intro H. unfold for_range.
  apply (repeatM_local (Z * Z)
           (fun rnd => Analyzer.trial rnd fi fw sw service_points best_of)
           (Z.to_nat service_points * 5)
           (analyzer_trial_draws fi fw sw service_points best_of)
           (analyzer_trial_local fi fw sw service_points best_of)).
  exact H.
Qed.

(** X3. The result of a simulation of [tennis_serve_analyzer.py] that
    starts at position [k] of the draw sequence depends only on the draws
    at positions [k] to [k + 5 * service_points * num_sims - 1]: two
    sequences that agree there give the same result and the same final
    position. *)
Theorem simulation_reads_only_its_window (r1 r2 : nat -> Q) (fi fw sw : Q)
  (service_points best_of num_sims : Z) (k : nat) :
  (forall i,
     (k <= i < k + Z.to_nat num_sims * (Z.to_nat service_points * 5))%nat ->
     r1 i = r2 i) ->
  runState
    (Analyzer.simulate_match_outcome r1 fi fw sw service_points best_of
       num_sims) k
  = runState
      (Analyzer.simulate_match_outcome r2 fi fw sw service_points best_of
         num_sims) k.
Proof.
  intro H. unfold Analyzer.simulate_match_outcome.
  rewrite !run_bind, (trials_local r1 r2) by exact H. reflexivity.
Qed.

(** Two sequences that differ from position 20 on, and a simulation of two
    matches of two points from position 0. *)
Lemma simulation_window_witness :
  (forall i,
     (0 <= i < 0 + Z.to_nat 2 * (Z.to_nat 2 * 5))%nat ->
     (fun _ : nat => 0%Q) i = (fun j : nat => if (j <? 20)%nat then 0%Q else 1%Q) i)
  /\ runState
       (Analyzer.simulate_match_outcome (fun _ : nat => 0%Q)
          (1 # 2) (1 # 2) (1 # 2) 2 3 2) 0%nat
     = runState
         (Analyzer.simulate_match_outcome
            (fun j : nat => if (j <? 20)%nat then 0%Q else 1%Q)
            (1 # 2) (1 # 2) (1 # 2) 2 3 2) 0%nat.
Proof.
  assert (H : forall i,
            (0 <= i < 0 + Z.to_nat 2 * (Z.to_nat 2 * 5))%nat ->
            (fun _ : nat => 0%Q) i
            = (fun j : nat => if (j <? 20)%nat then 0%Q else 1%Q) i).
  { intros i Hi. simpl in Hi. cbv beta.
    destruct (Nat.ltb_spec i 20); [reflexivity | lia]. }
  split; [exact H |].
  exact (simulation_reads_only_its_window _ _ _ _ _ _ _ _ _ H).
Defined.

(** X4. The same for the simulator of [update_data.py], whose window is
    [5 * service_points * 1000] draws long. *)
Theorem update_data_simulation_reads_only_its_window (r1 r2 : nat -> Q)
  (fi fw sw : Q) (service_points best_of : Z) (k : nat) :
  (forall i,
     (k <= i < k + 1000 * (Z.to_nat service_points * 5))%nat -> r1 i = r2 i) ->
  runState
    (UpdateData.simulate_match_outcome r1 fi fw sw service_points best_of) k
  = runState
      (UpdateData.simulate_match_outcome r2 fi fw sw service_points best_of) k.
Proof.
  intro H. rewrite !update_data_simulate_run.
  rewrite (trials_local r1 r2) by exact H. reflexivity.
Qed.

(** Two sequences that differ from position 5000 on, and a simulation of
    matches of one point from position 0. *)
Lemma update_data_window_witness :
  (forall i,
     (0 <= i < 0 + 1000 * (Z.to_nat 1 * 5))%nat ->
     (fun _ : nat => 0%Q) i
     = (fun j : nat => if (j <? 1000 * 5)%nat then 0%Q else 1%Q) i)
  /\ runState
       (UpdateData.simulate_match_outcome (fun _ : nat => 0%Q)
          (1 # 2) (1 # 2) (1 # 2) 1 3) 0%nat
     = runState
         (UpdateData.simulate_match_outcome
            (fun j : nat => if (j <? 1000 * 5)%nat then 0%Q else 1%Q)
            (1 # 2) (1 # 2) (1 # 2) 1 3) 0%nat.
Proof.
  assert (H : forall i,
            (0 <= i < 0 + 1000 * (Z.to_nat 1 * 5))%nat ->
            (fun _ : nat => 0%Q) i
            = (fun j : nat => if (j <? 1000 * 5)%nat then 0%Q else 1%Q) i).
  { intros i Hi. cbv beta.
    destruct (Nat.ltb_spec i (1000 * 5)); [reflexivity |].
    change (Z.to_nat 1) with 1%nat in Hi. lia. }
  split; [exact H |].
  exact (update_data_simulation_reads_only_its_window _ _ _ _ _ _ _ _ H).
Defined.

(* ===================================================================== *)
(** ** The two classifiers compared *)
(* ===================================================================== *)

Local Open Scope string_scope.

Lemma string_app_assoc (a b c : string) : (a ++ b) ++ c = a ++ b ++ c.
Proof.
  induction a as [| x a IH]; simpl; [reflexivity | now rewrite IH].
Qed.

(** A marker that occurs in another is matched wherever the other is. *)
Lemma matches_ci_weaken (short long name : string) :
  Py.lower short = short -> Py.lower long = long ->
  Py.contains short long = true ->
  matches_ci long name -> matches_ci short name.
Proof.
  intros Hs Hl Hin Hm.
  apply (contains_lower_iff long name Hl) in Hm.
  apply (contains_lower_iff short name Hs).
  apply contains_iff in Hin. destruct Hin as (a & b & ->).
  apply contains_iff in Hm. destruct Hm as (pre & post & E).
  apply contains_iff. exists (pre ++ a), (b ++ post).
  rewrite E, !string_app_assoc. reflexivity.
Qed.

(** Best of five in [update_data.py] needs a marker match and the men's
    tour. *)
Lemma update_data_best_of_five_marker (name tour : option string) :
  UpdateData.resolve_best_of name tour = 5%Z ->
  (exists m, In m UpdateData.grand_slams
             /\ matches_ci m (Py.get_default name ""))
  /\ Py.get_default tour "ATP" = "ATP".
Proof.
  unfold UpdateData.resolve_best_of, UpdateData.is_grand_slam.
  rewrite <- (existsb_matches_ci _ _ update_data_markers_lower).
  rewrite <- String.eqb_eq.
  destruct (existsb _ _); destruct (String.eqb _ "ATP"); simpl;
    intro H; try discriminate; auto.
Qed.

(** X5. The classifier of [tennis_serve_analyzer.py] answers 5 or 3, and 5
    exactly when the tournament name contains, up to letter case, one of
    "australian", "french", "roland garros", "wimbledon", "us open" or
    "championships": the entries "australian open" and the second
    "us open" of its list add nothing.  Whatever [update_data.py]
    classifies as best of five it classifies as best of five too,
    whatever the tour. *)
Theorem analyzer_classifier_spec (name : option string) :
  (Analyzer.resolve_best_of name = 5%Z
   <-> exists m,
         In m ["australian"; "french"; "roland garros"; "wimbledon";
               "us open"; "championships"]
         /\ matches_ci m (Py.get_default name ""))
  /\ (Analyzer.resolve_best_of name = 5%Z
      \/ Analyzer.resolve_best_of name = 3%Z)
  /\ (forall tour,
        UpdateData.resolve_best_of name tour = 5%Z ->
        Analyzer.resolve_best_of name = 5%Z).
Proof.
  split; [| split].
  - rewrite analyzer_best_of_five_iff. split.
    + intros (m & Hin & Hm). simpl in Hin.
      destruct Hin as [<- | [<- | [<- | [<- | [<- | [<- | [<- | [<- | []]]]]]]]];
        try (eexists; split; [| exact Hm]; simpl; tauto).
      exists "australian". split; [simpl; tauto |].
      apply (matches_ci_weaken "australian" "australian open");
        [reflexivity | reflexivity | reflexivity | exact Hm].
    + intros (m & Hin & Hm). exists m. split; [| exact Hm].
      simpl in Hin. simpl. tauto.
  - unfold Analyzer.resolve_best_of.
    destruct (Analyzer.is_grand_slam _); auto.
  - intros tour H.
    destruct (update_data_best_of_five_marker name tour H)
      as [(m & Hin & Hm) _].
    apply analyzer_best_of_five_iff. exists m. split; [| exact Hm].
    simpl in Hin. simpl. tauto.
Qed.

(* ===================================================================== *)
(** ** Rounding to two decimals *)
(* ===================================================================== *)

Local Open Scope Q_scope.

Lemma Qltb_false_iff (a b : Q) : Py.Qltb a b = false <-> b <= a.
Proof. unfold Py.Qltb. exact (Qgtb_false_iff b a). Qed.

(** Rounding to the nearest integer moves a number by at most one half and
    keeps it between any two integers that enclose it. *)
Lemma round_half_even_spec (y : Q) :
  (inject_Z (Py.round_half_even y) - y <= 1 # 2)
  /\ (y - inject_Z (Py.round_half_even y) <= 1 # 2)
  /\ (forall lo : Z, inject_Z lo <= y -> (lo <= Py.round_half_even y)%Z)
  /\ (forall hi : Z, y <= inject_Z hi -> (Py.round_half_even y <= hi)%Z).
Proof.
  pose proof (Qfloor_le y) as Hlo. pose proof (Qlt_floor y) as Hhi.
  rewrite inject_Z_plus in Hhi. change (inject_Z 1) with 1 in Hhi.
  unfold Py.round_half_even.
  set (f := Qfloor y) in *.
  assert (Hmono_lo : forall lo : Z, inject_Z lo <= y -> (lo <= f)%Z).
  { intros lo H. assert (Hlt : inject_Z lo < inject_Z (f + 1))
      by (rewrite inject_Z_plus; change (inject_Z 1) with 1; lra).
    rewrite <- Zlt_Qlt in Hlt. lia. }
  assert (Hstrict : forall hi : Z,
            y <= inject_Z hi -> inject_Z f < y -> (f + 1 <= hi)%Z).
  { intros hi H Hf. assert (Hlt : inject_Z f < inject_Z hi) by lra.
    rewrite <- Zlt_Qlt in Hlt. lia. }
  assert (Hweak : forall hi : Z, y <= inject_Z hi -> (f <= hi)%Z).
  { intros hi H. rewrite Zle_Qle. lra. }
  destruct (Py.Qltb (y - inject_Z f) (1 # 2)) eqn:E1.
  - apply Qltb_true_iff in E1. repeat split; try lra; auto.
  - apply Qltb_false_iff in E1.
    assert (Hup : forall hi : Z, y <= inject_Z hi -> (f + 1 <= hi)%Z)
      by (intros hi H; apply Hstrict; [exact H | lra]).
    assert (Hdn : forall lo : Z, inject_Z lo <= y -> (lo <= f + 1)%Z)
      by (intros lo H; specialize (Hmono_lo lo H); lia).
    destruct (Py.Qltb (1 # 2) (y - inject_Z f)) eqn:E2.
    + apply Qltb_true_iff in E2.
      rewrite inject_Z_plus. change (inject_Z 1) with 1.
      repeat split; try lra; auto.
    + apply Qltb_false_iff in E2.
      destruct (Z.even f);
        [| rewrite inject_Z_plus; change (inject_Z 1) with 1];
        repeat split; try lra; auto.
Qed.

(* ===================================================================== *)
(** ** What the passes emit, record by record *)
(* ===================================================================== *)

Local Open Scope Z_scope.

Lemma sufficientb_iff (side : Csv.Side) (row : Csv.Row) :
  sufficientb side row = true <-> sufficient side row.
Proof. unfold sufficientb, sufficient. lia. Qed.

(** The win counts of 1000 trials lie between 0 and 1000. *)
Lemma thousand_trials_bounds (rnd : nat -> Q) (fi fw sw : Q)
  (service_points best_of : Z) (k : nat) :
  let wins :=
    fst (runState
           (for_range 1000
              (Analyzer.trial rnd fi fw sw service_points best_of) (0, 0)) k) in
  0 <= fst wins <= 1000 /\ 0 <= snd wins <= 1000.
Proof.
  intro wins. subst wins. unfold for_range.
  pose proof (trials_step rnd fi fw sw service_points best_of
                (Z.to_nat 1000) (0, 0) k) as H.
  cbv zeta in H. destruct H as (Ht & Ho & _).
  change (Z.of_nat (Z.to_nat 1000)) with 1000 in Ht, Ho.
  change (fst (0, 0)) with 0 in Ht. change (snd (0, 0)) with 0 in Ho. lia.
Qed.

Lemma analyzer_side_record (rnd : nat -> Q) (side : Csv.Side) (row : Csv.Row)
  (k : nat) :
  exists x k',
    runState (Analyzer.analyze_side rnd side row) k = (inr x, k')
    /\ match x with
       | Some r => sufficientb side row = true /\ analyzer_record_of row side r
       | None => sufficientb side row = false
       end.
Proof.
  unfold Analyzer.analyze_side, sufficientb.
  destruct ((Csv.svpt side row >? 0) && (Csv.fstIn side row >? 0)) eqn:G1;
    [| exists None, k; split; reflexivity ].
  destruct (Csv.svpt side row - Csv.fstIn side row >? 0) eqn:G2;
    [| exists None, k; split; reflexivity ].
  cbv zeta. rewrite run_bind.
  rewrite analyzer_simulate_run by (unfold Analyzer.NUM_SIMULATIONS; lia).
  pose proof (thousand_trials_bounds rnd
                (Serve.first_in_pct (Csv.svpt side row) (Csv.fstIn side row))
                (Serve.first_win_pct (Csv.fstIn side row) (Csv.fstWon side row))
                (Serve.second_win_pct (Csv.svpt side row) (Csv.fstIn side row)
                   (Csv.sndWon side row))
                (Csv.svpt side row)
                (Analyzer.resolve_best_of (Csv.tourney_name row)) k) as Hb.
  cbv zeta in Hb. change Analyzer.NUM_SIMULATIONS with 1000.
  destruct (runState (for_range 1000 _ (0, 0)) k) as [wins k'].
  simpl fst in Hb. rewrite run_ret.
  eexists. exists k'. split; [reflexivity |]. split; [reflexivity |].
  unfold analyzer_record_of, analyzer_derived, row_outcome.
  cbn [Analyzer.first_in_pct Analyzer.first_win_pct Analyzer.second_win_pct
       Analyzer.only_first_expected Analyzer.traditional_expected
       Analyzer.benefit_pct Analyzer.only_first_better
       Analyzer.service_points_played Analyzer.best_of Analyzer.player
       Analyzer.opponent Analyzer.won_match Analyzer.tourney_name
       Analyzer.surface Analyzer.score Analyzer.estimated_point_swing
       Analyzer.num_simulations Analyzer.sim_traditional_prob
       Analyzer.sim_only_first_prob Analyzer.sim_prob_diff
       Analyzer.could_flip_result Analyzer.Sim.traditional_prob
       Analyzer.Sim.only_first_prob Analyzer.Sim.num_simulations].
  repeat split.
  exists (fst wins), (snd wins). repeat split; lia.
Qed.

Lemma analyzer_rows_structure (rnd : nat -> Q) (rows : list Csv.Row) :
  forall (acc : list Analyzer.PerformanceRecord) (k : nat),
  exists rs k',
    runState (Analyzer.analyze_rows rnd rows acc) k
    = (inr (acc ++ rs)%list, k')
    /\ Forall2 (fun r e => analyzer_record_of (fst e) (snd e) r)
         rs (emitted rows).
Proof.
  induction rows as [| row rows IH]; intros acc k.
  - exists [], k. simpl. rewrite app_nil_r. split; [reflexivity | constructor].
  - cbn [Analyzer.analyze_rows]. rewrite run_bind.
    destruct (analyzer_side_record rnd Csv.Winner row k)
      as (w & k1 & Ew & Hw).
    rewrite Ew, run_bind.
    destruct (analyzer_side_record rnd Csv.Loser row k1)
      as (l & k2 & El & Hl).
    rewrite El.
    destruct (IH (Analyzer.append_record (Analyzer.append_record acc w) l) k2)
      as (rs & k' & E & Hrs).
    unfold emitted. cbn [flat_map]. fold (emitted rows).
    destruct w as [rw |], l as [rl |];
      cbn [Analyzer.append_record] in E |- *;
      [ destruct Hw as [-> Hw], Hl as [-> Hl]
      | destruct Hw as [-> Hw]; rewrite Hl
      | rewrite Hw; destruct Hl as [-> Hl]
      | rewrite Hw, Hl ].
    + exists (rw :: rl :: rs), k'. split.
      * rewrite E, <- !app_assoc. reflexivity.
      * simpl. constructor; [exact Hw | constructor; [exact Hl | exact Hrs]].
    + exists (rw :: rs), k'. split.
      * rewrite E, <- !app_assoc. reflexivity.
      * simpl. constructor; [exact Hw | exact Hrs].
    + exists (rl :: rs), k'. split.
      * rewrite E, <- !app_assoc. reflexivity.
      * simpl. constructor; [exact Hl | exact Hrs].
    + exists rs, k'. split; [exact E | exact Hrs].
Qed.

Lemma analyzer_pass_structure (rnd : nat -> Q) (rows : list Csv.Row) (k : nat) :
  exists rs k',
    runState (Analyzer.calculate_serve_advantage rnd rows) k = (inr rs, k')
    /\ Forall2 (fun r e => analyzer_record_of (fst e) (snd e) r)
         rs (emitted rows).
Proof.
  unfold Analyzer.calculate_serve_advantage.
  destruct (analyzer_rows_structure rnd rows [] k) as (rs & k' & E & H).
  exists rs, k'. split; [exact E | exact H].
Qed.

Lemma update_data_side_record (rnd : nat -> Q) (side : Csv.Side)
  (row : Csv.Row) (k : nat) :
  exists x k',
    runState
      (UpdateData.analyze_side rnd (Py.get_default (Csv.tour row) "ATP")
         (UpdateData.resolve_best_of (Csv.tourney_name row) (Csv.tour row))
         side row) k = (x, k')
    /\ match x with
       | Some r =>
           sufficientb side row = true /\ update_data_record_of row side r
       | None => sufficientb side row = false
       end.
Proof.
  unfold UpdateData.analyze_side, sufficientb.
  destruct ((Csv.svpt side row >? 0) && (Csv.fstIn side row >? 0)) eqn:G1;
    [| exists None, k; split; reflexivity ].
  destruct (Csv.svpt side row - Csv.fstIn side row >? 0) eqn:G2;
    [| exists None, k; split; reflexivity ].
  cbv zeta. rewrite run_bind, update_data_simulate_run.
  pose proof (thousand_trials_bounds rnd
                (Serve.first_in_pct (Csv.svpt side row) (Csv.fstIn side row))
                (Serve.first_win_pct (Csv.fstIn side row) (Csv.fstWon side row))
                (Serve.second_win_pct (Csv.svpt side row) (Csv.fstIn side row)
                   (Csv.sndWon side row))
                (Csv.svpt side row)
                (UpdateData.resolve_best_of (Csv.tourney_name row)
                   (Csv.tour row)) k) as Hb.
  cbv zeta in Hb. change UpdateData.NUM_SIMULATIONS with 1000.
  destruct (runState (for_range 1000 _ (0, 0)) k) as [wins k'].
  simpl fst in Hb. rewrite run_ret.
  eexists. exists k'. split; [reflexivity |]. split; [reflexivity |].
  unfold update_data_record_of, update_data_derived, row_outcome.
  cbn [UpdateData.fi UpdateData.fw UpdateData.sw UpdateData.bp UpdateData.ob
       UpdateData.b UpdateData.tour UpdateData.p UpdateData.o UpdateData.w
       UpdateData.t UpdateData.s UpdateData.sc UpdateData.cf UpdateData.sd
       UpdateData.Sim.traditional_prob UpdateData.Sim.only_first_prob].
  repeat split.
  exists (fst wins), (snd wins). repeat split; lia.
Qed.

Lemma update_data_rows_structure (rnd : nat -> Q) (rows : list Csv.Row) :
  forall (acc : list UpdateData.PerformanceRecord) (k : nat),
  exists rs,
    fst (runState (UpdateData.analyze_rows rnd rows acc) k) = (acc ++ rs)%list
    /\ Forall2 (fun r e => update_data_record_of (fst e) (snd e) r)
         rs (emitted rows).
Proof.
  induction rows as [| row rows IH]; intros acc k.
  - exists []. simpl. rewrite app_nil_r. split; [reflexivity | constructor].
  - cbn [UpdateData.analyze_rows]. cbv zeta. rewrite run_bind.
    destruct (update_data_side_record rnd Csv.Winner row k)
      as (w & k1 & Ew & Hw).
    rewrite Ew, run_bind.
    destruct (update_data_side_record rnd Csv.Loser row k1)
      as (l & k2 & El & Hl).
    rewrite El.
    destruct (IH (UpdateData.append_record (UpdateData.append_record acc w) l)
                k2) as (rs & E & Hrs).
    unfold emitted. cbn [flat_map]. fold (emitted rows).
    destruct w as [rw |], l as [rl |];
      cbn [UpdateData.append_record] in E |- *;
      [ destruct Hw as [-> Hw], Hl as [-> Hl]
      | destruct Hw as [-> Hw]; rewrite Hl
      | rewrite Hw; destruct Hl as [-> Hl]
      | rewrite Hw, Hl ].
    + exists (rw :: rl :: rs). split.
      * rewrite E, <- !app_assoc. reflexivity.
      * simpl. constructor; [exact Hw | constructor; [exact Hl | exact Hrs]].
    + exists (rw :: rs). split.
      * rewrite E, <- !app_assoc. reflexivity.
      * simpl. constructor; [exact Hw | exact Hrs].
    + exists (rl :: rs). split.
      * rewrite E, <- !app_assoc. reflexivity.
      * simpl. constructor; [exact Hl | exact Hrs].
    + exists rs. split; [exact E | exact Hrs].
Qed.

Lemma update_data_pass_structure (rnd : nat -> Q) (rows : list Csv.Row)
  (k : nat) :
  Forall2 (fun r e => update_data_record_of (fst e) (snd e) r)
    (fst (runState (UpdateData.calculate_serve_advantage rnd rows) k))
    (emitted rows).
Proof.
  unfold UpdateData.calculate_serve_advantage.
  destruct (update_data_rows_structure rnd rows [] k) as (rs & E & H).
  rewrite E. exact H.
Qed.

Lemma Forall2_Forall_l {A B : Type} (R : A -> B -> Prop) (P : A -> Prop)
  (l : list A) (m : list B) :
  (forall a b, In b m -> R a b -> P a) -> Forall2 R l m -> Forall P l.
Proof.
  intros HP H. induction H as [| a b l m HR H IH]; constructor.
  - apply (HP a b); [left; reflexivity | exact HR].
  - apply IH. intros a' b' Hin. apply HP. right. exact Hin.
Qed.

Lemma Forall2_map_eq {A B C : Type} (R : A -> B -> Prop) (f : A -> C)
  (g : B -> C) (l : list A) (m : list B) :
  (forall a b, R a b -> f a = g b) -> Forall2 R l m -> map f l = map g m.
Proof.
  intros Hfg H. induction H as [| a b l m HR H IH]; simpl;
    [reflexivity | rewrite (Hfg a b HR), IH; reflexivity].
Qed.

Lemma emitted_length (rows : list Csv.Row) :
  (List.length (emitted rows) <= 2 * List.length rows)%nat.
Proof.
  induction rows as [| row rows IH]; [simpl; lia |].
  unfold emitted in *. cbn [flat_map]. rewrite !length_app.
  destruct (sufficientb Csv.Winner row), (sufficientb Csv.Loser row);
    simpl in *; lia.
Qed.

Lemma in_emitted (rows : list Csv.Row) (row : Csv.Row) (side : Csv.Side) :
  In (row, side) (emitted rows) <-> In row rows /\ sufficient side row.
Proof.
  unfold emitted. rewrite in_flat_map. split.
  - intros (row' & Hin & H). rewrite in_app_iff in H.
    destruct H as [H | H];
      [ destruct (sufficientb Csv.Winner row') eqn:E
      | destruct (sufficientb Csv.Loser row') eqn:E ];
      simpl in H; try contradiction;
      destruct H as [[= <- <-] | []];
      (split; [exact Hin | apply sufficientb_iff; exact E]).
  - intros [Hin H]. exists row. split; [exact Hin |].
    apply sufficientb_iff in H. rewrite in_app_iff.
    destruct side; [left | right]; rewrite H; left; reflexivity.
Qed.

(** X7. Both passes emit their records row by row, the winner's record
    before the loser's, one record for each side that passes the three
    guards and none for the others: the players, opponents and match
    results of the records are those of the passing sides in that order,
    so a pass over [n] rows emits at most [2 * n] records. *)
Theorem passes_emit_in_row_order (rnd : nat -> Q) (rows : list Csv.Row)
  (k : nat) :
  (exists rs k',
     runState (Analyzer.calculate_serve_advantage rnd rows) k = (inr rs, k')
     /\ map (fun r => (Analyzer.player r, Analyzer.opponent r,
                       Analyzer.won_match r)) rs
        = map (fun e =>
                 (Py.get_default (Csv.player_name (snd e) (fst e)) "Unknown",
                  Py.get_default (Csv.opponent_name (snd e) (fst e)) "Unknown",
                  Csv.won (snd e)))
            (emitted rows)
     /\ (List.length rs <= 2 * List.length rows)%nat)
  /\ (let rs :=
        fst (runState (UpdateData.calculate_serve_advantage rnd rows) k) in
      map (fun r => (UpdateData.p r, UpdateData.o r, UpdateData.w r)) rs
      = map (fun e =>
               (Py.get_default (Csv.player_name (snd e) (fst e)) "Unknown",
                Py.get_default (Csv.opponent_name (snd e) (fst e)) "Unknown",
                if Csv.won (snd e) then 1 else 0))
          (emitted rows)
      /\ (List.length rs <= 2 * List.length rows)%nat).
Proof.
  split.
  - destruct (analyzer_pass_structure rnd rows k) as (rs & k' & E & H).
    exists rs, k'. split; [exact E |]. split.
    + eapply Forall2_map_eq; [| exact H].
      intros r e (_ & -> & -> & -> & _). reflexivity.
    + rewrite (Forall2_length H). apply emitted_length.
  - pose proof (update_data_pass_structure rnd rows k) as H. cbv zeta. split.
    + eapply Forall2_map_eq; [| exact H].
      intros r e (_ & _ & -> & -> & -> & _). reflexivity.
    + rewrite (Forall2_length H). apply emitted_length.
Qed.

Local Open Scope Q_scope.

(** X9. In every record of [tennis_serve_analyzer.py] the two simulated
    win probabilities lie between 0 and 100 percent, the number of
    simulations is 1000, and the format is 3 or 5, so that the format
    table of the report never shows the label "Unknown". *)
Theorem analyzer_record_ranges (rnd : nat -> Q) (rows : list Csv.Row)
  (k : nat) :
  exists rs k',
    runState (Analyzer.calculate_serve_advantage rnd rows) k = (inr rs, k')
    /\ Forall (fun r =>
         0 <= Analyzer.sim_traditional_prob r <= 100
         /\ 0 <= Analyzer.sim_only_first_prob r <= 100
         /\ Analyzer.num_simulations r = 1000%Z
         /\ (Analyzer.best_of r = 3%Z
             /\ Report.format_label (Analyzer.best_of r) = "Best of 3"%string
             \/ Analyzer.best_of r = 5%Z
                /\ Report.format_label (Analyzer.best_of r)
                   = "Best of 5"%string)) rs.
Proof.
  destruct (analyzer_pass_structure rnd rows k) as (rs & k' & E & H).
  exists rs, k'. split; [exact E |].
  eapply Forall2_Forall_l; [| exact H].
  intros r [row side] _ (D & _ & _ & _ & _ & _ & _ & _ & -> & S).
  destruct D as (_ & _ & _ & _ & _ & _ & _ & _ & ->).
  destruct S as (tw & ow & Ht & Ho & -> & -> & _).
  cbn [fst snd].
  pose proof (unit_fraction tw 1000 Ht ltac:(lia)) as Htw.
  pose proof (unit_fraction ow 1000 Ho ltac:(lia)) as How.
  repeat split; try lra.
  unfold Analyzer.resolve_best_of.
  destruct (Analyzer.is_grand_slam _); [right | left]; split; reflexivity.
Qed.

(** X10. In every record of [update_data.py] the fields [w], [ob] and [cf]
    are 0 or 1, the format [b] is "3" or "5", and it is "5" only for a
    record of the men's tour: a record of any other tour is best of
    three. *)
Theorem update_data_record_flags (rnd : nat -> Q) (rows : list Csv.Row)
  (k : nat) :
  Forall (fun r =>
    (UpdateData.w r = 0 \/ UpdateData.w r = 1)%Z
    /\ (UpdateData.ob r = 0 \/ UpdateData.ob r = 1)%Z
    /\ (UpdateData.cf r = 0 \/ UpdateData.cf r = 1)%Z
    /\ (UpdateData.b r = "3" \/ UpdateData.b r = "5")%string
    /\ (UpdateData.b r = "5"%string -> UpdateData.tour r = "ATP"%string))
    (fst (runState (UpdateData.calculate_serve_advantage rnd rows) k)).
Proof.
  eapply Forall2_Forall_l; [| exact (update_data_pass_structure rnd rows k)].
  intros r [row side] _ (D & -> & _ & _ & -> & _ & _ & _ & S).
  destruct D as (_ & _ & _ & _ & -> & ->).
  destruct S as (tw & ow & _ & _ & -> & _).
  cbn [fst snd].
  split; [destruct (Csv.won side); auto |].
  split; [destruct (Serve.only_first_better _); auto |].
  split; [destruct (Py.Qgtb _ _); auto |].
  pose proof (update_data_best_of_five_marker (Csv.tourney_name row)
                (Csv.tour row)) as H5.
  unfold UpdateData.resolve_best_of in *.
  destruct (UpdateData.is_grand_slam _ && String.eqb _ "ATP").
  - split; [right; reflexivity |]. intros _. apply H5. reflexivity.
  - split; [left; reflexivity |]. intro Hb. discriminate Hb.
Qed.

(* ===================================================================== *)
(** ** The export filter *)
(* ===================================================================== *)

Local Open Scope string_scope.

Lemma is_retirement_false_iff (r : UpdateData.PerformanceRecord) :
  UpdateMain.is_retirement r = false
  <-> forall x, In x UpdateMain.retirement_markers ->
        ~ exists pre post, UpdateData.sc r = pre ++ x ++ post.
Proof.
  unfold UpdateMain.is_retirement. split.
  - intros H x Hin Hsub. apply contains_iff in Hsub.
    assert (Ht : existsb (fun x => Py.contains x (UpdateData.sc r))
                   UpdateMain.retirement_markers = true)
      by (apply existsb_exists; exists x; auto).
    congruence.
  - intro H.
    destruct (existsb _ UpdateMain.retirement_markers) eqn:E; [| reflexivity].
    apply existsb_exists in E. destruct E as (x & Hin & Hc).
    exfalso. apply (H x Hin). apply contains_iff. exact Hc.
Qed.

Lemma Forall2_In_l {A B : Type} (R : A -> B -> Prop) (l : list A)
  (m : list B) (a : A) :
  Forall2 R l m -> In a l -> exists b, In b m /\ R a b.
Proof.
  intro H. induction H as [| a' b l m HR H IH]; intro Hin; [contradiction |].
  destruct Hin as [<- | Hin].
  - exists b. split; [left; reflexivity | exact HR].
  - destruct (IH Hin) as (b' & Hb & HR'). exists b'. split; [right |]; auto.
Qed.

(** X11. The filter of [main] in [update_data.py] keeps exactly the records
    whose score contains none of "RET", "W/O" and "DEF" (in capitals, as
    written); so every record handed to the page comes from a side that
    passes the guards, of a row whose score contains none of the three. *)
Theorem retirements_are_not_exported (rnd : nat -> Q) (rows : list Csv.Row)
  (k : nat) :
  (forall rs r,
     In r (UpdateMain.filter_results rs)
     <-> In r rs
         /\ forall x, In x ["RET"; "W/O"; "DEF"] ->
              ~ exists pre post, UpdateData.sc r = pre ++ x ++ post)
  /\ Forall (fun r => exists row side,
       In row rows /\ sufficient side row
       /\ UpdateData.sc r = Py.get_default (Csv.score row) ""
       /\ forall x, In x ["RET"; "W/O"; "DEF"] ->
            ~ exists pre post,
                Py.get_default (Csv.score row) "" = pre ++ x ++ post)
      (fst (runState (UpdateMain.main_results rnd rows) k)).
Proof.
  assert (Hfilter : forall rs r,
            In r (UpdateMain.filter_results rs)
            <-> In r rs
                /\ forall x, In x ["RET"; "W/O"; "DEF"] ->
                     ~ exists pre post, UpdateData.sc r = pre ++ x ++ post).
  { intros rs r. unfold UpdateMain.filter_results.
    rewrite filter_In, negb_true_iff, is_retirement_false_iff. reflexivity. }
  split; [exact Hfilter |].
  unfold UpdateMain.main_results. rewrite run_bind.
  pose proof (update_data_pass_structure rnd rows k) as H.
  destruct (runState (UpdateData.calculate_serve_advantage rnd rows) k)
    as [rs k'].
  rewrite run_ret. cbn [fst] in *.
  apply Forall_forall. intros r Hr.
  apply Hfilter in Hr. destruct Hr as [Hin Hclean].
  destruct (Forall2_In_l _ _ _ _ H Hin) as ([row side] & He & Hrec).
  apply in_emitted in He. destruct He as [Hrow Hs].
  exists row, side. split; [exact Hrow |]. split; [exact Hs |].
  destruct Hrec as (_ & _ & _ & _ & _ & _ & _ & Hsc & _).
  cbn [fst snd] in Hsc. split; [exact Hsc |].
  rewrite <- Hsc. exact Hclean.
Qed.

(* ===================================================================== *)
(** ** The report *)
(* ===================================================================== *)

Local Open Scope Z_scope.

Lemma count_better_bounds (results : list Analyzer.PerformanceRecord) :
  0 <= Report.count_better results <= Z.of_nat (List.length results).
Proof.
  unfold Report.count_better.
  pose proof (filter_length_le Analyzer.only_first_better results). lia.
Qed.

Lemma percentage_bounds (a b : Z) :
  0 <= a <= b -> 1 <= b -> (0 <= inject_Z a / inject_Z b * 100 <= 100)%Q.
Proof.
  intros Ha Hb. pose proof (unit_fraction a b Ha Hb). lra.
Qed.

(** X12. [main] of [tennis_serve_analyzer.py] ends in a [KeyError] on the
    column "only_first_better" when no side of any row passes the guards,
    the frame of results being empty.  Otherwise the report counts one
    performance per passing side; the count of performances where only
    first serves are better lies between 0 and that total and its
    percentage between 0 and 100; and the Grand Slam section is left out
    or counts between 1 and the total, with a percentage between 0 and
    100. *)
Theorem report_of_main (rnd : nat -> Q) (rows : list Csv.Row) (k : nat) :
  let out := fst (runState (Report.main rnd rows) k) in
  match emitted rows with
  | [] => out = inl (Report.KeyError "only_first_better")
  | _ :: _ =>
      exists s,
        out = inr s
        /\ Report.total_performances s = Z.of_nat (List.length (emitted rows))
        /\ 0 <= Report.only_first_better_count s <= Report.total_performances s
        /\ (0 <= Report.pct_better s <= 100)%Q
        /\ match Report.grand_slam s with
           | None => True
           | Some (n, better, pct) =>
               1 <= n <= Report.total_performances s
               /\ 0 <= better <= n
               /\ (0 <= pct <= 100)%Q
           end
  end.
Proof.
  intro out. subst out. unfold Report.main. rewrite run_bind.
  destruct (analyzer_pass_structure rnd rows k) as (rs & k' & E & H).
  rewrite E, run_ret. cbn [fst].
  pose proof (Forall2_length H) as Hlen.
  destruct (emitted rows) as [| e es].
  - destruct rs; [reflexivity | discriminate Hlen].
  - destruct rs as [| r rs]; [discriminate Hlen |].
    rewrite <- Hlen.
    set (results := r :: rs) in *.
    assert (Hpos : 1 <= Z.of_nat (List.length results))
      by (unfold results; simpl List.length; lia).
    unfold Report.analyze_results. fold results.
    eexists. split; [unfold results; reflexivity |].
    cbn [Report.total_performances Report.only_first_better_count
         Report.pct_better Report.grand_slam]. fold results.
    pose proof (count_better_bounds results) as Hc.
    split; [reflexivity |]. split; [exact Hc |].
    split; [apply percentage_bounds; assumption |].
    set (gs_df := filter (fun r0 => Analyzer.best_of r0 =? 5) results).
    destruct (Z.of_nat (List.length gs_df) >? 0) eqn:G; [| exact I].
    pose proof (count_better_bounds gs_df) as Hg.
    pose proof (filter_length_le (fun r0 => Analyzer.best_of r0 =? 5) results)
      as Hle. fold gs_df in Hle.
    split; [lia |]. split; [exact Hg |].
    apply percentage_bounds; [exact Hg | lia].
Qed.

(* ===================================================================== *)
(** ** The sample data of tennis_demo.py *)
(* ===================================================================== *)

(** On a float that is not negative, [int] rounds down. *)
Lemma int_of_float_bounds (x : Q) :
  (0 <= x)%Q ->
  (inject_Z (Demo.int_of_float x) <= x)%Q
  /\ (x < inject_Z (Demo.int_of_float x) + 1)%Q.
Proof.
  intro Hx.
  assert (E : Demo.int_of_float x = Qfloor x).
  { destruct x as [n d]. unfold Demo.int_of_float, Qfloor. simpl.
    apply Z.quot_div_nonneg; [| lia].
    unfold Qle in Hx. simpl in Hx. lia. }
  rewrite E. split; [apply Qfloor_le |].
  pose proof (Qlt_floor x) as H. rewrite inject_Z_plus in H. exact H.
Qed.

Lemma int_of_float_between (x : Q) (lo hi : Z) :
  (inject_Z lo <= x)%Q -> (x < inject_Z hi)%Q -> 0 <= lo ->
  lo <= Demo.int_of_float x < hi.
Proof.
  intros Hlo Hhi H0.
  assert (Hx : (0 <= x)%Q).
  { apply Qle_trans with (inject_Z lo); [| exact Hlo].
    rewrite <- (Zle_Qle 0). exact H0. }
  destruct (int_of_float_bounds x Hx) as [H1 H2].
  assert (Ha : (inject_Z lo < inject_Z (Demo.int_of_float x + 1))%Q)
    by (rewrite inject_Z_plus; change (inject_Z 1) with 1%Q; lra).
  assert (Hb : (inject_Z (Demo.int_of_float x) < inject_Z hi)%Q) by lra.
  rewrite <- Zlt_Qlt in Ha, Hb. lia.
Qed.

(** The counts of one player of a sample match. *)
Lemma sample_counts (svpt : Z) (u1 u2 u3 : Q) :
  80 <= svpt ->
  (1 # 2 <= u1 < 1)%Q -> (1 # 2 <= u2 < 1)%Q -> (0 <= u3 <= 1)%Q ->
  let fstIn := Demo.int_of_float (inject_Z svpt * u1) in
  let fstWon := Demo.int_of_float (inject_Z fstIn * u2) in
  let sndWon := Demo.int_of_float (inject_Z (svpt - fstIn) * u3) in
  40 <= fstIn < svpt /\ 20 <= fstWon < fstIn /\ 0 <= sndWon <= svpt - fstIn.
Proof.
  intros Hs [Hu1 Hu1'] [Hu2 Hu2'] [Hu3 Hu3'] fstIn fstWon sndWon.
  assert (Hsq : (80 <= inject_Z svpt)%Q)
    by (change 80%Q with (inject_Z 80); rewrite <- Zle_Qle; exact Hs).
  assert (HfstIn : 40 <= fstIn < svpt).
  { apply int_of_float_between; [| | lia].
    - assert (0 <= (inject_Z svpt - 80) * (u1 - (1 # 2)))%Q
        by (apply Qmult_le_0_compat; lra).
      change (inject_Z 40) with 40%Q. lra.
    - assert (0 < inject_Z svpt * (1 - u1))%Q
        by (apply Qmult_lt_0_compat; lra).
      lra. }
  assert (Hfq : (40 <= inject_Z fstIn)%Q)
    by (change 40%Q with (inject_Z 40); rewrite <- Zle_Qle; lia).
  assert (HfstWon : 20 <= fstWon < fstIn).
  { apply int_of_float_between; [| | lia].
    - assert (0 <= (inject_Z fstIn - 40) * (u2 - (1 # 2)))%Q
        by (apply Qmult_le_0_compat; lra).
      change (inject_Z 20) with 20%Q. lra.
    - assert (0 < inject_Z fstIn * (1 - u2))%Q
        by (apply Qmult_lt_0_compat; lra).
      lra. }
  split; [exact HfstIn |]. split; [exact HfstWon |].
  assert (Hrest : (1 <= inject_Z (svpt - fstIn))%Q)
    by (change 1%Q with (inject_Z 1); rewrite <- Zle_Qle; lia).
  assert (Hsnd : 0 <= sndWon < svpt - fstIn + 1).
  { apply int_of_float_between; [| | lia].
    - change (inject_Z 0) with 0%Q. apply Qmult_le_0_compat; lra.
    - rewrite inject_Z_plus. change (inject_Z 1) with 1%Q.
      assert (0 <= inject_Z (svpt - fstIn) * (1 - u3))%Q
        by (apply Qmult_le_0_compat; lra).
      lra. }
  lia.
Qed.

Lemma rates_of_counts (svpt fstIn fstWon sndWon : Z) :
  0 < fstIn < svpt -> 0 < fstWon < fstIn -> 0 <= sndWon <= svpt - fstIn ->
  (0 < Serve.first_in_pct svpt fstIn * 100 < 100)%Q
  /\ (0 < Serve.first_win_pct fstIn fstWon * 100 < 100)%Q
  /\ (0 <= Serve.second_win_pct svpt fstIn sndWon * 100 <= 100)%Q.
Proof.
  intros H1 H2 H3.
  destruct (first_in_pct_strict svpt fstIn) as [Ha Hb]; try lia.
  destruct (first_in_pct_strict fstIn fstWon) as [Hc Hd]; try lia.
  change (Serve.first_in_pct fstIn fstWon)
    with (Serve.first_win_pct fstIn fstWon) in Hc, Hd.
  pose proof (unit_fraction sndWon (svpt - fstIn) H3 ltac:(lia)) as He.
  unfold Serve.second_win_pct. repeat split; lra.
Qed.

(** Both sides of a sample match pass the guards. *)
Lemma demo_sides (d : Demo.Draws) :
  Demo.in_range d ->
  exists rw rl,
    Demo.analyze_side true (Demo.sample_row d) = Some rw
    /\ Demo.analyze_side false (Demo.sample_row d) = Some rl
    /\ demo_record_ok rw /\ demo_record_ok rl.
Proof.
  intros (Hw & Hw1 & Hw2 & Hw3 & Hl & Hl1 & Hl2 & Hl3 & _ & Hlos).
  apply filter_In in Hlos. destruct Hlos as [_ Hne].
  apply negb_true_iff, String.eqb_neq in Hne.
  pose proof (sample_counts (Demo.randint_w d) (Demo.uniform_w_1stIn d)
                (Demo.uniform_w_1stWon d) (Demo.uniform_w_2ndWon d)
                ltac:(lia) ltac:(lra) ltac:(lra) ltac:(lra)) as Cw.
  pose proof (sample_counts (Demo.randint_l d) (Demo.uniform_l_1stIn d)
                (Demo.uniform_l_1stWon d) (Demo.uniform_l_2ndWon d)
                ltac:(lia) ltac:(lra) ltac:(lra) ltac:(lra)) as Cl.
  cbv zeta in Cw, Cl.
  destruct Cw as (Cw1 & Cw2 & Cw3), Cl as (Cl1 & Cl2 & Cl3).
  unfold Demo.analyze_side, Demo.sample_row.
  cbn [Demo.w_svpt Demo.w_1stIn Demo.w_1stWon Demo.w_2ndWon
       Demo.l_svpt Demo.l_1stIn Demo.l_1stWon Demo.l_2ndWon
       Demo.winner_name Demo.loser_name Demo.tourney_name Demo.surface].
  set (wi := Demo.int_of_float (inject_Z (Demo.randint_w d) * Demo.uniform_w_1stIn d)) in *.
  set (li := Demo.int_of_float (inject_Z (Demo.randint_l d) * Demo.uniform_l_1stIn d)) in *.
  replace ((Demo.randint_w d >? 0) && (wi >? 0)) with true by lia.
  replace (Demo.randint_w d - wi >? 0) with true by lia.
  replace ((Demo.randint_l d >? 0) && (li >? 0)) with true by lia.
  replace (Demo.randint_l d - li >? 0) with true by lia.
  eexists. eexists. split; [reflexivity |]. split; [reflexivity |].
  unfold demo_record_ok.
  cbn [Demo.first_in_pct Demo.first_win_pct Demo.second_win_pct Demo.player
       Demo.opponent].
  assert (Cw1' : 0 < wi < Demo.randint_w d) by lia.
  assert (Cl1' : 0 < li < Demo.randint_l d) by lia.
  pose proof (rates_of_counts _ _ _ _ Cw1'
                (conj (Z.lt_le_trans 0 20 _ eq_refl (proj1 Cw2)) (proj2 Cw2))
                Cw3) as (R1 & R2 & R3).
  pose proof (rates_of_counts _ _ _ _ Cl1'
                (conj (Z.lt_le_trans 0 20 _ eq_refl (proj1 Cl2)) (proj2 Cl2))
                Cl3) as (S1 & S2 & S3).
  repeat split; try (apply R1); try (apply R2); try (apply R3);
    try (apply S1); try (apply S2); try (apply S3); congruence.
Qed.

Lemma demo_rows_all (rows : list Demo.Row) :
  (forall row, In row rows ->
     exists rw rl,
       Demo.analyze_side true row = Some rw
       /\ Demo.analyze_side false row = Some rl
       /\ demo_record_ok rw /\ demo_record_ok rl) ->
  forall acc, Forall demo_record_ok acc ->
    List.length (Demo.analyze_rows rows acc)
    = (List.length acc + 2 * List.length rows)%nat
    /\ Forall demo_record_ok (Demo.analyze_rows rows acc).
Proof.
  induction rows as [| row rows IH]; intros Hrows acc Hacc.
  - simpl. split; [lia | exact Hacc].
  - destruct (Hrows row (or_introl eq_refl)) as (rw & rl & Ew & El & Pw & Pl).
    cbn [Demo.analyze_rows]. rewrite Ew, El. cbn [Demo.append_record].
    destruct (IH (fun r Hr => Hrows r (or_intror Hr)) ((acc ++ [rw]) ++ [rl])%list)
      as [Hlen Hall].
    + apply Forall_app. split; [apply Forall_app; split |]; auto.
    + split; [| exact Hall]. rewrite Hlen, !length_app. simpl. lia.
Qed.

(** X13. In [tennis_demo.py] every sample match gives two performances:
    whatever values [np.random] returns within the ranges asked of it, both
    players pass the three guards, so that [n] sample matches give exactly
    [2 * n] records (200 for the 100 matches of the script); in each record
    the first-serve-in and first-serve-win percentages lie strictly between
    0 and 100, the second-serve-win percentage between 0 and 100, and the
    player is not the opponent. *)
Theorem demo_two_performances_per_match (draws : list Demo.Draws) :
  Forall Demo.in_range draws ->
  List.length (Demo.results draws) = (2 * List.length draws)%nat
  /\ Forall demo_record_ok (Demo.results draws).
Proof.
  intro Hr. unfold Demo.results.
  destruct (demo_rows_all (map Demo.sample_row draws)) with (acc := @nil Demo.PerformanceRecord)
    as [Hlen Hall].
  - intros row Hin. apply in_map_iff in Hin. destruct Hin as (d & <- & Hd).
    apply demo_sides. rewrite Forall_forall in Hr. exact (Hr d Hd).
  - constructor.
  - split; [| exact Hall]. rewrite Hlen, length_map. simpl. lia.
Qed.

(** One sample match within the ranges: 100 and 90 service points. *)
Lemma demo_witness :
  let d :=
    {| Demo.choice_winner := "Carlos Alcaraz"%string;
       Demo.choice_loser := "Novak Djokovic"%string;
       Demo.choice_tournament := "Wimbledon"%string;
       Demo.choice_surface := "Grass"%string;
       Demo.randint_w := 100;
       Demo.uniform_w_1stIn := 6 # 10;
       Demo.uniform_w_1stWon := 7 # 10;
       Demo.uniform_w_2ndWon := 4 # 10;
       Demo.randint_l := 90;
       Demo.uniform_l_1stIn := 6 # 10;
       Demo.uniform_l_1stWon := 7 # 10;
       Demo.uniform_l_2ndWon := 4 # 10 |} in
  Forall Demo.in_range [d]
  /\ List.length (Demo.results [d]) = (2 * List.length [d])%nat
  /\ Forall demo_record_ok (Demo.results [d]).
Proof.
  intro d.
  assert (H : Forall Demo.in_range [d]).
  { constructor; [| constructor].
    unfold Demo.in_range, d. cbn.
    repeat split; try reflexivity; try discriminate; auto. }
  split; [exact H |].
  exact (demo_two_performances_per_match [d] H).
Defined.

(* ===================================================================== *)
(** ** Draws consumed by a pass *)
(* ===================================================================== *)

Local Open Scope nat_scope.

Lemma thousand_trials_draws (rnd : nat -> Q) (fi fw sw : Q)
  (service_points best_of : Z) (k : nat) :
  let k' :=
    snd (runState
           (for_range 1000
              (Analyzer.trial rnd fi fw sw service_points best_of)
              (0%Z, 0%Z)) k) in
  k + 4000 * Z.to_nat service_points <= k'
  <= k + 5000 * Z.to_nat service_points.
Proof.
  intro k'. subst k'. unfold for_range.
  pose proof (trials_step rnd fi fw sw service_points best_of
                (Z.to_nat 1000) (0%Z, 0%Z) k) as H.
  cbv zeta in H. destruct H as (_ & _ & H).
  change (Z.to_nat 1000) with 1000 in *. lia.
Qed.

Lemma analyzer_side_draws (rnd : nat -> Q) (side : Csv.Side) (row : Csv.Row)
  (k : nat) :
  k + 4000 * side_points side row
  <= snd (runState (Analyzer.analyze_side rnd side row) k)
  <= k + 5000 * side_points side row.
Proof.
  unfold Analyzer.analyze_side, side_points, sufficientb.
  destruct ((Csv.svpt side row >? 0)%Z && (Csv.fstIn side row >? 0)%Z) eqn:G1;
    [| simpl; lia ].
  destruct (Csv.svpt side row - Csv.fstIn side row >? 0)%Z eqn:G2;
    [| simpl; lia ].
  cbv zeta. rewrite run_bind.
  rewrite analyzer_simulate_run by (unfold Analyzer.NUM_SIMULATIONS; lia).
  change Analyzer.NUM_SIMULATIONS with 1000%Z.
  match goal with
  | |- context [runState (for_range 1000 (Analyzer.trial rnd ?a ?b ?c ?d ?e) _) k] =>
      pose proof (thousand_trials_draws rnd a b c d e k) as H
  end.
  cbv zeta in H.
  destruct (runState (for_range 1000 _ (0%Z, 0%Z)) k) as [wins k'].
  rewrite run_ret. cbn [snd andb] in *. exact H.
Qed.

Lemma update_data_side_draws (rnd : nat -> Q) (tour_of_row : string)
  (best_of : Z) (side : Csv.Side) (row : Csv.Row) (k : nat) :
  k + 4000 * side_points side row
  <= snd (runState
            (UpdateData.analyze_side rnd tour_of_row best_of side row) k)
  <= k + 5000 * side_points side row.
Proof.
  unfold UpdateData.analyze_side, side_points, sufficientb.
  destruct ((Csv.svpt side row >? 0)%Z && (Csv.fstIn side row >? 0)%Z) eqn:G1;
    [| simpl; lia ].
  destruct (Csv.svpt side row - Csv.fstIn side row >? 0)%Z eqn:G2;
    [| simpl; lia ].
  cbv zeta. rewrite run_bind, update_data_simulate_run.
  change UpdateData.NUM_SIMULATIONS with 1000%Z.
  match goal with
  | |- context [runState (for_range 1000 (Analyzer.trial rnd ?a ?b ?c ?d ?e) _) k] =>
      pose proof (thousand_trials_draws rnd a b c d e k) as H
  end.
  cbv zeta in H.
  destruct (runState (for_range 1000 _ (0%Z, 0%Z)) k) as [wins k'].
  rewrite run_ret. cbn [snd andb] in *. exact H.
Qed.

Lemma service_points_simulated_cons (row : Csv.Row) (rows : list Csv.Row) :
  service_points_simulated (row :: rows)
  = side_points Csv.Winner row + side_points Csv.Loser row
    + service_points_simulated rows.
Proof. reflexivity. Qed.

Lemma analyzer_rows_draws (rnd : nat -> Q) (rows : list Csv.Row) :
  forall (acc : list Analyzer.PerformanceRecord) (k : nat),
    k + 4000 * service_points_simulated rows
    <= snd (runState (Analyzer.analyze_rows rnd rows acc) k)
    <= k + 5000 * service_points_simulated rows.
Proof.
  induction rows as [| row rows IH]; intros acc k.
  - simpl. lia.
  - cbn [Analyzer.analyze_rows]. rewrite run_bind.
    pose proof (analyzer_side_draws rnd Csv.Winner row k) as Hw.
    destruct (analyzer_side_record rnd Csv.Winner row k) as (w & k1 & Ew & _).
    rewrite Ew in Hw |- *. cbn [snd] in Hw. rewrite run_bind.
    pose proof (analyzer_side_draws rnd Csv.Loser row k1) as Hl.
    destruct (analyzer_side_record rnd Csv.Loser row k1) as (l & k2 & El & _).
    rewrite El in Hl |- *. cbn [snd] in Hl.
    specialize (IH (Analyzer.append_record (Analyzer.append_record acc w) l) k2).
    rewrite service_points_simulated_cons. lia.
Qed.

Lemma update_data_rows_draws (rnd : nat -> Q) (rows : list Csv.Row) :
  forall (acc : list UpdateData.PerformanceRecord) (k : nat),
    k + 4000 * service_points_simulated rows
    <= snd (runState (UpdateData.analyze_rows rnd rows acc) k)
    <= k + 5000 * service_points_simulated rows.
Proof.
  induction rows as [| row rows IH]; intros acc k.
  - simpl. lia.
  - cbn [UpdateData.analyze_rows]. cbv zeta. rewrite run_bind.
    match goal with
    | |- context [runState (UpdateData.analyze_side rnd ?t ?b Csv.Winner row) k] =>
        pose proof (update_data_side_draws rnd t b Csv.Winner row k) as Hw;
        destruct (runState (UpdateData.analyze_side rnd t b Csv.Winner row) k)
          as [w k1];
        rewrite run_bind;
        pose proof (update_data_side_draws rnd t b Csv.Loser row k1) as Hl;
        destruct (runState (UpdateData.analyze_side rnd t b Csv.Loser row) k1)
          as [l k2]
    end.
    cbn [snd] in Hw, Hl.
    specialize (IH (UpdateData.append_record (UpdateData.append_record acc w) l)
                  k2).
    rewrite service_points_simulated_cons. lia.
Qed.

(** X14. A pass consumes draws only for the sides that pass the guards,
    and for each of them between 4000 and 5000 draws per service point
    (1000 simulations of two loops of two to three draws); so after a pass
    the generator has advanced by between 4000 and 5000 times the service
    points of the passing sides, in both scripts, and by nothing when no
    side passes. *)
Theorem pass_draws (rnd : nat -> Q) (rows : list Csv.Row) (k : nat) :
  let points := service_points_simulated rows in
  (k + 4000 * points
   <= snd (runState (Analyzer.calculate_serve_advantage rnd rows) k)
   <= k + 5000 * points)
  /\ (k + 4000 * points
      <= snd (runState (UpdateData.calculate_serve_advantage rnd rows) k)
      <= k + 5000 * points).
Proof.
  intro points. subst points. split.
  - apply analyzer_rows_draws.
  - apply update_data_rows_draws.
Qed.

(* ===================================================================== *)
(** ** The two extremes of the simulator *)
(* ===================================================================== *)

Lemma repeatM_all_won (body : Z -> state nat Z) (d : nat) :
  (forall c k, runState (body c) k = ((c + 1)%Z, k + d)) ->
  forall n c k,
    runState (repeatM n body c) k = ((c + Z.of_nat n)%Z, k + n * d).
Proof.
  intro Hbody. induction n as [| n IH]; intros c k.
  - simpl. f_equal; lia.
  - rewrite run_repeatM_S, Hbody, IH. f_equal; lia.
Qed.

Lemma repeatM_none_won (body : Z -> state nat Z) :
  (forall c k, fst (runState (body c) k) = c) ->
  forall n c k, fst (runState (repeatM n body c) k) = c.
Proof.
  intro Hbody. induction n as [| n IH]; intros c k; [reflexivity |].
  rewrite run_repeatM_S. specialize (Hbody c k).
  destruct (runState (body c) k) as [c1 k1]. simpl in Hbody. subst c1.
  apply IH.
Qed.

Lemma Qltb_below (u p : Q) : (u < 1)%Q -> (1 <= p)%Q -> Py.Qltb u p = true.
Proof. intros Hu Hp. apply Qltb_true_iff. lra. Qed.

Lemma Qltb_above (u p : Q) : (0 <= u)%Q -> (p <= 0)%Q -> Py.Qltb u p = false.
Proof. intros Hu Hp. apply Qltb_false_iff. lra. Qed.

Lemma full_fraction_wins (service_points best_of : Z) :
  (service_points > 0)%Z ->
  wins_matchb service_points best_of service_points = true.
Proof.
  intro Hsp. apply wins_matchb_iff. unfold wins_match.
  assert (Hq : (0 < inject_Z service_points)%Q)
    by (rewrite <- (Zlt_Qlt 0); lia).
  assert (E : (inject_Z service_points / inject_Z service_points == 1)%Q)
    by (field; lra).
  rewrite E. unfold win_threshold.
  destruct (best_of =? 3)%Z; reflexivity.
Qed.

Lemma empty_fraction_loses (service_points best_of : Z) :
  wins_matchb service_points best_of 0 = false.
Proof.
  unfold wins_matchb. apply Qgtb_false_iff.
  assert (E : (inject_Z 0 / inject_Z service_points == 0)%Q)
    by (unfold Qdiv; rewrite Qmult_0_l; reflexivity).
  rewrite E. unfold win_threshold.
  destruct (best_of =? 3)%Z; discriminate.
Qed.

Section Extremes.

Variable rnd : nat -> Q.
Variables fi fw sw : Q.
Variables service_points best_of : Z.

(** With every first serve in and every first-serve point won, one trial
    is won by both strategies, on four draws per service point. *)
Lemma trial_certain (wins : Z * Z) (k : nat) :
  (forall i, (rnd i < 1)%Q) -> (1 <= fi)%Q -> (1 <= fw)%Q ->
  (service_points > 0)%Z ->
  runState (Analyzer.trial rnd fi fw sw service_points best_of wins) k
  = (((fst wins + 1)%Z, (snd wins + 1)%Z),
     k + Z.to_nat service_points * 4).
Proof.
  intros Hr Hfi Hfw Hsp. rewrite analyzer_trial_run.
  unfold match_points, for_range. rewrite run_bind.
  rewrite (repeatM_all_won (trad_point rnd fi fw sw) 2).
  2:{ intros c k0. unfold trad_point, random. simpl.
      rewrite (Qltb_below (rnd k0) fi) by auto. simpl.
      rewrite (Qltb_below (rnd (S k0)) fw) by auto. simpl.
      f_equal. lia. }
  rewrite run_bind.
  rewrite (repeatM_all_won (only_first_point rnd fi fw) 2).
  2:{ intros c k0. unfold only_first_point, random. simpl.
      rewrite (Qltb_below (rnd k0) fi) by auto. simpl.
      rewrite (Qltb_below (rnd (S k0)) fw) by auto. simpl.
      f_equal. lia. }
  rewrite run_ret. cbn [fst snd].
  rewrite Z.add_0_l, Z2Nat.id by lia.
  rewrite full_fraction_wins by exact Hsp.
  replace (service_points >? 0)%Z with true by lia.
  unfold bump. simpl andb. f_equal. lia.
Qed.

(** With no first-serve point and no second-serve point ever won, one
    trial is won by neither strategy. *)
Lemma trial_hopeless (wins : Z * Z) (k : nat) :
  (forall i, (0 <= rnd i)%Q) -> (fw <= 0)%Q -> (sw <= 0)%Q ->
  fst (runState (Analyzer.trial rnd fi fw sw service_points best_of wins) k)
  = wins.
Proof.
  intros Hr Hfw Hsw. rewrite analyzer_trial_run.
  unfold match_points, for_range. rewrite run_bind.
  pose proof (repeatM_none_won (trad_point rnd fi fw sw)) as Ht.
  pose proof (repeatM_none_won (only_first_point rnd fi fw)) as Ho.
  specialize (Ht ltac:(intros c k0; unfold trad_point, random; simpl;
                       destruct (Py.Qltb (rnd k0) fi); simpl;
                       rewrite Qltb_above by auto; reflexivity)
                 (Z.to_nat service_points) 0%Z k).
  destruct (runState (repeatM (Z.to_nat service_points)
                        (trad_point rnd fi fw sw) 0%Z) k) as [tp k1].
  cbn [fst] in Ht. subst tp. rewrite run_bind.
  specialize (Ho ltac:(intros c k0; unfold only_first_point, random; simpl;
                       destruct (Py.Qltb (rnd k0) fi); simpl;
                       [ rewrite Qltb_above by auto; reflexivity
                       | destruct (Py.Qltb (rnd (S k0)) fi); simpl;
                         [ rewrite Qltb_above by auto; reflexivity
                         | reflexivity ] ])
                 (Z.to_nat service_points) 0%Z k1).
  destruct (runState (repeatM (Z.to_nat service_points)
                        (only_first_point rnd fi fw) 0%Z) k1) as [op k2].
  cbn [fst] in Ho. subst op. rewrite run_ret. cbn [fst snd].
  rewrite empty_fraction_loses, andb_false_r. unfold bump.
  destruct wins; reflexivity.
Qed.

Lemma trials_certain (s : nat) :
  (forall i, (rnd i < 1)%Q) -> (1 <= fi)%Q -> (1 <= fw)%Q ->
  (service_points > 0)%Z ->
  forall wins k,
    runState
      (repeatM s (Analyzer.trial rnd fi fw sw service_points best_of) wins) k
    = (((fst wins + Z.of_nat s)%Z, (snd wins + Z.of_nat s)%Z),
       k + s * (Z.to_nat service_points * 4)).
Proof.
  intros Hr Hfi Hfw Hsp. induction s as [| s IH]; intros wins k.
  - simpl. destruct wins. simpl. do 2 f_equal; lia.
  - rewrite run_repeatM_S, trial_certain by assumption.
    rewrite IH. cbn [fst snd]. f_equal; [f_equal |]; lia.
Qed.

Lemma trials_hopeless (s : nat) :
  (forall i, (0 <= rnd i)%Q) -> (fw <= 0)%Q -> (sw <= 0)%Q ->
  forall wins k,
    fst (runState
           (repeatM s (Analyzer.trial rnd fi fw sw service_points best_of) wins)
           k) = wins.
Proof.
  intros Hr Hfw Hsw. induction s as [| s IH]; intros wins k; [reflexivity |].
  rewrite run_repeatM_S.
  pose proof (trial_hopeless wins k Hr Hfw Hsw) as H.
  destruct (runState (Analyzer.trial rnd fi fw sw service_points best_of wins) k)
    as [wins1 k1].
  cbn [fst] in H. subst wins1. apply IH.
Qed.

End Extremes.

Local Open Scope Z_scope.

Lemma whole_fraction (n : Z) : n >= 1 -> (inject_Z n / inject_Z n == 1)%Q.
Proof.
  intro Hn. assert (0 < inject_Z n)%Q by (rewrite <- (Zlt_Qlt 0); lia).
  field. lra.
Qed.

Lemma zero_fraction (n : Z) : (inject_Z 0 / inject_Z n == 0)%Q.
Proof. unfold Qdiv. rewrite Qmult_0_l. reflexivity. Qed.

(** X15. A server whose first serve always lands and always wins the point
    wins every simulated match under both strategies.  With draws below 1,
    as [np.random.random()] gives them, first-serve-in and first-serve-win
    rates of at least 1, a positive number of service points and at least
    one simulation, both win counts are [num_sims], both probabilities are
    1, and exactly four draws per service point and simulation are
    consumed. *)
Theorem certain_server_always_wins (rnd : nat -> Q) (fi fw sw : Q)
  (service_points best_of num_sims : Z) (k : nat) :
  (forall i, (rnd i < 1)%Q) -> (1 <= fi)%Q -> (1 <= fw)%Q ->
  service_points > 0 -> num_sims >= 1 ->
  exists r,
    runState
      (Analyzer.simulate_match_outcome rnd fi fw sw service_points best_of
         num_sims) k
    = (inr r,
       (k + Z.to_nat num_sims * (Z.to_nat service_points * 4))%nat)
    /\ Analyzer.Sim.traditional_wins r = num_sims
    /\ Analyzer.Sim.only_first_wins r = num_sims
    /\ (Analyzer.Sim.traditional_prob r == 1)%Q
    /\ (Analyzer.Sim.only_first_prob r == 1)%Q.
Proof.
  intros Hr Hfi Hfw Hsp Hn.
  rewrite analyzer_simulate_run by lia. unfold for_range.
  rewrite trials_certain by assumption. cbn [fst snd].
  rewrite Z.add_0_l, Z2Nat.id by lia.
  eexists. split; [reflexivity |]. simpl.
  repeat split; apply whole_fraction; exact Hn.
Qed.

(** Every draw is 0; two simulations of two service points. *)
Lemma certain_server_witness :
  (forall i : nat, ((fun _ : nat => 0%Q) i < 1)%Q)
  /\ (1 <= 1)%Q /\ (1 <= 1)%Q /\ 2 > 0 /\ 2 >= 1
  /\ exists r,
       runState
         (Analyzer.simulate_match_outcome (fun _ : nat => 0%Q) 1 1 0 2 3 2)
         0%nat
       = (inr r, (0 + Z.to_nat 2 * (Z.to_nat 2 * 4))%nat)
       /\ Analyzer.Sim.traditional_wins r = 2
       /\ Analyzer.Sim.only_first_wins r = 2
       /\ (Analyzer.Sim.traditional_prob r == 1)%Q
       /\ (Analyzer.Sim.only_first_prob r == 1)%Q.
Proof.
  assert (H0 : forall i : nat, ((fun _ : nat => 0%Q) i < 1)%Q)
    by (intro i; reflexivity).
  assert (H1 : (1 <= 1)%Q) by discriminate.
  assert (H2 : 2 > 0) by reflexivity.
  assert (H3 : 2 >= 1) by discriminate.
  split; [exact H0 |]. split; [exact H1 |]. split; [exact H1 |].
  split; [exact H2 |]. split; [exact H3 |].
  exact (certain_server_always_wins (fun _ : nat => 0%Q) 1 1 0 2 3 2 0%nat
           H0 H1 H1 H2 H3).
Defined.

(** X16. A server who never wins a point on serve never wins a simulated
    match.  With draws that are not negative, first-serve-win and
    second-serve-win rates of at most 0 and at least one simulation, both
    win counts and both probabilities are 0, whatever the first-serve-in
    rate and the number of service points; in [update_data.py] too. *)
Theorem hopeless_server_never_wins (rnd : nat -> Q) (fi fw sw : Q)
  (service_points best_of num_sims : Z) (k : nat) :
  (forall i, (0 <= rnd i)%Q) -> (fw <= 0)%Q -> (sw <= 0)%Q ->
  num_sims >= 1 ->
  (exists r k',
     runState
       (Analyzer.simulate_match_outcome rnd fi fw sw service_points best_of
          num_sims) k = (inr r, k')
     /\ Analyzer.Sim.traditional_wins r = 0
     /\ Analyzer.Sim.only_first_wins r = 0
     /\ (Analyzer.Sim.traditional_prob r == 0)%Q
     /\ (Analyzer.Sim.only_first_prob r == 0)%Q)
  /\ (exists r k',
        runState
          (UpdateData.simulate_match_outcome rnd fi fw sw service_points
             best_of) k = (r, k')
        /\ (UpdateData.Sim.traditional_prob r == 0)%Q
        /\ (UpdateData.Sim.only_first_prob r == 0)%Q).
Proof.
  intros Hr Hfw Hsw Hn. split.
  - rewrite analyzer_simulate_run by lia. unfold for_range.
    pose proof (trials_hopeless rnd fi fw sw service_points best_of
                  (Z.to_nat num_sims) Hr Hfw Hsw (0, 0) k) as H.
    destruct (runState (repeatM (Z.to_nat num_sims) _ (0, 0)) k) as [wins k'].
    cbn [fst] in H. subst wins.
    eexists. exists k'. split; [reflexivity |]. simpl.
    repeat split; apply zero_fraction.
  - rewrite update_data_simulate_run. unfold for_range.
    pose proof (trials_hopeless rnd fi fw sw service_points best_of
                  (Z.to_nat UpdateData.NUM_SIMULATIONS) Hr Hfw Hsw (0, 0) k)
      as H.
    destruct (runState (repeatM (Z.to_nat UpdateData.NUM_SIMULATIONS) _ (0, 0)) k)
      as [wins k'].
    cbn [fst] in H. subst wins.
    eexists. exists k'. split; [reflexivity |]. simpl.
    split; apply zero_fraction.
Qed.

(** Every draw is 0; two simulations of two service points. *)
Lemma hopeless_server_witness :
  (forall i : nat, (0 <= (fun _ : nat => 0%Q) i)%Q)
  /\ (0 <= 0)%Q /\ 2 >= 1
  /\ exists r k',
       runState
         (Analyzer.simulate_match_outcome (fun _ : nat => 0%Q) (1 # 2) 0 0
            2 3 2) 0%nat = (inr r, k')
       /\ Analyzer.Sim.traditional_wins r = 0
       /\ Analyzer.Sim.only_first_wins r = 0
       /\ (Analyzer.Sim.traditional_prob r == 0)%Q
       /\ (Analyzer.Sim.only_first_prob r == 0)%Q.
Proof.
  assert (H0 : forall i : nat, (0 <= (fun _ : nat => 0%Q) i)%Q)
    by (intro i; discriminate).
  assert (H1 : (0 <= 0)%Q) by discriminate.
  assert (H2 : 2 >= 1) by discriminate.
  split; [exact H0 |]. split; [exact H1 |]. split; [exact H2 |].
  exact (proj1 (hopeless_server_never_wins (fun _ : nat => 0%Q) (1 # 2) 0 0
                  2 3 2 0%nat H0 H1 H1 H2)).
Defined.

(* ===================================================================== *)
(** ** Rounding errors of binary64 *)
(* ===================================================================== *)

Local Open Scope Q_scope.

Lemma pow2_pos (z : Z) : 0 < B64.pow2 z.
Proof.
  unfold B64.pow2. destruct (0 <=? z)%Z eqn:E.
  - rewrite <- (Zlt_Qlt 0). apply Z.pow_pos_nonneg; lia.
  - reflexivity.
Qed.

Lemma pow2_small (z : Z) : (z <= -50)%Z -> B64.pow2 z <= 1 # 1125899906842624.
Proof.
  intro Hz. unfold B64.pow2.
  replace (0 <=? z)%Z with false by lia.
  unfold Qle. cbn [Qnum Qden].
  rewrite Z2Pos.id by (apply Z.pow_pos_nonneg; lia).
  change (Z.pos 1125899906842624) with (2 ^ 50)%Z.
  rewrite !Z.mul_1_l. apply Z.pow_le_mono_r; lia.
Qed.

(** A number of size at most 4 has a binary exponent of at most 2. *)
Lemma ilog2_small (x : Q) : -4 <= x <= 4 -> (B64.ilog2 x <= 2)%Z.
Proof.
  intros [Hlo Hhi]. unfold B64.ilog2.
  assert (Hk : (Z.log2 (Z.abs (Qnum x)) - Z.log2 (Z.pos (Qden x)) <= 2)%Z).
  { destruct x as [n d]. unfold Qle in Hlo, Hhi. cbn [Qnum Qden] in *.
    assert (Hn : (Z.abs n <= Z.pos d * 2 ^ 2)%Z) by lia.
    apply Z.log2_le_mono in Hn.
    rewrite Z.log2_mul_pow2 in Hn by lia. lia. }
  destruct (Py.Qltb _ _); lia.
Qed.

(** Rounding a number of size at most 4 moves it by at most [2^-51]. *)
Lemma round_error (x : Q) :
  -4 <= x <= 4 -> - B64.eps <= B64.round x - x <= B64.eps.
Proof.
  intro Hx. pose proof (ilog2_small x Hx) as He.
  unfold B64.round.
  set (q := B64.pow2 (Z.max (B64.ilog2 x) (-1022) - 52)).
  assert (Hq0 : 0 < q) by apply pow2_pos.
  assert (Hq : q <= 1 # 1125899906842624) by (apply pow2_small; lia).
  destruct (round_half_even_spec (x / q)) as (H1 & H2 & _).
  set (m := inject_Z (Py.round_half_even (x / q))) in *.
  assert (E : m * q - x == (m - x / q) * q) by (field; lra).
  assert (Ht : - (1 # 2) <= m - x / q <= 1 # 2) by (split; lra).
  clearbody m q. revert E Ht. generalize (m - x / q). intros t E Ht.
  assert (Ha : 0 <= ((1 # 2) - t) * q) by (apply Qmult_le_0_compat; lra).
  assert (Hb : 0 <= (t + (1 # 2)) * q) by (apply Qmult_le_0_compat; lra).
  rewrite E. unfold B64.eps. split; lra.
Qed.

(** A factor between 0 and 1 does not enlarge an error. *)
Lemma scaled_error (e x y : Q) :
  0 <= y <= 1 -> - e <= x <= e -> - e <= x * y <= e.
Proof.
  intros Hy Hx.
  assert (H1 : 0 <= (e - x) * y) by (apply Qmult_le_0_compat; lra).
  assert (H2 : 0 <= (x + e) * y) by (apply Qmult_le_0_compat; lra).
  assert (H3 : 0 <= e * (1 - y)) by (apply Qmult_le_0_compat; lra).
  split; lra.
Qed.

(** The binary64 product of two rates is within [2^-51] of their product. *)
Lemma mul_rates_error (fi fw : Q) :
  0 < fi <= 1 -> 0 < fw <= 1 ->
  - B64.eps <= B64.mul fi fw - fi * fw <= B64.eps.
Proof.
  intros Hfi Hfw. unfold B64.mul. apply round_error.
  assert (0 <= fi * fw) by (apply Qmult_le_0_compat; lra).
  assert (0 <= fi * (1 - fw)) by (apply Qmult_le_0_compat; lra).
  split; lra.
Qed.

Lemma eps_small : 0 <= B64.eps <= 1 # 16.
Proof. split; discriminate. Qed.

(** The benefit computed in binary64 is within [8 * 2^-51] of
    [(1 - firstIn) * (firstIn * firstWin - secondWin)]. *)
Lemma float_benefit_error (fi fw sw : Q) :
  0 < fi <= 1 -> 0 < fw <= 1 -> 0 <= sw <= 1 ->
  - (8 * B64.eps)
  <= Serve.benefit (FloatServe.serve_outcome fi fw sw)
     - (1 - fi) * (fi * fw - sw)
  <= 8 * B64.eps.
Proof.
  intros Hfi Hfw Hsw. pose proof eps_small as He.
  unfold FloatServe.serve_outcome. cbn [Serve.benefit].
  unfold B64.add, B64.sub, B64.mul.
  assert (F1 : 0 <= fi * fw <= 1).
  { assert (0 <= fi * fw) by (apply Qmult_le_0_compat; lra).
    assert (0 <= fi * (1 - fw)) by (apply Qmult_le_0_compat; lra).
    split; lra. }
  assert (F2 : 0 <= fi * fi <= 1).
  { assert (0 <= fi * fi) by (apply Qmult_le_0_compat; lra).
    assert (0 <= fi * (1 - fi)) by (apply Qmult_le_0_compat; lra).
    split; lra. }
  assert (F3 : 0 <= fi * fi * fw <= 1).
  { assert (0 <= fi * fi * fw) by (apply Qmult_le_0_compat; lra).
    assert (0 <= fi * fi * (1 - fw)) by (apply Qmult_le_0_compat; lra).
    split; lra. }
  assert (F4 : 0 <= fi * sw <= 1).
  { assert (0 <= fi * sw) by (apply Qmult_le_0_compat; lra).
    assert (0 <= fi * (1 - sw)) by (apply Qmult_le_0_compat; lra).
    split; lra. }
  (* the product of the two first-serve rates *)
  pose proof (round_error (fi * fw) ltac:(split; lra)) as HP.
  revert HP. generalize (B64.round (fi * fw)). intros P HP.
  (* 1 - first_in_pct *)
  pose proof (round_error (1 - fi) ltac:(split; lra)) as HA.
  revert HA. generalize (B64.round (1 - fi)). intros A HA.
  pose proof (scaled_error B64.eps (A - (1 - fi)) fi ltac:(lra) HA) as SA.
  pose proof (scaled_error B64.eps (A - (1 - fi)) sw ltac:(lra) HA) as SD.
  (* (1 - first_in_pct) * first_in_pct *)
  pose proof (round_error (A * fi) ltac:(split; lra)) as HB.
  revert HB. generalize (B64.round (A * fi)). intros B HB.
  assert (HB2 : - (2 * B64.eps) <= B - (fi - fi * fi) <= 2 * B64.eps)
    by (split; lra).
  pose proof (scaled_error (2 * B64.eps) (B - (fi - fi * fi)) fw
                ltac:(lra) HB2) as SB.
  (* ... * first_win_pct *)
  pose proof (round_error (B * fw) ltac:(split; lra)) as HC.
  revert HC. generalize (B64.round (B * fw)). intros C HC.
  (* only_first *)
  pose proof (round_error (P + C) ltac:(split; lra)) as HO.
  revert HO. generalize (B64.round (P + C)). intros O HO.
  (* (1 - first_in_pct) * second_win_pct *)
  pose proof (round_error (A * sw) ltac:(split; lra)) as HD.
  revert HD. generalize (B64.round (A * sw)). intros D HD.
  (* traditional *)
  pose proof (round_error (P + D) ltac:(split; lra)) as HT.
  revert HT. generalize (B64.round (P + D)). intros T HT.
  (* the benefit *)
  pose proof (round_error (O - T) ltac:(split; lra)) as HN.
  revert HN. generalize (B64.round (O - T)). intros N HN.
  split; lra.
Qed.

(* ===================================================================== *)
(** ** The flag and the sign of the benefit, in binary64 *)
(* ===================================================================== *)

(** C6. On first-serve-in and first-serve-win rates in (0,1] and a
    second-serve-win rate in [0,1], the only-first-better flag is true
    exactly when the product [firstIn * firstWin], as the script computes
    it in binary64, is strictly greater than [secondWin], and false
    exactly when it is not: a plain comparison, without tolerance.  The
    computed product is within [2^-51] of the exact one, so the flag is
    that of the exact product whenever the exact product and [secondWin]
    are more than [2^-51] apart. *)
Theorem only_first_better_exact (fi fw sw : Q) :
  0 < fi <= 1 -> 0 < fw <= 1 -> 0 <= sw <= 1 ->
  let flag := Serve.only_first_better (FloatServe.serve_outcome fi fw sw) in
  (flag = true <-> sw < B64.mul fi fw)
  /\ (flag = false <-> B64.mul fi fw <= sw)
  /\ - B64.eps <= B64.mul fi fw - fi * fw <= B64.eps
  /\ (sw + B64.eps < fi * fw -> flag = true)
  /\ (fi * fw + B64.eps <= sw -> flag = false).
Proof.
  intros Hfi Hfw Hsw flag. subst flag.
  unfold FloatServe.serve_outcome. cbn [Serve.only_first_better].
  pose proof (mul_rates_error fi fw Hfi Hfw) as Hm.
  split; [apply Qgtb_true_iff |].
  split; [apply Qgtb_false_iff |].
  split; [exact Hm |].
  split; intro Hfar.
  - apply Qgtb_true_iff. lra.
  - apply Qgtb_false_iff. lra.
Qed.

(** The performance with 15 service points, 6 first serves in, 5 of them
    won and 3 second-serve points won: the exact rates tie, 6/15 * 5/6 =
    3/9, and the script sets the flag, its product being
    0.33333333333333337 against 0.3333333333333333. *)
Lemma only_first_better_witness :
  let fi := FloatServe.first_in_pct 15 6 in
  let fw := FloatServe.first_win_pct 6 5 in
  let sw := FloatServe.second_win_pct 15 6 3 in
  0 < fi <= 1 /\ 0 < fw <= 1 /\ 0 <= sw <= 1
  /\ Serve.only_first_better (FloatServe.serve_outcome fi fw sw) = true
  /\ sw < B64.mul fi fw.
Proof.
  intros fi fw sw.
  assert (H1 : 0 < fi <= 1)
    by (subst fi; vm_compute; split; [reflexivity | discriminate]).
  assert (H2 : 0 < fw <= 1)
    by (subst fw; vm_compute; split; [reflexivity | discriminate]).
  assert (H3 : 0 <= sw <= 1)
    by (subst sw; vm_compute; split; discriminate).
  assert (Hflag : Serve.only_first_better (FloatServe.serve_outcome fi fw sw)
                  = true) by (subst fi fw sw; vm_compute; reflexivity).
  split; [exact H1 |]. split; [exact H2 |]. split; [exact H3 |].
  split; [exact Hflag |].
  exact (proj1 (proj1 (only_first_better_exact fi fw sw H1 H2 H3)) Hflag).
Defined.

(** The performance with 72 service points, 40 first serves in, 27 of them
    won and 12 second-serve points won passes the guards; its rates are
    off the boundary, in exact and in binary64 arithmetic, and its flag is
    set; yet the script computes equal expected rates for the two
    strategies, a benefit of exactly 0 and a [benefit_pct] of 0, which is
    not positive. *)
Lemma benefit_sign_fails_on_binary64 :
  let fi := FloatServe.first_in_pct 72 40 in
  let fw := FloatServe.first_win_pct 40 27 in
  let sw := FloatServe.second_win_pct 72 40 12 in
  let outcome := FloatServe.serve_outcome fi fw sw in
  (72 > 0 /\ 40 > 0 /\ 72 - 40 > 0)%Z
  /\ 0 < fi <= 1 /\ 0 < fw <= 1 /\ 0 <= sw <= 1
  /\ ~ fi * fw == sw
  /\ ~ B64.mul fi fw == sw
  /\ Serve.only_first_better outcome = true
  /\ Serve.benefit outcome == 0
  /\ B64.mul (Serve.benefit outcome) 100 == 0
  /\ ~ 0 < Serve.benefit outcome.
Proof.
  vm_compute. repeat split; discriminate.
Qed.

(** C8, as the code has it.  On first-serve-in and first-serve-win rates in
    (0,1] and a second-serve-win rate in [0,1], the sign of the benefit
    that the script computes agrees with the flag to within a tolerance of
    1e-9: the benefit is above -1e-9 when the flag is set and below 1e-9
    when it is not.  Away from the boundary the agreement is strict: when
    the exact benefit [(1 - firstIn) * (firstIn * firstWin - secondWin)]
    is above [2^-48] the flag is set and the computed benefit is positive,
    and when it is below [- 2^-48] the flag is not set and the computed
    benefit is negative. *)
Theorem benefit_sign_agrees (fi fw sw : Q) :
  0 < fi <= 1 -> 0 < fw <= 1 -> 0 <= sw <= 1 ->
  let outcome := FloatServe.serve_outcome fi fw sw in
  (Serve.only_first_better outcome = true ->
   - (1 # 1000000000) < Serve.benefit outcome)
  /\ (Serve.only_first_better outcome = false ->
      Serve.benefit outcome < 1 # 1000000000)
  /\ (8 * B64.eps < (1 - fi) * (fi * fw - sw) ->
      Serve.only_first_better outcome = true /\ 0 < Serve.benefit outcome)
  /\ ((1 - fi) * (fi * fw - sw) < - (8 * B64.eps) ->
      Serve.only_first_better outcome = false /\ Serve.benefit outcome < 0).
Proof.
  intros Hfi Hfw Hsw outcome. subst outcome.
  pose proof (float_benefit_error fi fw sw Hfi Hfw Hsw) as Hb.
  pose proof (mul_rates_error fi fw Hfi Hfw) as Hm.
  revert Hb. generalize (Serve.benefit (FloatServe.serve_outcome fi fw sw)).
  intros N Hb.
  unfold FloatServe.serve_outcome. cbn [Serve.only_first_better].
  revert Hm. generalize (B64.mul fi fw). intros P Hm.
  unfold B64.eps in *.
  split; [| split; [| split]].
  - intro Hflag. apply Qgtb_true_iff in Hflag.
    assert (Hx : 0 <= (1 - fi) * (fi * fw - sw + (1 # 2251799813685248)))
      by (apply Qmult_le_0_compat; lra).
    lra.
  - intro Hflag. apply Qgtb_false_iff in Hflag.
    assert (Hx : 0 <= (1 - fi) * (sw - fi * fw + (1 # 2251799813685248)))
      by (apply Qmult_le_0_compat; lra).
    lra.
  - intro Hfar. split; [| lra].
    apply Qgtb_true_iff.
    destruct (Qlt_le_dec (8 # 2251799813685248) (fi * fw - sw)) as [Hd | Hd];
      [lra |].
    assert (Hx : 0 <= fi * ((8 # 2251799813685248) - (fi * fw - sw)))
      by (apply Qmult_le_0_compat; lra).
    assert (Hy : 0 <= (1 - fi) * ((8 # 2251799813685248) - (fi * fw - sw)))
      by (apply Qmult_le_0_compat; lra).
    lra.
  - intro Hfar. split; [| lra].
    apply Qgtb_false_iff.
    destruct (Qlt_le_dec (fi * fw - sw) (- (8 # 2251799813685248)))
      as [Hd | Hd]; [lra |].
    assert (Hy : 0 <= (1 - fi) * ((fi * fw - sw) + (8 # 2251799813685248)))
      by (apply Qmult_le_0_compat; lra).
    lra.
Qed.

(** The same performance of 72 service points: its flag is set and its
    computed benefit, 0, is above -1e-9. *)
Lemma benefit_sign_witness :
  let fi := FloatServe.first_in_pct 72 40 in
  let fw := FloatServe.first_win_pct 40 27 in
  let sw := FloatServe.second_win_pct 72 40 12 in
  0 < fi <= 1 /\ 0 < fw <= 1 /\ 0 <= sw <= 1
  /\ Serve.only_first_better (FloatServe.serve_outcome fi fw sw) = true
  /\ - (1 # 1000000000) < Serve.benefit (FloatServe.serve_outcome fi fw sw).
Proof.
  intros fi fw sw.
  assert (H1 : 0 < fi <= 1)
    by (subst fi; vm_compute; split; [reflexivity | discriminate]).
  assert (H2 : 0 < fw <= 1)
    by (subst fw; vm_compute; split; [reflexivity | discriminate]).
  assert (H3 : 0 <= sw <= 1)
    by (subst sw; vm_compute; split; discriminate).
  assert (Hflag : Serve.only_first_better (FloatServe.serve_outcome fi fw sw)
                  = true) by (subst fi fw sw; vm_compute; reflexivity).
  split; [exact H1 |]. split; [exact H2 |]. split; [exact H3 |].
  split; [exact Hflag |].
  exact (proj1 (benefit_sign_agrees fi fw sw H1 H2 H3) Hflag).
Defined.
